(** * The record control block of the data layer (internal-model.js)

    A shallow embedding of [InternalModel]: the lifecycle transitions with
    their transition-chain cache, event dispatch, the identity and attribute
    setters, materialisation of the facade, unloading and destruction, and
    the two many-array caches.

    The methods are written as state-passing computations over the fields of
    the block.  What a method asks of its collaborators (store, run loop,
    facade, many arrays, promise proxies) is recorded, in order, in the
    [trace] of the block; what the collaborators answer is taken as given.
    An [assert] throws when its condition fails, as in a debug build.  The
    [heimdall] counters are left out. *)

From Stdlib Require Import Ascii String.
From stdpp Require Import base strings list gmap.

Local Open Scope string_scope.
Local Set Warnings "-register-all,-clear-no-such-hyp".

(** ** Outcomes of running code *)

Inductive Err : Type :=
| TypeError
| EmberError (msg : string)
| AssertionFailed (msg : string).

(** A computation over a state [S] returns, throws, or is cut off when its
    loop budget is used up. *)
Inductive Outcome (S A : Type) : Type :=
| Ret (a : A) (s : S)
| Throw (e : Err) (s : S)
| Timeout.
Arguments Ret {S A} a s.
Arguments Throw {S A} e s.
Arguments Timeout {S A}.

Definition M (S A : Type) : Type := S -> Outcome S A.

Definition ret {S A : Type} (a : A) : M S A := fun s => Ret a s.

Definition bind {S A B : Type} (m : M S A) (k : A -> M S B) : M S B :=
  fun s =>
    match m s with
    | Ret a s' => k a s'
    | Throw e s' => Throw e s'
    | Timeout => Timeout
    end.

Definition throw {S A : Type} (e : Err) : M S A := fun s => Throw e s.

Definition gets {S A : Type} (f : S -> A) : M S A := fun s => Ret (f s) s.

Definition modify {S : Type} (f : S -> S) : M S unit := fun s => Ret tt (f s).

(** [assert(msg, cond)] of [@ember/debug]: throws when [cond] is falsy. *)
Definition assert {S : Type} (msg : string) (cond : bool) : M S unit :=
  if cond then ret tt else throw (AssertionFailed msg).

(** Sequencing of effectful steps. *)
Declare Scope js_scope.
Delimit Scope js_scope with js.
Bind Scope js_scope with M.
Notation "x <- m ;; k" := (bind m (fun x => k))
  (at level 100, m at next level, right associativity) : js_scope.
Notation "m ;; k" := (bind m (fun _ => k))
  (at level 100, right associativity) : js_scope.
Local Open Scope js_scope.

(** [list.forEach(f)]. *)
Fixpoint forEach {S A : Type} (l : list A) (f : A -> M S unit) : M S unit :=
  match l with
  | [] => ret tt
  | x :: l' => f x ;; forEach l' f
  end.

(** ** Objects used as maps

    [Object.create(null)] tables keep their keys in insertion order, which is
    the order [Object.keys] walks them in (keys are relationship names, never
    array indices). *)

Fixpoint obj_get {A : Type} (o : list (string * A)) (k : string) : option A :=
  match o with
  | [] => None
  | (k', v) :: o' => if decide (k = k') then Some v else obj_get o' k
  end.

Fixpoint obj_set {A : Type} (k : string) (v : A) (o : list (string * A))
  : list (string * A) :=
  match o with
  | [] => [(k, v)]
  | (k', v') :: o' =>
      if decide (k = k') then (k, v) :: o' else (k', v') :: obj_set k v o'
  end.

Fixpoint obj_delete {A : Type} (k : string) (o : list (string * A))
  : list (string * A) :=
  match o with
  | [] => []
  | (k', v') :: o' =>
      if decide (k = k') then obj_delete k o' else (k', v') :: obj_delete k o'
  end.

(** [Object.keys(o)]: every key once. *)
Definition obj_keys {A : Type} (o : list (string * A)) : list string :=
  remove_dups (map fst o).

(** One string occurring inside another. *)
Definition contains (part whole : string) : Prop :=
  exists before after, whole = before +:+ part +:+ after.

(** ** JavaScript values *)

(** Functions of the state graph are opaque: a value only carries the name
    under which the collaborator knows them. *)
Definition FunId := nat.

(** The two kinds of things the block only holds references to: the state
    objects of the lifecycle graph, and the per-entity storage primitive
    ("model data") of the store. *)
Class Domains : Type := {
  StateId : Type;
  StateId_eq_dec :: EqDecision StateId;
  MD : Type
}.

Section Values.
Context `{Domains}.

(** The values that flow through the control block.  [VRef] is an opaque
    object known by its address, [VObj] a freshly written object literal. *)
Inductive JsVal : Type :=
| VUndef
| VNull
| VBool (b : bool)
| VStr (s : string)
| VFun (f : FunId)
| VState (s : StateId)
| VRef (a : nat)
| VObj (fields : list (string * JsVal)).

(** [!!v] and [if (v)]. *)
Definition truthy (v : JsVal) : bool :=
  match v with
  | VUndef | VNull => false
  | VBool b => b
  | VStr s => negb (bool_decide (s = ""))
  | VFun _ | VState _ | VRef _ | VObj _ => true
  end.

(** [a === b]; two object literals are never the same object. *)
Definition strict_eq (a b : JsVal) : bool :=
  match a, b with
  | VUndef, VUndef => true
  | VNull, VNull => true
  | VBool x, VBool y => bool_decide (x = y)
  | VStr x, VStr y => bool_decide (x = y)
  | VFun x, VFun y => bool_decide (x = y)
  | VState x, VState y => bool_decide (x = y)
  | VRef x, VRef y => bool_decide (x = y)
  | _, _ => false
  end.

(** The string a template literal makes of a state's name. *)
Definition js_to_string (v : JsVal) : string :=
  match v with
  | VUndef => "undefined"
  | VNull => "null"
  | VBool true => "true"
  | VBool false => "false"
  | VStr s => s
  | VFun _ => "function"
  | VState _ | VRef _ | VObj _ => "[object Object]"
  end.

(** [typeof v === 'object' && v !== null]. *)
Definition is_object (v : JsVal) : bool :=
  match v with
  | VState _ | VRef _ | VObj _ => true
  | _ => false
  end.

(** ** The control block

    The facade ([DS.Model] instance) as the block sees it: which object it
    is, and the two flags [destroy] asks it for. *)
Record Record_ : Type := {
  r_id : nat;
  r_isDestroyed : bool;
  r_isDestroying : bool
}.

(** A cached promise proxy; not all of them have a [destroy] method. *)
Record PromiseProxy : Type := {
  p_id : nat;
  p_destroy : bool
}.

(** Calls the block makes on its collaborators (store, run loop, facade,
    many arrays), in the order they are made. *)
Inductive Event : Type :=
| RecordDidChange
| FactoryCreate (r : nat) (createOptions : list (string * JsVal))
| RecordSet (r : nat) (key : string) (v : JsVal)
| RecordDestroy (r : nat)
| RecordNotifyPropertyChange (r : nat) (key : string)
| RecordTrigger (r : nat) (args : list JsVal)
| ManyArrayCreate (m : nat) (key : string)
| ManyArrayDestroy (m : nat)
| ManyArrayRemoveUnloaded (m : nat)
| PromiseDestroy (p : nat)
| Schedule (timer : nat)
| Cancel (timer : option nat)
| RemoveFromIdMap.

(** The fields of an [InternalModel], followed by what the block can see of
    its surroundings: the calls made so far, the next unused object address,
    [run.currentRunLoop] and [Ember.testing]. *)
Record InternalModel : Type := {
  id : JsVal;
  modelName : string;
  currentState : JsVal;
  _record : option Record_;
  _isDestroyed : bool;
  isDestroying : bool;
  _isDematerializing : bool;
  _doNotDestroy : bool;
  _scheduledDestroy : option nat;
  isReloading : bool;
  error : JsVal;
  isError : bool;
  _manyArrayCache : list (string * nat);
  _retainedManyArrayCache : list (string * nat);
  _relationshipPromisesCache : list (string * PromiseProxy);
  _modelData : MD;
  _deferredTriggers : list (list JsVal);
  trace : list Event;
  fresh : nat;
  currentRunLoop : bool;
  testing : bool
}.

Definition set_id (v : JsVal) (c : InternalModel) : InternalModel :=
  {| id := v; modelName := modelName c; currentState := currentState c;
     _record := _record c; _isDestroyed := _isDestroyed c;
     isDestroying := isDestroying c;
     _isDematerializing := _isDematerializing c;
     _doNotDestroy := _doNotDestroy c;
     _scheduledDestroy := _scheduledDestroy c; isReloading := isReloading c;
     error := error c; isError := isError c;
     _manyArrayCache := _manyArrayCache c;
     _retainedManyArrayCache := _retainedManyArrayCache c;
     _relationshipPromisesCache := _relationshipPromisesCache c;
     _modelData := _modelData c; _deferredTriggers := _deferredTriggers c;
     trace := trace c; fresh := fresh c; currentRunLoop := currentRunLoop c;
     testing := testing c |}.

Definition set_currentState (v : JsVal) (c : InternalModel) : InternalModel :=
  {| id := id c; modelName := modelName c; currentState := v;
     _record := _record c; _isDestroyed := _isDestroyed c;
     isDestroying := isDestroying c;
     _isDematerializing := _isDematerializing c;
     _doNotDestroy := _doNotDestroy c;
     _scheduledDestroy := _scheduledDestroy c; isReloading := isReloading c;
     error := error c; isError := isError c;
     _manyArrayCache := _manyArrayCache c;
     _retainedManyArrayCache := _retainedManyArrayCache c;
     _relationshipPromisesCache := _relationshipPromisesCache c;
     _modelData := _modelData c; _deferredTriggers := _deferredTriggers c;
     trace := trace c; fresh := fresh c; currentRunLoop := currentRunLoop c;
     testing := testing c |}.

Definition set__record (v : option Record_) (c : InternalModel) : InternalModel :=
  {| id := id c; modelName := modelName c; currentState := currentState c;
     _record := v; _isDestroyed := _isDestroyed c;
     isDestroying := isDestroying c;
     _isDematerializing := _isDematerializing c;
     _doNotDestroy := _doNotDestroy c;
     _scheduledDestroy := _scheduledDestroy c; isReloading := isReloading c;
     error := error c; isError := isError c;
     _manyArrayCache := _manyArrayCache c;
     _retainedManyArrayCache := _retainedManyArrayCache c;
     _relationshipPromisesCache := _relationshipPromisesCache c;
     _modelData := _modelData c; _deferredTriggers := _deferredTriggers c;
     trace := trace c; fresh := fresh c; currentRunLoop := currentRunLoop c;
     testing := testing c |}.

Definition set__isDestroyed (v : bool) (c : InternalModel) : InternalModel :=
  {| id := id c; modelName := modelName c; currentState := currentState c;
     _record := _record c; _isDestroyed := v; isDestroying := isDestroying c;
     _isDematerializing := _isDematerializing c;
     _doNotDestroy := _doNotDestroy c;
     _scheduledDestroy := _scheduledDestroy c; isReloading := isReloading c;
     error := error c; isError := isError c;
     _manyArrayCache := _manyArrayCache c;
     _retainedManyArrayCache := _retainedManyArrayCache c;
     _relationshipPromisesCache := _relationshipPromisesCache c;
     _modelData := _modelData c; _deferredTriggers := _deferredTriggers c;
     trace := trace c; fresh := fresh c; currentRunLoop := currentRunLoop c;
     testing := testing c |}.

Definition set_isDestroying (v : bool) (c : InternalModel) : InternalModel :=
  {| id := id c; modelName := modelName c; currentState := currentState c;
     _record := _record c; _isDestroyed := _isDestroyed c; isDestroying := v;
     _isDematerializing := _isDematerializing c;
     _doNotDestroy := _doNotDestroy c;
     _scheduledDestroy := _scheduledDestroy c; isReloading := isReloading c;
     error := error c; isError := isError c;
     _manyArrayCache := _manyArrayCache c;
     _retainedManyArrayCache := _retainedManyArrayCache c;
     _relationshipPromisesCache := _relationshipPromisesCache c;
     _modelData := _modelData c; _deferredTriggers := _deferredTriggers c;
     trace := trace c; fresh := fresh c; currentRunLoop := currentRunLoop c;
     testing := testing c |}.

Definition set__isDematerializing (v : bool) (c : InternalModel) : InternalModel :=
  {| id := id c; modelName := modelName c; currentState := currentState c;
     _record := _record c; _isDestroyed := _isDestroyed c;
     isDestroying := isDestroying c; _isDematerializing := v;
     _doNotDestroy := _doNotDestroy c;
     _scheduledDestroy := _scheduledDestroy c; isReloading := isReloading c;
     error := error c; isError := isError c;
     _manyArrayCache := _manyArrayCache c;
     _retainedManyArrayCache := _retainedManyArrayCache c;
     _relationshipPromisesCache := _relationshipPromisesCache c;
     _modelData := _modelData c; _deferredTriggers := _deferredTriggers c;
     trace := trace c; fresh := fresh c; currentRunLoop := currentRunLoop c;
     testing := testing c |}.

Definition set__doNotDestroy (v : bool) (c : InternalModel) : InternalModel :=
  {| id := id c; modelName := modelName c; currentState := currentState c;
     _record := _record c; _isDestroyed := _isDestroyed c;
     isDestroying := isDestroying c;
     _isDematerializing := _isDematerializing c; _doNotDestroy := v;
     _scheduledDestroy := _scheduledDestroy c; isReloading := isReloading c;
     error := error c; isError := isError c;
     _manyArrayCache := _manyArrayCache c;
     _retainedManyArrayCache := _retainedManyArrayCache c;
     _relationshipPromisesCache := _relationshipPromisesCache c;
     _modelData := _modelData c; _deferredTriggers := _deferredTriggers c;
     trace := trace c; fresh := fresh c; currentRunLoop := currentRunLoop c;
     testing := testing c |}.

Definition set__scheduledDestroy (v : option nat) (c : InternalModel) : InternalModel :=
  {| id := id c; modelName := modelName c; currentState := currentState c;
     _record := _record c; _isDestroyed := _isDestroyed c;
     isDestroying := isDestroying c;
     _isDematerializing := _isDematerializing c;
     _doNotDestroy := _doNotDestroy c; _scheduledDestroy := v;
     isReloading := isReloading c; error := error c; isError := isError c;
     _manyArrayCache := _manyArrayCache c;
     _retainedManyArrayCache := _retainedManyArrayCache c;
     _relationshipPromisesCache := _relationshipPromisesCache c;
     _modelData := _modelData c; _deferredTriggers := _deferredTriggers c;
     trace := trace c; fresh := fresh c; currentRunLoop := currentRunLoop c;
     testing := testing c |}.

Definition set_isReloading (v : bool) (c : InternalModel) : InternalModel :=
  {| id := id c; modelName := modelName c; currentState := currentState c;
     _record := _record c; _isDestroyed := _isDestroyed c;
     isDestroying := isDestroying c;
     _isDematerializing := _isDematerializing c;
     _doNotDestroy := _doNotDestroy c;
     _scheduledDestroy := _scheduledDestroy c; isReloading := v;
     error := error c; isError := isError c;
     _manyArrayCache := _manyArrayCache c;
     _retainedManyArrayCache := _retainedManyArrayCache c;
     _relationshipPromisesCache := _relationshipPromisesCache c;
     _modelData := _modelData c; _deferredTriggers := _deferredTriggers c;
     trace := trace c; fresh := fresh c; currentRunLoop := currentRunLoop c;
     testing := testing c |}.

Definition set_error (v : JsVal) (c : InternalModel) : InternalModel :=
  {| id := id c; modelName := modelName c; currentState := currentState c;
     _record := _record c; _isDestroyed := _isDestroyed c;
     isDestroying := isDestroying c;
     _isDematerializing := _isDematerializing c;
     _doNotDestroy := _doNotDestroy c;
     _scheduledDestroy := _scheduledDestroy c; isReloading := isReloading c;
     error := v; isError := isError c; _manyArrayCache := _manyArrayCache c;
     _retainedManyArrayCache := _retainedManyArrayCache c;
     _relationshipPromisesCache := _relationshipPromisesCache c;
     _modelData := _modelData c; _deferredTriggers := _deferredTriggers c;
     trace := trace c; fresh := fresh c; currentRunLoop := currentRunLoop c;
     testing := testing c |}.

Definition set__manyArrayCache (v : list (string * nat)) (c : InternalModel) : InternalModel :=
  {| id := id c; modelName := modelName c; currentState := currentState c;
     _record := _record c; _isDestroyed := _isDestroyed c;
     isDestroying := isDestroying c;
     _isDematerializing := _isDematerializing c;
     _doNotDestroy := _doNotDestroy c;
     _scheduledDestroy := _scheduledDestroy c; isReloading := isReloading c;
     error := error c; isError := isError c; _manyArrayCache := v;
     _retainedManyArrayCache := _retainedManyArrayCache c;
     _relationshipPromisesCache := _relationshipPromisesCache c;
     _modelData := _modelData c; _deferredTriggers := _deferredTriggers c;
     trace := trace c; fresh := fresh c; currentRunLoop := currentRunLoop c;
     testing := testing c |}.

Definition set__retainedManyArrayCache (v : list (string * nat)) (c : InternalModel) : InternalModel :=
  {| id := id c; modelName := modelName c; currentState := currentState c;
     _record := _record c; _isDestroyed := _isDestroyed c;
     isDestroying := isDestroying c;
     _isDematerializing := _isDematerializing c;
     _doNotDestroy := _doNotDestroy c;
     _scheduledDestroy := _scheduledDestroy c; isReloading := isReloading c;
     error := error c; isError := isError c;
     _manyArrayCache := _manyArrayCache c; _retainedManyArrayCache := v;
     _relationshipPromisesCache := _relationshipPromisesCache c;
     _modelData := _modelData c; _deferredTriggers := _deferredTriggers c;
     trace := trace c; fresh := fresh c; currentRunLoop := currentRunLoop c;
     testing := testing c |}.

Definition set__relationshipPromisesCache (v : list (string * PromiseProxy)) (c : InternalModel) : InternalModel :=
  {| id := id c; modelName := modelName c; currentState := currentState c;
     _record := _record c; _isDestroyed := _isDestroyed c;
     isDestroying := isDestroying c;
     _isDematerializing := _isDematerializing c;
     _doNotDestroy := _doNotDestroy c;
     _scheduledDestroy := _scheduledDestroy c; isReloading := isReloading c;
     error := error c; isError := isError c;
     _manyArrayCache := _manyArrayCache c;
     _retainedManyArrayCache := _retainedManyArrayCache c;
     _relationshipPromisesCache := v; _modelData := _modelData c;
     _deferredTriggers := _deferredTriggers c; trace := trace c;
     fresh := fresh c; currentRunLoop := currentRunLoop c;
     testing := testing c |}.

Definition set__modelData (v : MD) (c : InternalModel) : InternalModel :=
  {| id := id c; modelName := modelName c; currentState := currentState c;
     _record := _record c; _isDestroyed := _isDestroyed c;
     isDestroying := isDestroying c;
     _isDematerializing := _isDematerializing c;
     _doNotDestroy := _doNotDestroy c;
     _scheduledDestroy := _scheduledDestroy c; isReloading := isReloading c;
     error := error c; isError := isError c;
     _manyArrayCache := _manyArrayCache c;
     _retainedManyArrayCache := _retainedManyArrayCache c;
     _relationshipPromisesCache := _relationshipPromisesCache c;
     _modelData := v; _deferredTriggers := _deferredTriggers c;
     trace := trace c; fresh := fresh c; currentRunLoop := currentRunLoop c;
     testing := testing c |}.

Definition set__deferredTriggers (v : list (list JsVal)) (c : InternalModel) : InternalModel :=
  {| id := id c; modelName := modelName c; currentState := currentState c;
     _record := _record c; _isDestroyed := _isDestroyed c;
     isDestroying := isDestroying c;
     _isDematerializing := _isDematerializing c;
     _doNotDestroy := _doNotDestroy c;
     _scheduledDestroy := _scheduledDestroy c; isReloading := isReloading c;
     error := error c; isError := isError c;
     _manyArrayCache := _manyArrayCache c;
     _retainedManyArrayCache := _retainedManyArrayCache c;
     _relationshipPromisesCache := _relationshipPromisesCache c;
     _modelData := _modelData c; _deferredTriggers := v; trace := trace c;
     fresh := fresh c; currentRunLoop := currentRunLoop c;
     testing := testing c |}.

Definition set_trace (v : list Event) (c : InternalModel) : InternalModel :=
  {| id := id c; modelName := modelName c; currentState := currentState c;
     _record := _record c; _isDestroyed := _isDestroyed c;
     isDestroying := isDestroying c;
     _isDematerializing := _isDematerializing c;
     _doNotDestroy := _doNotDestroy c;
     _scheduledDestroy := _scheduledDestroy c; isReloading := isReloading c;
     error := error c; isError := isError c;
     _manyArrayCache := _manyArrayCache c;
     _retainedManyArrayCache := _retainedManyArrayCache c;
     _relationshipPromisesCache := _relationshipPromisesCache c;
     _modelData := _modelData c; _deferredTriggers := _deferredTriggers c;
     trace := v; fresh := fresh c; currentRunLoop := currentRunLoop c;
     testing := testing c |}.

Definition set_fresh (v : nat) (c : InternalModel) : InternalModel :=
  {| id := id c; modelName := modelName c; currentState := currentState c;
     _record := _record c; _isDestroyed := _isDestroyed c;
     isDestroying := isDestroying c;
     _isDematerializing := _isDematerializing c;
     _doNotDestroy := _doNotDestroy c;
     _scheduledDestroy := _scheduledDestroy c; isReloading := isReloading c;
     error := error c; isError := isError c;
     _manyArrayCache := _manyArrayCache c;
     _retainedManyArrayCache := _retainedManyArrayCache c;
     _relationshipPromisesCache := _relationshipPromisesCache c;
     _modelData := _modelData c; _deferredTriggers := _deferredTriggers c;
     trace := trace c; fresh := v; currentRunLoop := currentRunLoop c;
     testing := testing c |}.

Definition emit (e : Event) : M InternalModel unit :=
  modify (fun c => set_trace (trace c ++ [e]) c).

(** A new object address. *)
Definition alloc : M InternalModel nat :=
  fun c => Ret (fresh c) (set_fresh (S (fresh c)) c).


Inductive FieldKind : Type := attribute | belongsTo | hasMany.

End Values.

(** ** Collaborators

    The state objects of [./states] (the root state and its descendants)
    are taken as they are.  Each state is an object whose properties hold its
    name ([stateName]), its parent ([parentState], null at the root), its
    hooks ([enter], [exit], [setup]), its flags ([isNew], [isDeleted], ...),
    its event handlers and its child states, all in one name space, as the
    control block reads them.  [props] lists the properties of a state and
    [call] applies a function held by the graph to the block and a context;
    the tables of this module are private to it, so such a function sees
    and changes the block, not the tables.

    The model data, the class lookup of the store and the debugging printer
    are not part of this file of the program either and are taken as they
    are. *)
Class Collaborators `{Domains} : Type := {
  props : StateId -> list (string * JsVal);
  (* RootState.empty *)
  RootState_empty : StateId;
  call : FunId -> JsVal -> M InternalModel JsVal;
  md_getAttr : MD -> string -> JsVal;
  md_setDirtyAttribute : string -> JsVal -> MD -> MD;
  md_isAttrDirty : MD -> string -> bool;
  md_setDirtyBelongsTo : string -> JsVal -> MD -> JsVal * MD;
  md_setDirtyHasMany : string -> list JsVal -> MD -> MD;
  md_setHasAnyRelationshipData : string -> bool -> MD -> MD;
  md_setRelationshipIsEmpty : string -> bool -> MD -> MD;
  md_unloadRecord : MD -> MD;
  (* what manyArray.removeUnloadedInternalModel() answers *)
  removeUnloadedInternalModel : nat -> MD -> bool;
  (* get(this.modelClass, 'fields').get(name) *)
  getFields : string -> option FieldKind;
  (* inspect of @ember/debug *)
  inspect : JsVal -> string;
  (* isArrayLike(records), with the elements when it is *)
  isArrayLike : JsVal -> option (list JsVal);
  (* record.hasOwnProperty('_internalModel') of a value that is neither null
     nor undefined *)
  hasInternalModel : JsVal -> bool;
  (* record.get('_internalModel._modelData').getResourceIdentifier(); None
     where the value has no get, or what it answers has no
     getResourceIdentifier, so that the call is a TypeError *)
  getResourceIdentifier : JsVal -> option JsVal;
  (* the store and the block itself, as values handed to the factory *)
  store : JsVal;
  this : JsVal
}.

Section Model.
Context `{Collaborators}.

(** [v[k]]: reading a property of undefined or null is a TypeError ([None]);
    a missing property is undefined.  Properties of primitives and of
    functions are not modelled and read as undefined. *)
Definition js_get (v : JsVal) (k : string) : option JsVal :=
  match v with
  | VUndef | VNull => None
  | VState s => Some (default VUndef (obj_get (props s) k))
  | VObj fs => Some (default VUndef (obj_get fs k))
  | VBool _ | VStr _ | VFun _ | VRef _ => Some VUndef
  end.

(** A property read that may hit undefined or null. *)
Definition read {S : Type} (v : JsVal) (k : string) : M S JsVal :=
  match js_get v k with
  | Some x => ret x
  | None => throw TypeError
  end.

(** [v(this, context)]: calling what is not a function is a TypeError. *)
Definition invoke (v : JsVal) (context : JsVal) : M InternalModel JsVal :=
  match v with
  | VFun f => call f context
  | _ => throw TypeError
  end.

(** ** Getters *)

Definition hasRecord (c : InternalModel) : bool :=
  match _record c with Some _ => true | None => false end.

Definition isDestroyed (c : InternalModel) : bool := _isDestroyed c.

Definition hasScheduledDestroy (c : InternalModel) : bool :=
  match _scheduledDestroy c with Some _ => true | None => false end.

Definition isNew : M InternalModel JsVal :=
  cs <- gets currentState ;; read cs "isNew".

Definition isDeleted : M InternalModel JsVal :=
  cs <- gets currentState ;; read cs "isDeleted".

Definition isEmpty : M InternalModel JsVal :=
  cs <- gets currentState ;; read cs "isEmpty".

Definition getAttributeValue (key : string) : M InternalModel JsVal :=
  gets (fun c => md_getAttr (_modelData c) key).

Definition toString (c : InternalModel) : string :=
  "<" +:+ modelName c +:+ ":" +:+ js_to_string (id c) +:+ ">".

(** ** Construction *)

Definition resetRecord : M InternalModel unit :=
  modify (set__record None) ;;
  modify (set_isReloading false) ;;
  modify (set_error VNull) ;;
  modify (set_currentState (VState RootState_empty)).

(** [new InternalModel(modelName, id, store, data, clientId)], in
    surroundings with the given run loop and testing flags. *)
Definition new_InternalModel (modelName0 : string) (id0 : JsVal) (md : MD)
    (runLoop testing0 : bool) : InternalModel :=
  {| id := id0; modelName := modelName0;
     currentState := VState RootState_empty; _record := None;
     _isDestroyed := false; isDestroying := false;
     _isDematerializing := false; _doNotDestroy := false;
     _scheduledDestroy := None; isReloading := false; error := VNull;
     isError := false; _manyArrayCache := []; _retainedManyArrayCache := [];
     _relationshipPromisesCache := []; _modelData := md;
     _deferredTriggers := []; trace := []; fresh := 0;
     currentRunLoop := runLoop; testing := testing0 |}.

(** ** Event dispatch *)

Definition updateRecordArrays : M InternalModel unit := emit RecordDidChange.

Definition _unhandledEvent (state : JsVal) (name : string) (context : JsVal)
  : M InternalModel unit :=
  self <- gets toString ;;
  stateName <- read state "stateName" ;;
  let errorMessage :=
    "Attempted to handle event `" +:+ name +:+ "` "
    +:+ "on " +:+ self +:+ " while in state "
    +:+ js_to_string stateName +:+ ". " in
  let errorMessage :=
    if strict_eq context VUndef then errorMessage
    else errorMessage +:+ "Called with " +:+ inspect context +:+ "." in
  throw (EmberError errorMessage).

Definition send (name : string) (context : JsVal) : M InternalModel JsVal :=
  currentState_ <- gets currentState ;;
  handler <- read currentState_ name ;;
  (if truthy handler then ret tt
   else _unhandledEvent currentState_ name context) ;;
  handler <- read currentState_ name ;;
  invoke handler context.

(** ** Identity and staged attributes *)

Definition setId (id' : JsVal) : M InternalModel unit :=
  cur <- gets id ;;
  ok <- (if strict_eq cur VNull then ret true
         else if strict_eq cur id' then ret true
         else (n <- isNew ;; ret (truthy n))) ;;
  assert "A record's id cannot be changed once it is in the loaded state" ok ;;
  let didChange := negb (strict_eq id' cur) in
  modify (set_id id') ;;
  r <- gets _record ;;
  match r with
  | Some r =>
      if didChange then emit (RecordNotifyPropertyChange (r_id r) "id")
      else ret tt
  | None => ret tt
  end.

Definition setDirtyAttribute (key : string) (value : JsVal)
  : M InternalModel JsVal :=
  deleted <- isDeleted ;;
  (if truthy deleted then
     self <- gets toString ;;
     throw (EmberError ("Attempted to set '" +:+ key +:+ "' to '"
                        +:+ js_to_string value
                        +:+ "' on the deleted record " +:+ self))
   else ret tt) ;;
  currentValue <- getAttributeValue key ;;
  (if strict_eq currentValue value then ret tt
   else
     modify (fun c =>
       set__modelData (md_setDirtyAttribute key value (_modelData c)) c) ;;
     isDirty <- gets (fun c => md_isAttrDirty (_modelData c) key) ;;
     send "didSetProperty"
          (VObj [("name", VStr key); ("isDirty", VBool isDirty)]) ;;
     ret tt) ;;
  ret value.

Definition setDirtyBelongsTo (key : string) (value : JsVal)
  : M InternalModel JsVal :=
  fun c =>
    let '(v, md) := md_setDirtyBelongsTo key value (_modelData c) in
    Ret v (set__modelData md c).

(** [A(records).every(record => record.hasOwnProperty('_internalModel')
    === true)]: the elements are asked one by one, up to the first that
    answers no; asking null or undefined is a TypeError. *)
Fixpoint everyHasInternalModel (elements : list JsVal)
  : M InternalModel bool :=
  match elements with
  | [] => ret true
  | record :: rest =>
      match record with
      | VUndef | VNull => throw TypeError
      | _ =>
          if hasInternalModel record then everyHasInternalModel rest
          else ret false
      end
  end.

(** [records.map(record => record.get('_internalModel._modelData')
    .getResourceIdentifier())]: the elements are asked in order, and the
    first that cannot answer is a TypeError. *)
Definition resourceIdentifiers (elements : list JsVal)
  : M InternalModel (list JsVal) :=
  match mapM getResourceIdentifier elements with
  | Some identifiers => ret identifiers
  | None => throw TypeError
  end.

(** What is array-like is taken to answer [every] and [map] as an array
    does. *)
Definition setDirtyHasMany (key : string) (records : JsVal)
  : M InternalModel unit :=
  assert "You must pass an array of records to set a hasMany relationship"
         (bool_decide (is_Some (isArrayLike records))) ;;
  let elements := default [] (isArrayLike records) in
  allRecords <- everyHasInternalModel elements ;;
  assert ("All elements of a hasMany relationship must be instances of "
          +:+ "DS.Model, you passed " +:+ inspect records)
         allRecords ;;
  identifiers <- resourceIdentifiers elements ;;
  modify (fun c =>
    set__modelData (md_setDirtyHasMany key identifiers (_modelData c)) c).

(** ** Materialising the facade *)

Definition _triggerDeferredTriggers : M InternalModel unit :=
  r <- gets _record ;;
  match r with
  | None => ret tt
  | Some r =>
      triggers <- gets _deferredTriggers ;;
      forEach triggers (fun args => emit (RecordTrigger (r_id r) args)) ;;
      modify (set__deferredTriggers [])
  end.

(** [Object.keys(v)]; the keys of an opaque object are not known. *)
Definition own_keys (v : JsVal) : list string :=
  match v with
  | VState s => obj_keys (props s)
  | VObj fs => obj_keys fs
  | _ => []
  end.

Definition markRelationship (name : string) : M InternalModel unit :=
  modify (fun c =>
    set__modelData
      (md_setRelationshipIsEmpty name false
         (md_setHasAnyRelationshipData name true (_modelData c))) c).

(** The loop of [getRecord] over the names of the initial properties. *)
Fixpoint initProperties (properties : JsVal) (propertyNames : list string)
    (createOptions : list (string * JsVal))
  : M InternalModel (list (string * JsVal)) :=
  match propertyNames with
  | [] => ret createOptions
  | name :: rest =>
      let fieldType := getFields name in
      propertyValue <- read properties name ;;
      if decide (name = "id") then
        setId propertyValue ;;
        initProperties properties rest createOptions
      else
        match fieldType with
        | Some attribute =>
            setDirtyAttribute name propertyValue ;;
            initProperties properties rest createOptions
        | Some belongsTo =>
            setDirtyBelongsTo name propertyValue ;;
            markRelationship name ;;
            initProperties properties rest createOptions
        | Some hasMany =>
            setDirtyHasMany name propertyValue ;;
            markRelationship name ;;
            initProperties properties rest createOptions
        | None =>
            initProperties properties rest
                           (obj_set name propertyValue createOptions)
        end
  end.

Definition getRecord (properties : JsVal)
  : M InternalModel (option Record_) :=
  r <- gets _record ;;
  dematerializing <- gets _isDematerializing ;;
  (match r with
   | None =>
       if dematerializing then ret tt
       else
         cs <- gets currentState ;;
         isError_ <- gets isError ;;
         error_ <- gets error ;;
         let createOptions :=
           [("store", store); ("_internalModel", this);
            ("currentState", cs); ("isError", VBool isError_);
            ("adapterError", error_)] in
         createOptions <-
           (if strict_eq properties VUndef then ret createOptions
            else
              assert ("You passed '" +:+ js_to_string properties
                      +:+ "' as properties for record creation instead "
                      +:+ "of an object.")
                     (is_object properties) ;;
              initProperties properties (own_keys properties)
                             createOptions) ;;
         a <- alloc ;;
         emit (FactoryCreate a createOptions) ;;
         modify (set__record
                   (Some {| r_id := a; r_isDestroyed := false;
                            r_isDestroying := false |})) ;;
         _triggerDeferredTriggers
   | Some _ => ret tt
   end) ;;
  gets _record.

(** ** Dematerialising, unloading and destroying *)

(** One round of the first loop of [dematerializeRecord]. *)
Definition dropPromise (key : string) : M InternalModel unit :=
  p <- gets (fun c => obj_get (_relationshipPromisesCache c) key) ;;
  match p with
  | Some p =>
      (if p_destroy p then emit (PromiseDestroy (p_id p)) else ret tt) ;;
      modify (fun c =>
        set__relationshipPromisesCache
          (obj_delete key (_relationshipPromisesCache c)) c)
  | None => throw TypeError
  end.

(** One round of its second loop: the entry changes cache.  A listed key
    always has an entry, so the other case only drops the key. *)
Definition retainManyArray (key : string) : M InternalModel unit :=
  m <- gets (fun c => obj_get (_manyArrayCache c) key) ;;
  match m with
  | Some m =>
      modify (fun c =>
        set__retainedManyArrayCache
          (obj_set key m (_retainedManyArrayCache c)) c)
  | None => ret tt
  end ;;
  modify (fun c => set__manyArrayCache (obj_delete key (_manyArrayCache c)) c).

Definition dematerializeRecord : M InternalModel unit :=
  modify (set__isDematerializing true) ;;
  modify (set__doNotDestroy false) ;;
  r <- gets _record ;;
  match r with
  | Some r =>
      keys <- gets (fun c => obj_keys (_relationshipPromisesCache c)) ;;
      forEach keys dropPromise ;;
      keys <- gets (fun c => obj_keys (_manyArrayCache c)) ;;
      forEach keys retainManyArray ;;
      emit (RecordDestroy (r_id r))
  | None => ret tt
  end ;;
  resetRecord ;;
  modify (fun c => set__modelData (md_unloadRecord (_modelData c)) c) ;;
  updateRecordArrays.

(** The message of the assertion of [unloadRecord] about the run loop. *)
Definition autorunMessage : string :=
  "You have turned on testing mode, which disabled the run-loop's autorun."
  +:+ String "010"%char
        "                  You will need to wrap any code with asynchronous side-effects in a run".

Definition unloadRecord : M InternalModel unit :=
  destroyed <- gets isDestroyed ;;
  if destroyed then ret tt
  else
    send "unloadRecord" VUndef ;;
    dematerializeRecord ;;
    scheduled <- gets _scheduledDestroy ;;
    match scheduled with
    | None =>
        runLoop <- gets currentRunLoop ;;
        (if runLoop then ret tt
         else
           testing_ <- gets testing ;;
           assert autorunMessage testing_) ;;
        timer <- alloc ;;
        emit (Schedule timer) ;;
        modify (set__scheduledDestroy (Some timer))
    | Some _ => ret tt
    end.

Definition cancelDestroy : M InternalModel unit :=
  destroyed <- gets isDestroyed ;;
  assert ("You cannot cancel the destruction of an InternalModel once it "
          +:+ "has already been destroyed")
         (negb destroyed) ;;
  modify (set__doNotDestroy true) ;;
  modify (set__isDematerializing false) ;;
  scheduled <- gets _scheduledDestroy ;;
  emit (Cancel scheduled) ;;
  modify (set__scheduledDestroy None).

Definition _checkForOrphanedInternalModels : M InternalModel unit :=
  modify (set__isDematerializing false) ;;
  modify (set__scheduledDestroy None) ;;
  destroyed <- gets isDestroyed ;;
  if destroyed then ret tt else ret tt.

(** One round of the loop of [destroy]. *)
Definition destroyRetained (key : string) : M InternalModel unit :=
  m <- gets (fun c => obj_get (_retainedManyArrayCache c) key) ;;
  match m with
  | Some m =>
      emit (ManyArrayDestroy m) ;;
      modify (fun c =>
        set__retainedManyArrayCache
          (obj_delete key (_retainedManyArrayCache c)) c)
  | None => throw TypeError
  end.

Definition destroy : M InternalModel unit :=
  r <- gets _record ;;
  assert "Cannot destroy an internalModel while its record is materialized"
         (match r with
          | None => true
          | Some r => r_isDestroyed r || r_isDestroying r
          end) ;;
  modify (set_isDestroying true) ;;
  keys <- gets (fun c => obj_keys (_retainedManyArrayCache c)) ;;
  forEach keys destroyRetained ;;
  emit RemoveFromIdMap ;;
  modify (set__isDestroyed true).

Definition destroyFromModelData : M InternalModel unit :=
  doNotDestroy <- gets _doNotDestroy ;;
  if doNotDestroy then modify (set__doNotDestroy false)
  else destroy.

Definition destroySync : M InternalModel unit :=
  dematerializing <- gets _isDematerializing ;;
  (if dematerializing then cancelDestroy else ret tt) ;;
  _checkForOrphanedInternalModels ;;
  destroyed <- gets isDestroyed ;;
  destroying <- gets isDestroying ;;
  if destroyed || destroying then ret tt
  else destroy.

(** ** The many-array caches *)

Definition getManyArray (key : string) : M InternalModel nat :=
  manyArray <- gets (fun c => obj_get (_manyArrayCache c) key) ;;
  retained <- gets (fun c => obj_get (_retainedManyArrayCache c) key) ;;
  name <- gets modelName ;;
  assert ("Error: relationship " +:+ name +:+ ":" +:+ key
          +:+ " has both many array and retained many array")
         (match manyArray, retained with
          | Some _, Some _ => false
          | _, _ => true
          end) ;;
  manyArray <-
    match manyArray with
    | Some m => ret m
    | None =>
        m <- alloc ;;
        emit (ManyArrayCreate m key) ;;
        modify (fun c =>
          set__manyArrayCache (obj_set key m (_manyArrayCache c)) c) ;;
        ret m
    end ;;
  retained <- gets (fun c => obj_get (_retainedManyArrayCache c) key) ;;
  match retained with
  | Some old =>
      emit (ManyArrayDestroy old) ;;
      modify (fun c =>
        set__retainedManyArrayCache
          (obj_delete key (_retainedManyArrayCache c)) c)
  | None => ret tt
  end ;;
  ret manyArray.



Definition notifyPropertyChange (key : string) : M InternalModel unit :=
  r <- gets _record ;;
  match r with
  | Some r =>
      emit (RecordNotifyPropertyChange (r_id r) key) ;;
      updateRecordArrays
  | None => ret tt
  end ;;
  active <- gets (fun c => obj_get (_manyArrayCache c) key) ;;
  retained <- gets (fun c => obj_get (_retainedManyArrayCache c) key) ;;
  match (match active with Some m => Some m | None => retained end) with
  | Some manyArray =>
      emit (ManyArrayRemoveUnloaded manyArray) ;;
      didRemoveUnloadedModel <-
        gets (fun c => removeUnloadedInternalModel manyArray (_modelData c)) ;;
      match active with
      | Some m =>
          if didRemoveUnloadedModel then
            modify (fun c =>
              set__retainedManyArrayCache
                (obj_set key m (_retainedManyArrayCache c)) c) ;;
            modify (fun c =>
              set__manyArrayCache (obj_delete key (_manyArrayCache c)) c)
          else ret tt
      | None => ret tt
      end
  | None => ret tt
  end ;;
  p <- gets (fun c => obj_get (_relationshipPromisesCache c) key) ;;
  match p with
  | Some p =>
      (if p_destroy p then emit (PromiseDestroy (p_id p))
       else throw TypeError) ;;
      modify (fun c =>
        set__relationshipPromisesCache
          (obj_delete key (_relationshipPromisesCache c)) c)
  | None => ret tt
  end.

(** ** Queries and notices

    [isHiddenFromRecordArrays()]: a chain of [||], which yields its first
    truthy operand or else its last one. *)
Definition isHiddenFromRecordArrays : M InternalModel JsVal :=
  dematerializing <- gets _isDematerializing ;;
  if dematerializing then ret (VBool true)
  else
    scheduled <- gets hasScheduledDestroy ;;
    if scheduled then ret (VBool true)
    else
      destroyed <- gets isDestroyed ;;
      if destroyed then ret (VBool true)
      else
        cs <- gets currentState ;;
        stateName <- read cs "stateName" ;;
        if strict_eq stateName (VStr "root.deleted.saved") then
          ret (VBool true)
        else isEmpty.

(** [isRecordInUse()]: [record && !(...)] is the record itself, null, when
    there is none. *)
Definition isRecordInUse : M InternalModel JsVal :=
  record <- gets _record ;;
  match record with
  | None => ret VNull
  | Some r => ret (VBool (negb (r_isDestroyed r || r_isDestroying r)))
  end.

Definition startedReloading : M InternalModel unit :=
  modify (set_isReloading true) ;;
  r <- gets _record ;;
  match r with
  | Some r => emit (RecordSet (r_id r) "isReloading" (VBool true))
  | None => ret tt
  end.

Definition finishedReloading : M InternalModel unit :=
  modify (set_isReloading false) ;;
  r <- gets _record ;;
  match r with
  | Some r => emit (RecordSet (r_id r) "isReloading" (VBool false))
  | None => ret tt
  end.

Definition deleteRecord : M InternalModel unit :=
  send "deleteRecord" VUndef ;; ret tt.

Definition loadingData (promise : JsVal) : M InternalModel unit :=
  send "loadingData" promise ;; ret tt.

Definition loadedData : M InternalModel unit :=
  send "loadedData" VUndef ;; ret tt.

Definition notFound : M InternalModel unit :=
  send "notFound" VUndef ;; ret tt.

Definition pushedData : M InternalModel unit :=
  send "pushedData" VUndef ;; ret tt.

Definition adapterDidDirty : M InternalModel unit :=
  send "becomeDirty" VUndef ;;
  updateRecordArrays.

(** ** Lifecycle transitions *)

(** [name.split('.')]. *)
Fixpoint split_dot (name : string) : list string :=
  match name with
  | EmptyString => [""]
  | String ch rest =>
      if decide (ch = "."%char) then "" :: split_dot rest
      else match split_dot rest with
           | seg :: segs => String ch seg :: segs
           | [] => [String ch ""]
           end
  end.

(** What [TransitionChainMap] keeps for a transition. *)
Record ChainEntry : Type := {
  setups : list JsVal;
  enters : list JsVal;
  state : JsVal
}.

(** The module-level tables. *)
Record Memo : Type := {
  TransitionChainMap : gmap string ChainEntry;
  _extractPivotNameCache : gmap string JsVal;
  _splitOnDotCache : gmap string (list string)
}.

(** A control block together with the tables of its module. *)
Record World : Type := {
  block : InternalModel;
  memo : Memo
}.

Definition no_memo : Memo :=
  {| TransitionChainMap := ∅; _extractPivotNameCache := ∅;
     _splitOnDotCache := ∅ |}.

(** A step of the block, run in the world it lives in. *)
Definition onBlock {A : Type} (m : M InternalModel A) : M World A :=
  fun w =>
    match m (block w) with
    | Ret a b => Ret a {| block := b; memo := memo w |}
    | Throw e b => Throw e {| block := b; memo := memo w |}
    | Timeout => Timeout
    end.

Definition onMemo (f : Memo -> Memo) : M World unit :=
  modify (fun w => {| block := block w; memo := f (memo w) |}).

Definition splitOnDot (name : string) : M World (list string) :=
  cached <- gets (fun w => _splitOnDotCache (memo w) !! name) ;;
  match cached with
  | Some path => ret path
  | None =>
      let path := split_dot name in
      onMemo (fun m =>
        {| TransitionChainMap := TransitionChainMap m;
           _extractPivotNameCache := _extractPivotNameCache m;
           _splitOnDotCache := <[name := path]> (_splitOnDotCache m) |}) ;;
      ret path
  end.

Definition extractPivotName (name : string) : M World JsVal :=
  cached <- gets (fun w => _extractPivotNameCache (memo w) !! name) ;;
  if truthy (default VUndef cached) then ret (default VUndef cached)
  else
    path <- splitOnDot name ;;
    let pivot := match path with [] => VUndef | seg :: _ => VStr seg end in
    onMemo (fun m =>
      {| TransitionChainMap := TransitionChainMap m;
         _extractPivotNameCache := <[name := pivot]> (_extractPivotNameCache m);
         _splitOnDotCache := _splitOnDotCache m |}) ;;
    ret pivot.

(** The [do ... while (!state[pivotName])] loop; [fuel] bounds its rounds. *)
Fixpoint exitLoop (fuel : nat) (pivotName : string) (state0 : JsVal)
  : M InternalModel JsVal :=
  match fuel with
  | 0 => fun _ => Timeout
  | S fuel' =>
      exit_ <- read state0 "exit" ;;
      (if truthy exit_ then invoke exit_ VUndef ;; ret tt else ret tt) ;;
      parent <- read state0 "parentState" ;;
      found <- read parent pivotName ;;
      if truthy found then ret parent
      else exitLoop fuel' pivotName parent
  end.

(** The [for] loop over the segments of the target on a cache miss. *)
Fixpoint walk (path : list string) (state0 : JsVal)
    (enters0 setups0 : list JsVal) : option ChainEntry :=
  match path with
  | [] => Some {| setups := setups0; enters := enters0; state := state0 |}
  | segment :: path' =>
      match js_get state0 segment with
      | None => None
      | Some next =>
          match js_get next "enter", js_get next "setup" with
          | Some enter_, Some setup_ =>
              walk path' next
                   (if truthy enter_ then enters0 ++ [next] else enters0)
                   (if truthy setup_ then setups0 ++ [next] else setups0)
          | _, _ => None
          end
      end
  end.

(** [for (...) states[i].hook(this)]. *)
Definition runHooks (hook : string) (states : list JsVal)
  : M InternalModel unit :=
  forEach states (fun s => h <- read s hook ;; invoke h VUndef ;; ret tt).

(** The second half of [transitionTo], from the replay of the enter hooks
    on. *)
Definition finishTransition (entry : ChainEntry) : M InternalModel unit :=
  runHooks "enter" (enters entry) ;;
  modify (set_currentState (state entry)) ;;
  r <- gets _record ;;
  match r with
  | Some r => emit (RecordSet (r_id r) "currentState" (state entry))
  | None => ret tt
  end ;;
  runHooks "setup" (setups entry) ;;
  updateRecordArrays.

Definition transitionMapId (stateName : JsVal) (name : string) : string :=
  js_to_string stateName +:+ "->" +:+ name.

Definition transitionTo (fuel : nat) (name : string) : M World unit :=
  pivotName <- extractPivotName name ;;
  state0 <- onBlock (gets currentState) ;;
  stateName <- onBlock (read state0 "stateName") ;;
  let mapId := transitionMapId stateName name in
  state1 <- onBlock (exitLoop fuel (js_to_string pivotName) state0) ;;
  map <- gets (fun w => TransitionChainMap (memo w) !! mapId) ;;
  entry <-
    match map with
    | Some entry => ret entry
    | None =>
        path <- splitOnDot name ;;
        match walk path state1 [] [] with
        | Some entry =>
            onMemo (fun m =>
              {| TransitionChainMap := <[mapId := entry]> (TransitionChainMap m);
                 _extractPivotNameCache := _extractPivotNameCache m;
                 _splitOnDotCache := _splitOnDotCache m |}) ;;
            ret entry
        | None => throw TypeError
        end
    end ;;
  onBlock (finishTransition entry).

(** [transitionTo] with the transition-chain cache taken out: the chain is
    collected anew at every call and never kept. *)
Definition transitionTo_uncached (fuel : nat) (name : string) : M World unit :=
  pivotName <- extractPivotName name ;;
  state0 <- onBlock (gets currentState) ;;
  stateName <- onBlock (read state0 "stateName") ;;
  state1 <- onBlock (exitLoop fuel (js_to_string pivotName) state0) ;;
  path <- splitOnDot name ;;
  match walk path state1 [] [] with
  | Some entry => onBlock (finishTransition entry)
  | None => throw TypeError
  end.

(** What an outcome leaves of the control block, the tables aside. *)
Definition blockOutcome {A : Type} (o : Outcome World A)
  : Outcome InternalModel A :=
  match o with
  | Ret a w => Ret a (block w)
  | Throw e w => Throw e (block w)
  | Timeout => Timeout
  end.

(** ** The transition as a list of steps

    The words of the specification, kept apart from [transitionTo]: the
    states left on the way up, the states visited on the way down, and the
    steps a transition is made of. *)

(** The pivot: the first segment of the target. *)
Definition pivot_of (name : string) : string :=
  match split_dot name with
  | [] => ""
  | segment :: _ => segment
  end.

(** [climbs pivot s chain ancestor]: going up from [s], the states of [chain]
    are left, lowest first, and [ancestor] is the first state above [s] that
    holds something under the pivot. *)
Inductive climbs (pivot : string) : JsVal -> list JsVal -> JsVal -> Prop :=
| climbs_stop s exit_ parent found :
    js_get s "exit" = Some exit_ ->
    js_get s "parentState" = Some parent ->
    js_get parent pivot = Some found ->
    truthy found = true ->
    climbs pivot s [s] parent
| climbs_more s exit_ parent found chain ancestor :
    js_get s "exit" = Some exit_ ->
    js_get s "parentState" = Some parent ->
    js_get parent pivot = Some found ->
    truthy found = false ->
    climbs pivot parent chain ancestor ->
    climbs pivot s (s :: chain) ancestor.

(** The same climb, computed, over at most [n] states. *)
Fixpoint climb (n : nat) (pivot : string) (s : JsVal)
  : option (list JsVal * JsVal) :=
  match n with
  | 0 => None
  | S n' =>
      match js_get s "exit", js_get s "parentState" with
      | Some _, Some parent =>
          match js_get parent pivot with
          | Some found =>
              if truthy found then Some ([s], parent)
              else
                match climb n' pivot parent with
                | Some (chain, ancestor) => Some (s :: chain, ancestor)
                | None => None
                end
          | None => None
          end
      | _, _ => None
      end
  end.

(** The states visited going down from [s] along [path], topmost first. *)
Fixpoint descend (path : list string) (s : JsVal) : option (list JsVal) :=
  match path with
  | [] => Some []
  | segment :: path' =>
      match js_get s segment with
      | Some next =>
          match js_get next "enter", descend path' next with
          | Some _, Some nodes => Some (next :: nodes)
          | _, _ => None
          end
      | None => None
      end
  end.

(** Whether a state defines the hook. *)
Definition has_hook (hook : string) (s : JsVal) : bool :=
  match js_get s hook with
  | Some v => truthy v
  | None => false
  end.

Inductive Action : Type :=
| CallHook (s : JsVal) (hook : string)
| SetCurrentState (s : JsVal)
| NotifyMembership.

Definition perform (a : Action) : M InternalModel unit :=
  match a with
  | CallHook s hook => h <- read s hook ;; invoke h VUndef ;; ret tt
  | SetCurrentState s =>
      modify (set_currentState s) ;;
      r <- gets _record ;;
      match r with
      | Some r => emit (RecordSet (r_id r) "currentState" s)
      | None => ret tt
      end
  | NotifyMembership => updateRecordArrays
  end.

Definition performAll (steps : list Action) : M InternalModel unit :=
  forEach steps perform.

(** The hook calls on those of [states] that define the hook, in order. *)
Definition hooksOf (hook : string) (states : list JsVal) : list Action :=
  map (fun s => CallHook s hook) (List.filter (has_hook hook) states).

(** Exit hooks upward, enter hooks downward, the new current state, setup
    hooks downward, the notice to the membership tracker. *)
Definition transitionSteps (chain nodes : list JsVal) (ancestor : JsVal)
  : list Action :=
  hooksOf "exit" chain
  ++ hooksOf "enter" nodes
  ++ [SetCurrentState (default ancestor (last nodes))]
  ++ hooksOf "setup" nodes
  ++ [NotifyMembership].

(** ** What the tables hold *)

Definition stateNameOf (s : StateId) : JsVal :=
  default VUndef (obj_get (props s) "stateName").

Fixpoint dash_free (s : string) : bool :=
  match s with
  | EmptyString => true
  | String ch rest => negb (bool_decide (ch = "-"%char)) && dash_free rest
  end.

(** States are known by their names: every state has a string for a name,
    without a dash in it, and no two states share one. *)
Definition named_graph : Prop :=
  (forall s, exists n, stateNameOf s = VStr n /\ dash_free n = true)
  /\ (forall s s', stateNameOf s = stateNameOf s' -> s = s').

(** Every entry of the tables was put there by the code above. *)
Record memo_ok (m : Memo) : Prop := {
  split_ok : forall name path,
    _splitOnDotCache m !! name = Some path -> path = split_dot name;
  pivot_ok : forall name pivot,
    _extractPivotNameCache m !! name = Some pivot ->
    pivot = VStr (pivot_of name);
  chain_ok : forall k entry,
    TransitionChainMap m !! k = Some entry ->
    exists s name chain ancestor,
      k = transitionMapId (stateNameOf s) name
      /\ climbs (pivot_of name) (VState s) chain ancestor
      /\ walk (split_dot name) ancestor [] [] = Some entry
}.

(** ** Sequences of operations *)

Inductive Op : Type :=
| OpGetRecord (properties : JsVal)
| OpSend (name : string) (context : JsVal)
| OpSetId (id' : JsVal)
| OpSetDirtyAttribute (key : string) (value : JsVal)
| OpSetDirtyBelongsTo (key : string) (value : JsVal)
| OpSetDirtyHasMany (key : string) (records : JsVal)
| OpGetManyArray (key : string)
| OpNotifyPropertyChange (key : string)
| OpDematerializeRecord
| OpUnloadRecord
| OpCancelDestroy
| OpCheckForOrphanedInternalModels
| OpDestroySync
| OpDestroyFromModelData
| OpDestroy.

Definition discard {S A : Type} (m : M S A) : M S unit := m ;; ret tt.

Definition run (op : Op) : M InternalModel unit :=
  match op with
  | OpGetRecord properties => discard (getRecord properties)
  | OpSend name context => discard (send name context)
  | OpSetId id' => setId id'
  | OpSetDirtyAttribute key value => discard (setDirtyAttribute key value)
  | OpSetDirtyBelongsTo key value => discard (setDirtyBelongsTo key value)
  | OpSetDirtyHasMany key records => setDirtyHasMany key records
  | OpGetManyArray key => discard (getManyArray key)
  | OpNotifyPropertyChange key => notifyPropertyChange key
  | OpDematerializeRecord => dematerializeRecord
  | OpUnloadRecord => unloadRecord
  | OpCancelDestroy => cancelDestroy
  | OpCheckForOrphanedInternalModels => _checkForOrphanedInternalModels
  | OpDestroySync => destroySync
  | OpDestroyFromModelData => destroyFromModelData
  | OpDestroy => destroy
  end.

(** The block an operation leaves behind, also when it throws. *)
Definition leaves {A : Type} (o : Outcome InternalModel A)
  : option InternalModel :=
  match o with
  | Ret _ c => Some c
  | Throw _ c => Some c
  | Timeout => None
  end.

(** The blocks that sequences of operations lead to from a new block. *)
Inductive reachable : InternalModel -> Prop :=
| reachable_new modelName0 id0 md runLoop testing0 :
    reachable (new_InternalModel modelName0 id0 md runLoop testing0)
| reachable_step c op c' :
    reachable c -> leaves (run op c) = Some c' -> reachable c'.

(** A property of blocks that a computation never breaks, whether it
    returns or throws. *)
Definition preserves {A : Type} (P : InternalModel -> Prop)
    (m : M InternalModel A) : Prop :=
  forall c c', P c -> leaves (m c) = Some c' -> P c'.

(** The functions of the state graph never break [P]. *)
Definition graph_keeps (P : InternalModel -> Prop) : Prop :=
  forall f context, preserves P (call f context).

Definition not_destroyed (c : InternalModel) : Prop := _isDestroyed c = false.

(** A key is in at most one of the two many-array caches. *)
Definition caches_disjoint (c : InternalModel) : Prop :=
  forall key,
    obj_get (_manyArrayCache c) key = None
    \/ obj_get (_retainedManyArrayCache c) key = None.


(** ** Auxiliary notions for the loops and the hooks *)

(** What is left to do of a cache: distinct keys, all still there. *)
Definition keys_left {V : Type} (cache : InternalModel -> list (string * V))
    (ks : list string) (c : InternalModel) : Prop :=
  NoDup ks /\ forall k, k ∈ ks -> is_Some (obj_get (cache c) k).

(** One round of a loop that drops the entries of a cache one by one and
    tells a collaborator about each. *)
Definition drop {V : Type} (cache : InternalModel -> list (string * V))
    (set_cache : list (string * V) -> InternalModel -> InternalModel)
    (log : V -> list Event) (k : string) (c : InternalModel) : InternalModel :=
  match obj_get (cache c) k with
  | Some v => set_cache (obj_delete k (cache c)) (set_trace (trace c ++ log v) c)
  | None => c
  end.

(** The effect of one round of the loop that retains the many arrays. *)
Definition retain (key : string) (c : InternalModel) : InternalModel :=
  set__manyArrayCache (obj_delete key (_manyArrayCache c))
    match obj_get (_manyArrayCache c) key with
    | Some m =>
        set__retainedManyArrayCache
          (obj_set key m (_retainedManyArrayCache c)) c
    | None => c
    end.

(** What the loops over the promise cache and over the retained many
    arrays tell their collaborators. *)
Definition promise_log (p : PromiseProxy) : list Event :=
  if p_destroy p then [PromiseDestroy (p_id p)] else [].

Definition array_log (m : nat) : list Event := [ManyArrayDestroy m].

(** The [destroy] calls on promise proxies that block [s] has logged were
    logged by block [c0] already, or are those of proxies that [c0] caches
    and that have the method; and [s] caches no proxy that [c0] does not. *)
Definition destroys_from (c0 s : InternalModel) : Prop :=
  (forall k q,
      obj_get (_relationshipPromisesCache s) k = Some q ->
      obj_get (_relationshipPromisesCache c0) k = Some q)
  /\ (forall n,
        PromiseDestroy n ∈ trace s ->
        PromiseDestroy n ∈ trace c0
        \/ exists k q,
            obj_get (_relationshipPromisesCache c0) k = Some q
            /\ p_destroy q = true /\ p_id q = n).

(** The exit hook of a state, when it has one. *)
Definition exitHook (s : JsVal) : M InternalModel unit :=
  if has_hook "exit" s then perform (CallHook s "exit") else ret tt.

(** ** Names and their segments *)

(** [path.join('.')]. *)
Fixpoint join_dot (path : list string) : string :=
  match path with
  | [] => ""
  | [segment] => segment
  | segment :: rest => segment +:+ "." +:+ join_dot rest
  end.

Fixpoint dot_free (s : string) : bool :=
  match s with
  | EmptyString => true
  | String ch rest => negb (bool_decide (ch = "."%char)) && dot_free rest
  end.

(** What comes before the first dot of a name. *)
Fixpoint before_dot (name : string) : string :=
  match name with
  | EmptyString => ""
  | String ch rest =>
      if decide (ch = "."%char) then "" else String ch (before_dot rest)
  end.

(** Every table of [m] is part of the same table of [m']. *)
Definition memo_le (m m' : Memo) : Prop :=
  TransitionChainMap m ⊆ TransitionChainMap m'
  /\ _extractPivotNameCache m ⊆ _extractPivotNameCache m'
  /\ _splitOnDotCache m ⊆ _splitOnDotCache m'.


(** ** The notices that are events under a fixed name *)

Inductive Notice : Type :=
| NoticeDeleteRecord
| NoticeLoadingData (promise : JsVal)
| NoticeLoadedData
| NoticeNotFound
| NoticePushedData.

Definition notice_name (n : Notice) : string :=
  match n with
  | NoticeDeleteRecord => "deleteRecord"
  | NoticeLoadingData _ => "loadingData"
  | NoticeLoadedData => "loadedData"
  | NoticeNotFound => "notFound"
  | NoticePushedData => "pushedData"
  end.

Definition notice_context (n : Notice) : JsVal :=
  match n with
  | NoticeLoadingData promise => promise
  | _ => VUndef
  end.

Definition notice (n : Notice) : M InternalModel unit :=
  match n with
  | NoticeDeleteRecord => deleteRecord
  | NoticeLoadingData promise => loadingData promise
  | NoticeLoadedData => loadedData
  | NoticeNotFound => notFound
  | NoticePushedData => pushedData
  end.

(** ** Flags that go together *)

(** A destroyed block went through [isDestroying], and a block with a
    scheduled destroy is being dematerialised. *)
Definition flags_consistent (c : InternalModel) : Prop :=
  (_isDestroyed c = true -> isDestroying c = true)
  /\ (is_Some (_scheduledDestroy c) -> _isDematerializing c = true).

(** An element that [setDirtyHasMany] takes for a record. *)
Definition owns_internalModel (record : JsVal) : bool :=
  match record with
  | VUndef | VNull => false
  | _ => hasInternalModel record
  end.

(** The options [getRecord] starts from.  The owner that [setOwner]
    attaches to them afterwards is not part of the model. *)
Definition baseOptions (c : InternalModel) : list (string * JsVal) :=
  [("store", store); ("_internalModel", this);
   ("currentState", currentState c); ("isError", VBool (isError c));
   ("adapterError", error c)].

End Model.

(** ** Calls the trace has no name for

    Some methods call the store, the facade or the model data in ways the
    [trace] does not record.  These calls are taken as they are: each is a
    step that may do anything to the block. *)
Class Surroundings `{Collaborators} : Type := {
  (* this.store._updateInternalModel(this) *)
  _updateInternalModel : M InternalModel unit;
  (* record.setProperties(fields) *)
  setProperties : Record_ -> list (string * JsVal) -> M InternalModel unit;
  (* record._notifyProperties(keys) *)
  _notifyProperties : Record_ -> JsVal -> M InternalModel unit;
  (* this._modelData.didCommit(data): the changed keys and the model data
     after it *)
  md_didCommit : JsVal -> MD -> JsVal * MD
}.

Section Surrounded.
Context `{Surroundings}.

Definition set_isError (v : bool) (c : InternalModel) : InternalModel :=
  {| id := id c; modelName := modelName c; currentState := currentState c;
     _record := _record c; _isDestroyed := _isDestroyed c;
     isDestroying := isDestroying c;
     _isDematerializing := _isDematerializing c;
     _doNotDestroy := _doNotDestroy c;
     _scheduledDestroy := _scheduledDestroy c; isReloading := isReloading c;
     error := error c; isError := v;
     _manyArrayCache := _manyArrayCache c;
     _retainedManyArrayCache := _retainedManyArrayCache c;
     _relationshipPromisesCache := _relationshipPromisesCache c;
     _modelData := _modelData c; _deferredTriggers := _deferredTriggers c;
     trace := trace c; fresh := fresh c; currentRunLoop := currentRunLoop c;
     testing := testing c |}.

(** [triggerLater(...args)]: [push] answers the new length of the queue. *)
Definition triggerLater (args : list JsVal) : M InternalModel unit :=
  modify (fun c => set__deferredTriggers (_deferredTriggers c ++ [args]) c) ;;
  queued <- gets (fun c => length (_deferredTriggers c)) ;;
  if decide (queued = 1) then _updateInternalModel else ret tt.

Definition didError (error_ : JsVal) : M InternalModel unit :=
  modify (set_error error_) ;;
  modify (set_isError true) ;;
  r <- gets _record ;;
  match r with
  | Some r =>
      setProperties r [("isError", VBool true); ("adapterError", error_)]
  | None => ret tt
  end.

Definition didCleanError : M InternalModel unit :=
  modify (set_error VNull) ;;
  modify (set_isError false) ;;
  r <- gets _record ;;
  match r with
  | Some r =>
      setProperties r [("isError", VBool false); ("adapterError", VNull)]
  | None => ret tt
  end.

Definition adapterDidCommit (data : JsVal) : M InternalModel unit :=
  didCleanError ;;
  changedKeys <-
    (fun c =>
       let '(keys, md) := md_didCommit data (_modelData c) in
       Ret keys (set__modelData md c)) ;;
  send "didCommit" VUndef ;;
  updateRecordArrays ;;
  if truthy data then
    r <- gets _record ;;
    match r with
    | Some r => _notifyProperties r changedKeys
    | None => throw TypeError
    end
  else ret tt.

(** The steps of a commit up to the point where the facade is told: the
    error is cleared, the model data takes the commit, the state is sent
    [didCommit] and the membership tracker is told. *)
Definition commitSteps (data : JsVal) : M InternalModel JsVal :=
  didCleanError ;;
  changedKeys <-
    (fun c =>
       let '(keys, md) := md_didCommit data (_modelData c) in
       Ret keys (set__modelData md c)) ;;
  send "didCommit" VUndef ;;
  updateRecordArrays ;;
  ret changedKeys.

End Surrounded.

(** ** A small lifecycle graph to run the code on *)

Module Demo.

Inductive lifecycle : Type :=
| root | empty | loading | loaded | saved | updated | deleted.

#[export] Instance lifecycle_eq_dec : EqDecision lifecycle.
Proof. solve_decision. Defined.

(** Model data here: the attributes, by name. *)
#[export] Instance domains : Domains :=
  {| StateId := lifecycle; MD := list (string * string) |}.

(** A state of the demo graph as a value. *)
Definition st (s : lifecycle) : JsVal := VState s.

Definition flags (isEmpty_ isLoaded_ isNew_ isDeleted_ : bool)
  : list (string * JsVal) :=
  [("isEmpty", VBool isEmpty_); ("isLoaded", VBool isLoaded_);
   ("isNew", VBool isNew_); ("isDeleted", VBool isDeleted_)].

Definition demo_props (s : lifecycle) : list (string * JsVal) :=
  match s with
  | root =>
      [("stateName", VStr "root"); ("parentState", VNull);
       ("empty", VState empty); ("loading", VState loading);
       ("loaded", VState loaded); ("deleted", VState deleted)]
      ++ flags false false false false
  | empty =>
      [("stateName", VStr "root.empty"); ("parentState", VState root);
       ("loadingData", VFun 10); ("pushedData", VFun 11)]
      ++ flags true false false false
  | loading =>
      [("stateName", VStr "root.loading"); ("parentState", VState root);
       ("exit", VFun 1); ("pushedData", VFun 11)]
      ++ flags false false false false
  | loaded =>
      [("stateName", VStr "root.loaded"); ("parentState", VState root);
       ("saved", VState saved); ("updated", VState updated);
       ("enter", VFun 2)]
      ++ flags false true false false
  | saved =>
      [("stateName", VStr "root.loaded.saved");
       ("parentState", VState loaded); ("setup", VFun 3);
       ("didSetProperty", VFun 12); ("unloadRecord", VFun 13);
       ("deleteRecord", VFun 14)]
      ++ flags false true false false
  | updated =>
      [("stateName", VStr "root.loaded.updated");
       ("parentState", VState loaded); ("enter", VFun 4); ("exit", VFun 5);
       ("setup", VFun 6); ("didSetProperty", VFun 15);
       ("unloadRecord", VFun 13)]
      ++ flags false true true false
  | deleted =>
      [("stateName", VStr "root.deleted"); ("parentState", VState root);
       ("enter", VFun 7); ("setup", VFun 8); ("unloadRecord", VFun 13)]
      ++ flags false true false true
  end.

(** Every function of the graph leaves a deferred trigger that tells it was
    called and with what; the handlers of [pushedData], [didSetProperty] on a
    saved record and [deleteRecord] also move the block to its next state. *)
Definition demo_call (f : FunId) (context : JsVal)
  : M InternalModel JsVal :=
  modify (fun c =>
    set__deferredTriggers (_deferredTriggers c ++ [[VFun f; context]]) c) ;;
  (if decide (f = 11) then modify (set_currentState (VState saved))
   else if decide (f = 12) then modify (set_currentState (VState updated))
   else if decide (f = 14) then modify (set_currentState (VState deleted))
   else ret tt) ;;
  ret VUndef.

#[export] Instance collaborators : Collaborators :=
  {| props := demo_props;
     RootState_empty := empty;
     call := demo_call;
     md_getAttr := fun md key =>
       match obj_get md key with Some v => VStr v | None => VUndef end;
     md_setDirtyAttribute := fun key value md =>
       obj_set key (js_to_string value) md;
     md_isAttrDirty := fun md key => true;
     md_setDirtyBelongsTo := fun key value md => (VUndef, md);
     md_setDirtyHasMany := fun key records md => md;
     md_setHasAnyRelationshipData := fun key flag md => md;
     md_setRelationshipIsEmpty := fun key flag md => md;
     md_unloadRecord := fun md => [];
     removeUnloadedInternalModel := fun m md => true;
     getFields := fun name =>
       if decide (name = "title") then Some attribute
       else if decide (name = "comments") then Some hasMany
       else None;
     inspect := js_to_string;
     isArrayLike := fun v => None;
     hasInternalModel := fun v => true;
     getResourceIdentifier := fun v => Some v;
     store := VRef 0;
     this := VRef 1 |}.

(** Collaborators like the ones above that also know arrays: an object
    literal stands for the array of its values, the opaque objects are the
    records, an object literal owns the properties it lists and has no
    [get], and the model data keeps the identifiers it was given under the
    key of the relationship. *)
Definition array_collaborators : Collaborators :=
  {| props := demo_props;
     RootState_empty := empty;
     call := demo_call;
     md_getAttr := fun md key =>
       match obj_get md key with Some v => VStr v | None => VUndef end;
     md_setDirtyAttribute := fun key value md =>
       obj_set key (js_to_string value) md;
     md_isAttrDirty := fun md key => true;
     md_setDirtyBelongsTo := fun key value md => (VUndef, md);
     md_setDirtyHasMany := fun key records md =>
       obj_set key (String.concat "," (map js_to_string records)) md;
     md_setHasAnyRelationshipData := fun key flag md => md;
     md_setRelationshipIsEmpty := fun key flag md => md;
     md_unloadRecord := fun md => [];
     removeUnloadedInternalModel := fun m md => true;
     getFields := fun name =>
       if decide (name = "title") then Some attribute
       else if decide (name = "comments") then Some hasMany
       else None;
     inspect := js_to_string;
     isArrayLike := fun v =>
       match v with VObj fields => Some (map snd fields) | _ => None end;
     hasInternalModel := fun v =>
       match v with
       | VRef _ => true
       | VObj fields => bool_decide (is_Some (obj_get fields "_internalModel"))
       | _ => false
       end;
     getResourceIdentifier := fun v =>
       match v with VRef _ => Some (VStr "comment") | _ => None end;
     store := VRef 0;
     this := VRef 1 |}.

(** The facade and the store of the demo keep no state of their own. *)
#[export] Instance surroundings : Surroundings :=
  {| _updateInternalModel := ret tt;
     setProperties := fun r fields => ret tt;
     _notifyProperties := fun r keys => ret tt;
     md_didCommit := fun data md => (VNull, md) |}.

(** A new block for a post, in a run loop. *)
Definition post : InternalModel :=
  new_InternalModel "post" VNull [("title", "Hello")] true false.

(** The block left by an outcome; the given one when the loop was cut off. *)
Definition left_by {A : Type} (c : InternalModel)
    (o : Outcome InternalModel A) : InternalModel :=
  default c (leaves o).

(** The post after its data was pushed: loaded and saved. *)
Definition saved_post : InternalModel :=
  left_by post (send "pushedData" VUndef post).

(** The saved post after [deleteRecord]. *)
Definition deleted_post : InternalModel :=
  left_by saved_post (send "deleteRecord" VUndef saved_post).

(** The saved post with its facade. *)
Definition materialized_post : InternalModel :=
  left_by saved_post (getRecord VUndef saved_post).

(** The materialised post after [setId("5")]. *)
Definition persisted_post : InternalModel :=
  left_by materialized_post (setId (VStr "5") materialized_post).

(** The saved post, still without a facade, after its comments were asked
    for. *)
Definition post_with_comments : InternalModel :=
  left_by saved_post (getManyArray "comments" saved_post).

(** The saved post after [unloadRecord] was handled by its state. *)
Definition unloading_post : InternalModel :=
  left_by saved_post (send "unloadRecord" VUndef saved_post).

(** The post, destroyed before it was ever loaded. *)
Definition destroyed_post : InternalModel := left_by post (destroy post).

(** The saved post in a module whose tables are empty, and in a module whose
    tables went through a first transition from saved to deleted. *)
Definition fresh_world : World := {| block := saved_post; memo := no_memo |}.

Definition warm_world : World :=
  {| block := saved_post;
     memo := match transitionTo 5 "deleted" fresh_world with
             | Ret _ w => memo w
             | _ => no_memo
             end |}.

(** The saved post after [unloadRecord]. *)
Definition unloaded_post : InternalModel :=
  left_by saved_post (unloadRecord saved_post).

(** The saved post after its title was set anew: it is in the updated
    state, which has an exit hook. *)
Definition updated_post : InternalModel :=
  left_by saved_post (setDirtyAttribute "title" (VStr "Bye") saved_post).

(** The materialised post with its comments asked for, and the same after
    [unloadRecord]: the comments are retained. *)
Definition commented_post : InternalModel :=
  left_by materialized_post (getManyArray "comments" materialized_post).

Definition unloaded_commented_post : InternalModel :=
  left_by commented_post (unloadRecord commented_post).

(** The same post once [unloadRecord] was sent to its state, before it is
    dematerialised. *)
Definition unloading_commented_post : InternalModel :=
  left_by commented_post (send "unloadRecord" VUndef commented_post).

(** The materialised post with a promise proxy cached for its comments, a
    proxy that has no [destroy]. *)
Definition promised_post : InternalModel :=
  set__relationshipPromisesCache
    [("comments", {| p_id := 9; p_destroy := false |})] materialized_post.

(** The saved post while a commit is in flight: its state, given as an
    object, handles [didCommit]. *)
Definition saving_post : InternalModel :=
  set_currentState
    (VObj [("stateName", VStr "root.loaded.saved.inFlight");
           ("didCommit", VFun 20)])
    saved_post.

(** The world left by an outcome; the given one when there is none. *)
Definition world_left_by {A : Type} (w : World) (o : Outcome World A)
  : World :=
  match o with
  | Ret _ w' => w'
  | Throw _ w' => w'
  | Timeout => w
  end.

(** The module after a first [splitOnDot], and after a first transition
    from saved to deleted. *)
Definition split_world : World :=
  world_left_by fresh_world (splitOnDot "loaded.saved" fresh_world).

Definition deleted_world : World :=
  world_left_by fresh_world (transitionTo 5 "deleted" fresh_world).

End Demo.

(** * Properties *)

(** ** Objects used as maps *)

Section ObjectFacts.
Context {A : Type}.
Implicit Types (o : list (string * A)) (k : string) (v : A).

Lemma obj_get_set_eq o k v : obj_get (obj_set k v o) k = Some v.
Proof.
  induction o as [|[k' v'] o IH]; simpl.
  - by rewrite decide_True.
  - destruct (decide (k = k')) as [->|Hne]; simpl.
    + by rewrite decide_True.
    + by rewrite decide_False.
Qed.

Lemma obj_get_set_ne o k k' v :
  k <> k' -> obj_get (obj_set k v o) k' = obj_get o k'.
Proof.
  intros Hne. induction o as [|[k0 v0] o IH]; simpl.
  - by rewrite decide_False.
  - destruct (decide (k = k0)) as [->|Hne0]; simpl.
    + by rewrite !decide_False.
    + destruct (decide (k' = k0)); done.
Qed.

Lemma obj_get_delete_eq o k : obj_get (obj_delete k o) k = None.
Proof.
  induction o as [|[k' v'] o IH]; simpl; [done|].
  destruct (decide (k = k')); simpl; [done|]. by rewrite decide_False.
Qed.

Lemma obj_get_delete_ne o k k' :
  k <> k' -> obj_get (obj_delete k o) k' = obj_get o k'.
Proof.
  intros Hne. induction o as [|[k0 v0] o IH]; simpl; [done|].
  destruct (decide (k = k0)) as [->|Hne0]; simpl.
  - by rewrite decide_False.
  - by rewrite IH.
Qed.

Lemma obj_get_delete o k k' :
  obj_get (obj_delete k o) k' = if decide (k = k') then None else obj_get o k'.
Proof.
  destruct (decide (k = k')) as [->|Hne];
    [apply obj_get_delete_eq | by apply obj_get_delete_ne].
Qed.

Lemma obj_get_set o k k' v :
  obj_get (obj_set k v o) k' = if decide (k = k') then Some v else obj_get o k'.
Proof.
  destruct (decide (k = k')) as [->|Hne];
    [apply obj_get_set_eq | by apply obj_get_set_ne].
Qed.

Lemma obj_keys_get o k : k ∈ obj_keys o <-> is_Some (obj_get o k).
Proof.
  unfold obj_keys. rewrite elem_of_remove_dups.
  induction o as [|[k' v'] o IH]; simpl.
  - rewrite elem_of_nil. split; [done | by intros [? ?]].
  - rewrite elem_of_cons, IH. destruct (decide (k = k')) as [->|Hne].
    + split; [by eauto | by left].
    + split; [by intros [?|?] | by right].
Qed.

Lemma obj_keys_NoDup o : NoDup (obj_keys o).
Proof. apply NoDup_remove_dups. Qed.

Lemma obj_get_none_nil o : (forall k, obj_get o k = None) -> o = [].
Proof.
  destruct o as [|[k v] o]; [done|]. intros Hnone.
  specialize (Hnone k). simpl in Hnone. by rewrite decide_True in Hnone.
Qed.

End ObjectFacts.

(** ** Running the monad *)

Lemma forEach_app {S A : Type} (l1 l2 : list A) (f : A -> M S unit) (s : S) :
  forEach (l1 ++ l2) f s = (forEach l1 f ;; forEach l2 f) s.
Proof.
  revert s. induction l1 as [|x l1 IH]; intros s; simpl; [done|].
  unfold bind in *. destruct (f x s); [|done..]. apply IH.
Qed.

Lemma forEach_map {S A B : Type} (g : A -> B) (l : list A)
    (f : B -> M S unit) (s : S) :
  forEach (map g l) f s = forEach l (fun x => f (g x)) s.
Proof.
  revert s. induction l as [|x l IH]; intros s; simpl; [done|].
  unfold bind. destruct (f (g x) s); [|done..]. apply IH.
Qed.

Section Proofs.
Context `{Collaborators}.

(** Unfolds the plumbing of a computation applied to a block. *)
Ltac run :=
  repeat (progress (unfold bind, gets, modify, ret, throw, assert, emit,
                      alloc, discard; simpl)).

(** ** Destroyed blocks *)

(** C9: [unloadRecord] on a destroyed block returns at once and leaves the
    block as it was: no event is sent, nothing is dematerialised, no destroy
    is scheduled.  Cancelling the destruction of such a block, by contrast,
    fails its assertion. *)
Theorem unloadRecord_destroyed_noop (c : InternalModel) :
  isDestroyed c = true ->
  unloadRecord c = Ret tt c
  /\ exists msg, cancelDestroy c = Throw (AssertionFailed msg) c.
Proof.
  intros Hd. split.
  - unfold unloadRecord. run. by rewrite Hd.
  - eexists. unfold cancelDestroy. run. rewrite Hd. simpl. reflexivity.
Qed.

(** ** Materialisation *)

Lemma getRecord_returns_field (properties : JsVal) (c c1 : InternalModel)
    (x : option Record_) :
  getRecord properties c = Ret x c1 -> x = _record c1.
Proof.
  unfold getRecord. unfold bind at 1 2 3. simpl.
  match goal with |- context [match ?m c with _ => _ end] => destruct (m c) end;
    unfold gets; intros Heq; by simplify_eq.
Qed.

(** C8: materialisation is idempotent.  A block that holds a facade hands
    out that same facade, whatever properties are passed, and stays as it
    is: nothing is created and no initial property is applied.  So a call
    that follows a call that returned a facade returns the same one. *)
Theorem getRecord_idempotent :
  (forall (properties : JsVal) (c : InternalModel) (r : Record_),
      _record c = Some r ->
      getRecord properties c = Ret (Some r) c)
  /\ (forall (first second : JsVal) (c c1 : InternalModel) (r : Record_),
      getRecord first c = Ret (Some r) c1 ->
      getRecord second c1 = Ret (Some r) c1).
Proof.
  assert (Hheld : forall properties c r,
             _record c = Some r -> getRecord properties c = Ret (Some r) c).
  { intros properties c r Hr. unfold getRecord. run. by rewrite !Hr. }
  split; [exact Hheld|].
  intros first second c c1 r Hfirst.
  apply Hheld. symmetry. by apply getRecord_returns_field in Hfirst.
Qed.

(** ** Identity *)

(** C5: [setId] is refused, by the assertion that a record's id cannot be
    changed once loaded, unless the current id is null, or is the given id,
    or the current state is a new one.  When it is accepted the id is
    stored, and the facade, if there is one, is told that [id] changed
    exactly when the given id differs from the one held before. *)
Theorem setId_identity_conflict (id' : JsVal) (c : InternalModel) :
  (forall isNew_,
      strict_eq (id c) VNull = false ->
      strict_eq (id c) id' = false ->
      js_get (currentState c) "isNew" = Some isNew_ ->
      truthy isNew_ = false ->
      setId id' c =
        Throw (AssertionFailed
                 "A record's id cannot be changed once it is in the loaded state")
              c)
  /\ (strict_eq (id c) VNull = true
      \/ strict_eq (id c) id' = true
      \/ (exists isNew_,
             js_get (currentState c) "isNew" = Some isNew_
             /\ truthy isNew_ = true) ->
      setId id' c =
        Ret tt
          match _record c with
          | Some r =>
              if strict_eq id' (id c) then set_id id' c
              else set_trace
                     (trace c ++ [RecordNotifyPropertyChange (r_id r) "id"])
                     (set_id id' c)
          | None => set_id id' c
          end).
Proof.
  split.
  - intros isNew_ Hnull Hsame Hget Hnew.
    unfold setId, isNew, read. run. rewrite Hnull, Hsame, Hget. run.
    by rewrite Hnew.
  - intros Hok. unfold setId, isNew, read. run.
    destruct (strict_eq (id c) VNull) eqn:Hnull; simpl;
      [by destruct (_record c); [destruct (strict_eq id' (id c))|]|].
    destruct (strict_eq (id c) id') eqn:Hsame; simpl;
      [by destruct (_record c); [destruct (strict_eq id' (id c))|]|].
    destruct Hok as [?|[?|(isNew_ & Hget & Hnew)]]; [done..|].
    rewrite Hget. run. rewrite Hnew. simpl.
    by destruct (_record c); [destruct (strict_eq id' (id c))|].
Qed.

(** ** Event dispatch *)

Lemma append_assoc_r (a b d : string) : (a +:+ b) +:+ d = a +:+ b +:+ d.
Proof.
  induction a as [|ch a IH]; [done|].
  change ((String ch a +:+ b) +:+ d) with (String ch ((a +:+ b) +:+ d)).
  change (String ch a +:+ b +:+ d) with (String ch (a +:+ b +:+ d)).
  by rewrite IH.
Qed.

Lemma contains_here (part rest : string) : contains part (part +:+ rest).
Proof. by exists "", rest. Qed.

Lemma contains_skip (part whole front : string) :
  contains part whole -> contains part (front +:+ whole).
Proof.
  intros (before & after & ->). exists (front +:+ before), after.
  by rewrite append_assoc_r.
Qed.

Lemma contains_left (part whole back : string) :
  contains part whole -> contains part (whole +:+ back).
Proof.
  intros (before & after & ->). exists before, (after +:+ back).
  by rewrite !append_assoc_r.
Qed.

Lemma strict_eq_undef (v : JsVal) : strict_eq v VUndef = true <-> v = VUndef.
Proof. destruct v; simpl; split; intros; done. Qed.

Lemma js_get_readable (v : JsVal) (k k' : string) :
  is_Some (js_get v k) -> is_Some (js_get v k').
Proof. destruct v; simpl; intros [? ?]; by eauto. Qed.

(** C4: [send] looks the event name up on the current state.  When the
    state holds nothing under that name, an error is thrown whose report has
    the state's name, the event name and, when a context was given, the
    context in it, and the block is left as it was.  When the state holds
    something, that is invoked with the block and the context, and [send]
    ends as the invocation does; for a function of the graph this is its
    call. *)
Theorem send_dispatch (name : string) (context : JsVal) (c : InternalModel)
    (handler : JsVal) :
  js_get (currentState c) name = Some handler ->
  (truthy handler = false ->
   exists stateName report,
     js_get (currentState c) "stateName" = Some stateName
     /\ send name context c = Throw (EmberError report) c
     /\ contains (js_to_string stateName) report
     /\ contains name report
     /\ (context <> VUndef -> contains (inspect context) report))
  /\ (truthy handler = true -> send name context c = invoke handler context c)
  /\ (forall f, handler = VFun f -> send name context c = call f context c).
Proof.
  intros Hget.
  assert (Hcall : truthy handler = true ->
                  send name context c = invoke handler context c).
  { intros Ht. unfold send, read. run. rewrite Hget. run. by rewrite Ht. }
  split; [|split; [exact Hcall|]].
  - intros Hfalsy.
    destruct (js_get_readable (currentState c) name "stateName")
      as [stateName Hname]; [by eauto|].
    exists stateName. eexists. split; [exact Hname|].
    split; [|split; [|split]].
    + unfold send, _unhandledEvent, read. run. rewrite Hget. run.
      rewrite Hfalsy. run. rewrite Hname. run. reflexivity.
    + destruct (strict_eq context VUndef); [|apply contains_left];
        do 6 apply contains_skip; apply contains_here.
    + destruct (strict_eq context VUndef); [|apply contains_left];
        apply contains_skip; apply contains_here.
    + intros Hctx. destruct (strict_eq context VUndef) eqn:Hu.
      * by apply strict_eq_undef in Hu.
      * do 2 apply contains_skip. apply contains_here.
  - intros f ->. by rewrite Hcall.
Qed.

(** ** Staged attributes *)

(** C6, as the code has it: the deleted state is looked at first.  In a
    deleted state [setDirtyAttribute] throws, whatever the value.  Otherwise
    a value that is the stored one changes nothing and is returned, and any
    other value is staged in the model data and [didSetProperty] is sent
    with the key and the dirty flag the model data then reports. *)
Theorem setDirtyAttribute_cases (key : string) (value : JsVal)
    (c : InternalModel) (deleted : JsVal) :
  js_get (currentState c) "isDeleted" = Some deleted ->
  (truthy deleted = true ->
   setDirtyAttribute key value c =
     Throw (EmberError ("Attempted to set '" +:+ key +:+ "' to '"
                        +:+ js_to_string value
                        +:+ "' on the deleted record " +:+ toString c))
           c)
  /\ (truthy deleted = false ->
      strict_eq (md_getAttr (_modelData c) key) value = true ->
      setDirtyAttribute key value c = Ret value c)
  /\ (truthy deleted = false ->
      strict_eq (md_getAttr (_modelData c) key) value = false ->
      let staged :=
        set__modelData (md_setDirtyAttribute key value (_modelData c)) c in
      setDirtyAttribute key value c =
        (send "didSetProperty"
              (VObj [("name", VStr key);
                     ("isDirty",
                      VBool (md_isAttrDirty (_modelData staged) key))]) ;;
         ret value) staged).
Proof.
  intros Hget. unfold setDirtyAttribute, isDeleted, getAttributeValue, read.
  split; [|split].
  - intros Ht. run. rewrite Hget. run. by rewrite Ht.
  - intros Hf Heq. run. rewrite Hget. run. rewrite Hf. run. by rewrite Heq.
  - intros Hf Hne. run. rewrite Hget. run. rewrite Hf. run.
    rewrite Hne. run.
    match goal with |- context [send ?n ?v ?b] => destruct (send n v b) end;
      done.
Qed.

(** ** Properties kept by every operation *)

Section Preserves.
Context (P : InternalModel -> Prop).

Lemma preserves_ret {A : Type} (a : A) : preserves P (ret a).
Proof. intros c c' HP [= <-]. done. Qed.

Lemma preserves_throw {A : Type} (e : Err) : preserves P (throw (A := A) e).
Proof. intros c c' HP [= <-]. done. Qed.

Lemma preserves_gets {A : Type} (f : InternalModel -> A) :
  preserves P (gets f).
Proof. intros c c' HP [= <-]. done. Qed.

Lemma preserves_modify (f : InternalModel -> InternalModel) :
  (forall c, P c -> P (f c)) -> preserves P (modify f).
Proof. intros Hf c c' HP [= <-]. by apply Hf. Qed.

Lemma preserves_bind {A B : Type} (m : M InternalModel A)
    (k : A -> M InternalModel B) :
  preserves P m -> (forall a, preserves P (k a)) -> preserves P (bind m k).
Proof.
  intros Hm Hk c c' HP. unfold bind.
  destruct (m c) as [a c1|e c1|] eqn:Hmc; simpl.
  - apply (Hk a). apply (Hm c); [done|by rewrite Hmc].
  - intros [= <-]. apply (Hm c); [done|by rewrite Hmc].
  - done.
Qed.

Lemma preserves_assert (msg : string) (cond : bool) :
  preserves P (assert msg cond).
Proof.
  unfold assert. destruct cond; [apply preserves_ret | apply preserves_throw].
Qed.

Lemma preserves_read (v : JsVal) (k : string) : preserves P (read v k).
Proof.
  unfold read. destruct (js_get v k); [apply preserves_ret | apply preserves_throw].
Qed.

Lemma preserves_forEach {A : Type} (l : list A)
    (f : A -> M InternalModel unit) :
  (forall x, preserves P (f x)) -> preserves P (forEach l f).
Proof.
  intros Hf. induction l as [|x l IH]; simpl.
  - apply preserves_ret.
  - apply preserves_bind; [apply Hf | intros _; apply IH].
Qed.

Lemma preserves_invoke (v context : JsVal) :
  graph_keeps P -> preserves P (invoke v context).
Proof.
  intros Hcall. destruct v; simpl; try apply preserves_throw. apply Hcall.
Qed.

Lemma preserves_discard {A : Type} (m : M InternalModel A) :
  preserves P m -> preserves P (discard m).
Proof.
  intros Hm. apply preserves_bind; [done | intros _; apply preserves_ret].
Qed.

End Preserves.

Lemma preserves_alloc (P : InternalModel -> Prop) :
  (forall c, P c -> P (set_fresh (S (fresh c)) c)) -> preserves P alloc.
Proof. intros Hf c c' HP [= <-]. by apply Hf. Qed.

Lemma preserves_setDirtyBelongsTo (P : InternalModel -> Prop)
    (key : string) (value : JsVal) :
  (forall md c, P c -> P (set__modelData md c)) ->
  preserves P (setDirtyBelongsTo key value).
Proof.
  intros Hf c c' HP. unfold setDirtyBelongsTo.
  destruct (md_setDirtyBelongsTo key value (_modelData c)) as [v md].
  intros [= <-]. by apply Hf.
Qed.

Create HintDb pres.

(** A property that does not read the field being written. *)
Ltac field_goal :=
  intros;
  match goal with
  | Hc : ?P ?c |- ?P _ => hnf in Hc |- *; simpl; exact Hc
  end.

(** Goes through a computation step by step. *)
Ltac pres :=
  repeat first
    [ apply preserves_ret | apply preserves_throw | apply preserves_gets
    | apply preserves_assert | apply preserves_read
    | solve [auto with pres nocore]
    | apply preserves_bind; [|intros ?]
    | apply preserves_discard
    | apply preserves_invoke; assumption
    | apply preserves_alloc; solve [field_goal]
    | apply preserves_setDirtyBelongsTo; solve [field_goal]
    | apply preserves_modify; solve [field_goal]
    | apply preserves_forEach; intros ?
    | match goal with
      | |- preserves _ (match ?x with _ => _ end) => destruct x
      | |- preserves _ (if ?x then _ else _) => destruct x
      end ].

Lemma preserves_everyHasInternalModel (P : InternalModel -> Prop)
    (elements : list JsVal) :
  preserves P (everyHasInternalModel elements).
Proof.
  induction elements as [|record elements IH]; simpl;
    [apply preserves_ret|].
  destruct record; try apply preserves_throw;
    (destruct (hasInternalModel _); [exact IH|apply preserves_ret]).
Qed.
#[local] Hint Resolve preserves_everyHasInternalModel : pres.

Lemma preserves_resourceIdentifiers (P : InternalModel -> Prop)
    (elements : list JsVal) :
  preserves P (resourceIdentifiers elements).
Proof.
  unfold resourceIdentifiers.
  destruct (mapM _ elements); [apply preserves_ret|apply preserves_throw].
Qed.
#[local] Hint Resolve preserves_resourceIdentifiers : pres.

(** ** Only [destroy] destroys *)

Section NotDestroyed.
Hypothesis Hgraph : graph_keeps not_destroyed.

Lemma alive_send name context : preserves not_destroyed (send name context).
Proof. unfold send, _unhandledEvent. pres. Qed.
#[local] Hint Resolve alive_send : pres.

Lemma alive_setId id' : preserves not_destroyed (setId id').
Proof. unfold setId, isNew. pres. Qed.
#[local] Hint Resolve alive_setId : pres.

Lemma alive_setDirtyAttribute key value :
  preserves not_destroyed (setDirtyAttribute key value).
Proof. unfold setDirtyAttribute, isDeleted, getAttributeValue. pres. Qed.
#[local] Hint Resolve alive_setDirtyAttribute : pres.

Lemma alive_setDirtyHasMany key records :
  preserves not_destroyed (setDirtyHasMany key records).
Proof. unfold setDirtyHasMany. pres. Qed.
#[local] Hint Resolve alive_setDirtyHasMany : pres.

Lemma alive_initProperties properties names createOptions :
  preserves not_destroyed (initProperties properties names createOptions).
Proof.
  revert createOptions.
  induction names as [|name names IH]; intros createOptions; simpl;
    unfold markRelationship; pres.
Qed.
#[local] Hint Resolve alive_initProperties : pres.

Lemma alive_getRecord properties :
  preserves not_destroyed (getRecord properties).
Proof. unfold getRecord, _triggerDeferredTriggers. pres. Qed.
#[local] Hint Resolve alive_getRecord : pres.

Lemma alive_getManyArray key : preserves not_destroyed (getManyArray key).
Proof. unfold getManyArray. pres. Qed.
#[local] Hint Resolve alive_getManyArray : pres.

Lemma alive_notifyPropertyChange key :
  preserves not_destroyed (notifyPropertyChange key).
Proof. unfold notifyPropertyChange, updateRecordArrays. pres. Qed.
#[local] Hint Resolve alive_notifyPropertyChange : pres.

Lemma alive_dematerializeRecord :
  preserves not_destroyed dematerializeRecord.
Proof.
  unfold dematerializeRecord, dropPromise, retainManyArray, resetRecord,
    updateRecordArrays.
  pres.
Qed.
#[local] Hint Resolve alive_dematerializeRecord : pres.

Lemma alive_unloadRecord : preserves not_destroyed unloadRecord.
Proof. unfold unloadRecord. pres. Qed.
#[local] Hint Resolve alive_unloadRecord : pres.

Lemma alive_cancelDestroy : preserves not_destroyed cancelDestroy.
Proof. unfold cancelDestroy. pres. Qed.
#[local] Hint Resolve alive_cancelDestroy : pres.

Lemma alive_checkForOrphaned :
  preserves not_destroyed _checkForOrphanedInternalModels.
Proof. unfold _checkForOrphanedInternalModels. pres. Qed.
#[local] Hint Resolve alive_checkForOrphaned : pres.

Lemma alive_run op :
  op ∉ [OpDestroy; OpDestroySync; OpDestroyFromModelData] ->
  preserves not_destroyed (run op).
Proof.
  intros Hop.
  destruct op; simpl;
    try solve [exfalso; apply Hop; set_solver];
    pres.
Qed.

End NotDestroyed.

(** ** Loops over the keys of a cache *)

Lemma bind_Ret_inv {S A B : Type} (m : M S A) (k : A -> M S B) (s s' : S)
    (b : B) :
  bind m k s = Ret b s' -> exists a s1, m s = Ret a s1 /\ k a s1 = Ret b s'.
Proof. unfold bind. destruct (m s); [by eauto|done..]. Qed.

(** A loop whose rounds all return, as long as [I] holds of what is left to
    do, amounts to folding their effects. *)
Lemma forEach_steps {S A : Type} (f : A -> M S unit) (g : A -> S -> S)
    (I : list A -> S -> Prop) :
  (forall x rest s, I (x :: rest) s -> f x s = Ret tt (g x s) /\ I rest (g x s)) ->
  forall l s, I l s -> forEach l f s = Ret tt (foldl (fun s x => g x s) s l).
Proof.
  intros Hstep l. induction l as [|x l IH]; intros s HI; simpl; [done|].
  destruct (Hstep x l s HI) as [Hfx HI']. unfold bind. rewrite Hfx.
  by apply IH.
Qed.

Lemma keys_left_all {V : Type} (cache : InternalModel -> list (string * V))
    (c : InternalModel) :
  keys_left cache (obj_keys (cache c)) c.
Proof.
  split; [apply obj_keys_NoDup|]. intros k Hk. by apply obj_keys_get.
Qed.

Lemma keys_left_next {V : Type} (cache : InternalModel -> list (string * V))
    (k : string) (ks : list string) (c c' : InternalModel) :
  keys_left cache (k :: ks) c ->
  cache c' = obj_delete k (cache c) ->
  keys_left cache ks c'.
Proof.
  intros [Hnd Hin] Hc'. apply NoDup_cons in Hnd as [Hk Hnd].
  split; [done|]. intros k' Hk'. rewrite Hc', obj_get_delete_ne.
  - apply Hin. by right.
  - intros ->. done.
Qed.

Lemma obj_get_delete_all {V : Type} (o : list (string * V))
    (ks : list string) (k : string) :
  obj_get (foldl (fun a k' => obj_delete k' a) o ks) k
  = if decide (k ∈ ks) then None else obj_get o k.
Proof.
  revert o. induction ks as [|k0 ks IH]; intros o; simpl.
  - done.
  - rewrite IH, obj_get_delete.
    repeat case_decide; try done; set_solver.
Qed.

Lemma obj_delete_all_keys {V : Type} (o : list (string * V)) :
  foldl (fun a k => obj_delete k a) o (obj_keys o) = [].
Proof.
  apply obj_get_none_nil. intros k. rewrite obj_get_delete_all.
  destruct (decide (k ∈ obj_keys o)) as [|Hnin]; [done|].
  destruct (obj_get o k) eqn:Hk; [|done].
  exfalso. apply Hnin, obj_keys_get. by eauto.
Qed.

(** Loops that drop the entries of a cache one by one and tell a
    collaborator about each. *)
Section DropLoop.
Context {V : Type}.
Context (cache : InternalModel -> list (string * V)).
Context (set_cache : list (string * V) -> InternalModel -> InternalModel).
Context (log : V -> list Event).
Hypothesis cache_set : forall x c, cache (set_cache x c) = x.
Hypothesis cache_trace : forall t c, cache (set_trace t c) = cache c.
Hypothesis trace_set : forall x c, trace (set_cache x c) = trace c.
Hypothesis trace_trace : forall t c, trace (set_trace t c) = t.
Hypothesis collapse : forall x t y u c,
  set_cache x (set_trace t (set_cache y (set_trace u c)))
  = set_cache x (set_trace t c).
Hypothesis eta : forall c, set_cache (cache c) (set_trace (trace c) c) = c.

Lemma drop_fold (ks : list string) (c : InternalModel) :
  keys_left cache ks c ->
  exists vs,
    foldl (fun c k => drop cache set_cache log k c) c ks
    = set_cache (foldl (fun a k => obj_delete k a) (cache c) ks)
                (set_trace (trace c ++ mjoin (log <$> vs)) c).
Proof.
  revert c. induction ks as [|k ks IH]; intros c Hleft.
  - exists []. simpl. by rewrite app_nil_r, eta.
  - simpl. destruct (Hleft) as [_ Hin].
    destruct (Hin k) as [v Hv]; [by left|].
    assert (Hc1 : drop cache set_cache log k c
                  = set_cache (obj_delete k (cache c))
                              (set_trace (trace c ++ log v) c)).
    { unfold drop. by rewrite Hv. }
    destruct (IH (drop cache set_cache log k c)) as [vs Hvs].
    { eapply keys_left_next; [done|]. by rewrite Hc1, cache_set. }
    exists (v :: vs). rewrite Hvs, Hc1.
    rewrite cache_set, trace_set, trace_trace, collapse.
    simpl. by rewrite (assoc_L (++)).
Qed.

Lemma drop_loop (step : string -> M InternalModel unit) (c : InternalModel) :
  (forall k c, is_Some (obj_get (cache c) k) -> step k c = Ret tt (drop cache set_cache log k c)) ->
  exists vs,
    forEach (obj_keys (cache c)) step c
    = Ret tt (set_cache [] (set_trace (trace c ++ mjoin (log <$> vs)) c)).
Proof.
  intros Hstep.
  destruct (drop_fold (obj_keys (cache c)) c) as [vs Hvs];
    [apply keys_left_all|].
  exists vs. rewrite <- (obj_delete_all_keys (cache c)), <- Hvs.
  apply (forEach_steps step (drop cache set_cache log) (keys_left cache)); [|apply keys_left_all].
  intros k rest s Hleft.
  assert (Hk : is_Some (obj_get (cache s) k)).
  { destruct Hleft as [_ Hin]. apply Hin. by left. }
  split; [by apply Hstep|].
  eapply keys_left_next; [done|]. unfold drop.
  destruct Hk as [v Hv]. by rewrite Hv, cache_set.
Qed.

End DropLoop.

(** ** Dematerialising *)

Lemma retainManyArray_run (key : string) (c : InternalModel) :
  retainManyArray key c = Ret tt (retain key c).
Proof.
  unfold retainManyArray, retain. run.
  by destruct (obj_get (_manyArrayCache c) key).
Qed.

Lemma retain_fold (ks : list string) (c : InternalModel) :
  keys_left _manyArrayCache ks c ->
  exists R,
    foldl (fun c k => retain k c) c ks
    = set__manyArrayCache
        (foldl (fun a k => obj_delete k a) (_manyArrayCache c) ks)
        (set__retainedManyArrayCache R c)
    /\ forall k,
        obj_get R k
        = if decide (k ∈ ks) then obj_get (_manyArrayCache c) k
          else obj_get (_retainedManyArrayCache c) k.
Proof.
  revert c. induction ks as [|k ks IH]; intros c Hleft.
  - exists (_retainedManyArrayCache c). split; [by destruct c|done].
  - simpl. pose proof Hleft as [Hnd Hin].
    apply NoDup_cons in Hnd as [Hk Hnd].
    destruct (Hin k) as [m Hm]; [by left|].
    destruct (IH (retain k c)) as (R & Hfold & HR).
    { by eapply keys_left_next. }
    exists R. split.
    + rewrite Hfold. unfold retain. rewrite Hm. by destruct c.
    + intros k'. rewrite HR. unfold retain. rewrite Hm. simpl.
      destruct (decide (k' = k)) as [->|Hne].
      * rewrite decide_False by done. rewrite decide_True by (by left).
        by rewrite obj_get_set_eq.
      * rewrite obj_get_delete_ne, obj_get_set_ne by done.
        repeat case_decide; try done; set_solver.
Qed.

Lemma retain_loop (c : InternalModel) :
  exists R,
    forEach (obj_keys (_manyArrayCache c)) retainManyArray c
    = Ret tt (set__manyArrayCache [] (set__retainedManyArrayCache R c))
    /\ forall k,
        obj_get R k
        = match obj_get (_manyArrayCache c) k with
          | Some m => Some m
          | None => obj_get (_retainedManyArrayCache c) k
          end.
Proof.
  destruct (retain_fold (obj_keys (_manyArrayCache c)) c) as (R & Hfold & HR);
    [apply keys_left_all|].
  exists R. split.
  - rewrite <- (obj_delete_all_keys (_manyArrayCache c)), <- Hfold.
    apply (forEach_steps retainManyArray retain (fun _ _ => True)); [|done].
    intros k rest s _. split; [apply retainManyArray_run|done].
  - intros k. rewrite HR. case_decide as Hk.
    + apply obj_keys_get in Hk as [m Hm]. by rewrite Hm.
    + destruct (obj_get (_manyArrayCache c) k) eqn:Hm; [|done].
      exfalso. apply Hk, obj_keys_get. by eauto.
Qed.

Lemma dropPromise_run (key : string) (c : InternalModel) :
  is_Some (obj_get (_relationshipPromisesCache c) key) ->
  dropPromise key c
  = Ret tt (drop _relationshipPromisesCache set__relationshipPromisesCache
                 promise_log key c).
Proof.
  intros [p Hp]. unfold dropPromise, drop, promise_log. run. rewrite Hp.
  destruct (p_destroy p); simpl; [done|].
  rewrite app_nil_r. by destruct c.
Qed.

Lemma dropPromise_loop (c : InternalModel) :
  exists ps,
    forEach (obj_keys (_relationshipPromisesCache c)) dropPromise c
    = Ret tt (set__relationshipPromisesCache []
                (set_trace (trace c ++ mjoin (promise_log <$> ps)) c)).
Proof.
  apply (drop_loop _relationshipPromisesCache set__relationshipPromisesCache
                   promise_log);
    [done | done | done | done | by intros [] | apply dropPromise_run].
Qed.

Lemma bind_modify {S B : Type} (f : S -> S) (k : unit -> M S B) (s : S) :
  bind (modify f) k s = k tt (f s).
Proof. done. Qed.

Lemma bind_gets {S A B : Type} (f : S -> A) (k : A -> M S B) (s : S) :
  bind (gets f) k s = k (f s) s.
Proof. done. Qed.

Lemma bind_ret {S A B : Type} (a : A) (k : A -> M S B) (s : S) :
  bind (ret a) k s = k a s.
Proof. done. Qed.

Lemma bind_Ret_eq {S A B : Type} (m : M S A) (k : A -> M S B) (s s' : S)
    (a : A) :
  m s = Ret a s' -> bind m k s = k a s'.
Proof. intros Hm. unfold bind. by rewrite Hm. Qed.

Lemma bind_assoc {S A B C : Type} (m : M S A) (k : A -> M S B)
    (k' : B -> M S C) (s : S) :
  bind (bind m k) k' s = bind m (fun a => bind (k a) k') s.
Proof. unfold bind. by destruct (m s). Qed.

(** Two blocks with the same fields are the same block. *)
Lemma block_ext (c1 c2 : InternalModel) :
  id c1 = id c2 -> modelName c1 = modelName c2 ->
  currentState c1 = currentState c2 -> _record c1 = _record c2 ->
  _isDestroyed c1 = _isDestroyed c2 -> isDestroying c1 = isDestroying c2 ->
  _isDematerializing c1 = _isDematerializing c2 ->
  _doNotDestroy c1 = _doNotDestroy c2 ->
  _scheduledDestroy c1 = _scheduledDestroy c2 ->
  isReloading c1 = isReloading c2 -> error c1 = error c2 ->
  isError c1 = isError c2 -> _manyArrayCache c1 = _manyArrayCache c2 ->
  _retainedManyArrayCache c1 = _retainedManyArrayCache c2 ->
  _relationshipPromisesCache c1 = _relationshipPromisesCache c2 ->
  _modelData c1 = _modelData c2 ->
  _deferredTriggers c1 = _deferredTriggers c2 -> trace c1 = trace c2 ->
  fresh c1 = fresh c2 -> currentRunLoop c1 = currentRunLoop c2 ->
  testing c1 = testing c2 ->
  c1 = c2.
Proof. destruct c1, c2; simpl; intros; by subst. Qed.

(** Reads a field through the updates made to a block. *)
Ltac fields :=
  cbn beta iota delta
    [id modelName currentState _record _isDestroyed isDestroying
     _isDematerializing _doNotDestroy _scheduledDestroy isReloading error
     isError _manyArrayCache _retainedManyArrayCache
     _relationshipPromisesCache _modelData _deferredTriggers trace fresh
     currentRunLoop testing
     set_id set_currentState set__record set__isDestroyed set_isDestroying
     set__isDematerializing set__doNotDestroy set__scheduledDestroy
     set_isReloading set_error set__manyArrayCache
     set__retainedManyArrayCache set__relationshipPromisesCache
     set__modelData set__deferredTriggers set_trace set_fresh].

(** Settles the equality of two blocks field by field, leaving the fields
    that are not plainly the same. *)
Ltac same_block := apply block_ext; fields; try reflexivity.

(** The part of [dematerializeRecord] that is run when there is a facade. *)
Lemma dematerialize_facade (r : Record_) (c : InternalModel) :
  exists R ps,
    (forall k,
        obj_get R k
        = match obj_get (_manyArrayCache c) k with
          | Some m => Some m
          | None => obj_get (_retainedManyArrayCache c) k
          end)
    /\ (keys <- gets (fun c => obj_keys (_relationshipPromisesCache c)) ;;
        forEach keys dropPromise ;;
        keys <- gets (fun c => obj_keys (_manyArrayCache c)) ;;
        forEach keys retainManyArray ;;
        emit (RecordDestroy (r_id r))) c
       = Ret tt
           (set_trace
              (trace c ++ mjoin (promise_log <$> ps) ++ [RecordDestroy (r_id r)])
              (set__manyArrayCache []
                 (set__retainedManyArrayCache R
                    (set__relationshipPromisesCache [] c)))).
Proof.
  destruct (dropPromise_loop c) as [ps Hps].
  destruct (retain_loop
              (set__relationshipPromisesCache []
                 (set_trace (trace c ++ mjoin (promise_log <$> ps)) c)))
    as (R & HR & HRspec).
  exists R, ps. split; [exact HRspec|].
  rewrite bind_gets. cbv beta.
  rewrite (bind_Ret_eq _ _ _ _ _ Hps).
  rewrite bind_gets. cbv beta.
  rewrite (bind_Ret_eq _ _ _ _ _ HR).
  unfold emit, modify. f_equal. same_block.
  by rewrite <- !(assoc_L (++)).
Qed.

(** What [dematerializeRecord] does to a block with a facade: the facade
    is destroyed, the promise cache is emptied, every entry of the active
    many-array cache is now in the retained one, and the block is back in
    the empty state. *)
Lemma dematerializeRecord_facade (r : Record_) (c : InternalModel) :
  _record c = Some r ->
  exists R ps,
    (forall k,
        obj_get R k
        = match obj_get (_manyArrayCache c) k with
          | Some m => Some m
          | None => obj_get (_retainedManyArrayCache c) k
          end)
    /\ dematerializeRecord c
       = Ret tt
           (set_trace
              (trace c ++ mjoin (promise_log <$> ps)
               ++ [RecordDestroy (r_id r); RecordDidChange])
              (set__modelData (md_unloadRecord (_modelData c))
                 (set_currentState (VState RootState_empty)
                    (set_error VNull
                       (set_isReloading false
                          (set__record None
                             (set__manyArrayCache []
                                (set__retainedManyArrayCache R
                                   (set__relationshipPromisesCache []
                                      (set__doNotDestroy false
                                         (set__isDematerializing true
                                            c))))))))))).
Proof.
  intros Hr.
  destruct (dematerialize_facade r
              (set__doNotDestroy false (set__isDematerializing true c)))
    as (R & ps & HR & Hblock).
  exists R, ps. split; [exact HR|].
  unfold dematerializeRecord.
  rewrite !bind_modify, bind_gets. cbv beta.
  change (_record (set__doNotDestroy false (set__isDematerializing true c)))
    with (_record c).
  rewrite Hr. rewrite (bind_Ret_eq _ _ _ _ _ Hblock).
  unfold resetRecord, updateRecordArrays, emit, bind, modify. f_equal.
  same_block. by rewrite <- !(assoc_L (++)).
Qed.

Lemma dematerializeRecord_no_facade (c : InternalModel) :
  _record c = None ->
  dematerializeRecord c
  = Ret tt
      (set_trace (trace c ++ [RecordDidChange])
         (set__modelData (md_unloadRecord (_modelData c))
            (set_currentState (VState RootState_empty)
               (set_error VNull
                  (set_isReloading false
                     (set__record None
                        (set__doNotDestroy false
                           (set__isDematerializing true c)))))))).
Proof.
  intros Hr. unfold dematerializeRecord.
  rewrite !bind_modify, bind_gets. cbv beta.
  change (_record (set__doNotDestroy false (set__isDematerializing true c)))
    with (_record c).
  rewrite Hr. rewrite bind_ret.
  by unfold resetRecord, updateRecordArrays, emit, bind, modify.
Qed.

(** ** Unloading *)

(** C7, as the code has it.  [unloadRecord] on a block that is not
    destroyed sends [unloadRecord]; if the send throws, so does
    [unloadRecord], with the same error and block.  Otherwise it
    dematerialises, which always returns.  With a facade, the facade is
    destroyed and every entry of the active many-array cache moves to the
    retained one; without a facade both caches stay as they are.  A destroy
    that is scheduled already is kept and nothing more is done.  Otherwise
    the orphan check is scheduled and its timer kept, after the assertion of
    the code, which outside a run loop fails unless testing is on. *)
Theorem unloadRecord_steps (c : InternalModel) :
  isDestroyed c = false ->
  match send "unloadRecord" VUndef c with
  | Ret _ c1 =>
      exists c2,
        dematerializeRecord c1 = Ret tt c2
        /\ _record c2 = None
        /\ _isDematerializing c2 = true
        /\ _scheduledDestroy c2 = _scheduledDestroy c1
        /\ match _record c1 with
           | Some r =>
               RecordDestroy (r_id r) ∈ trace c2
               /\ _manyArrayCache c2 = []
               /\ forall k,
                   obj_get (_retainedManyArrayCache c2) k
                   = match obj_get (_manyArrayCache c1) k with
                     | Some m => Some m
                     | None => obj_get (_retainedManyArrayCache c1) k
                     end
           | None =>
               _manyArrayCache c2 = _manyArrayCache c1
               /\ _retainedManyArrayCache c2 = _retainedManyArrayCache c1
           end
        /\ unloadRecord c
           = match _scheduledDestroy c1 with
             | Some _ => Ret tt c2
             | None =>
                 if currentRunLoop c1 || testing c1 then
                   Ret tt
                     (set__scheduledDestroy (Some (fresh c2))
                        (set_trace (trace c2 ++ [Schedule (fresh c2)])
                           (set_fresh (S (fresh c2)) c2)))
                 else
                   Throw (AssertionFailed autorunMessage) c2
             end
  | Throw e c1 => unloadRecord c = Throw e c1
  | Timeout => unloadRecord c = Timeout
  end.
Proof.
  intros Hd.
  destruct (send "unloadRecord" VUndef c) as [v c1|e c1|] eqn:Hsend;
    [|by unfold unloadRecord; rewrite bind_gets; cbv beta; rewrite Hd;
         unfold bind; rewrite Hsend..].
  assert (Hdem : exists c2,
    dematerializeRecord c1 = Ret tt c2
    /\ _record c2 = None
    /\ _isDematerializing c2 = true
    /\ _scheduledDestroy c2 = _scheduledDestroy c1
    /\ currentRunLoop c2 = currentRunLoop c1
    /\ testing c2 = testing c1
    /\ match _record c1 with
       | Some r =>
           RecordDestroy (r_id r) ∈ trace c2
           /\ _manyArrayCache c2 = []
           /\ forall k,
               obj_get (_retainedManyArrayCache c2) k
               = match obj_get (_manyArrayCache c1) k with
                 | Some m => Some m
                 | None => obj_get (_retainedManyArrayCache c1) k
                 end
       | None =>
           _manyArrayCache c2 = _manyArrayCache c1
           /\ _retainedManyArrayCache c2 = _retainedManyArrayCache c1
       end).
  { destruct (_record c1) as [r|] eqn:Hr.
    - destruct (dematerializeRecord_facade r c1 Hr) as (R & ps & HR & Hrun).
      eexists. split; [exact Hrun|]. fields.
      repeat split; try done.
      rewrite !elem_of_app. right. right. by left.
    - eexists. split; [by apply dematerializeRecord_no_facade|]. by fields. }
  destruct Hdem as (c2 & Hrun & Hrec & Hdemat & Hsched & Hloop & Htest & Hcaches).
  exists c2. repeat (split; [done|]).
  unfold unloadRecord. rewrite bind_gets. cbv beta. rewrite Hd.
  rewrite (bind_Ret_eq _ _ _ _ _ Hsend), (bind_Ret_eq _ _ _ _ _ Hrun).
  rewrite bind_gets. cbv beta. rewrite Hsched.
  destruct (_scheduledDestroy c1); [done|].
  rewrite bind_gets. cbv beta. rewrite Hloop.
  destruct (currentRunLoop c1); simpl.
  - by unfold bind, ret, alloc, emit, modify.
  - unfold bind at 1. unfold bind at 1. unfold gets at 1. rewrite Htest.
    destruct (testing c1); simpl; [|done].
    by unfold bind, ret, alloc, emit, modify.
Qed.

(** ** Destroying *)

Lemma destroyRetained_run (key : string) (c : InternalModel) :
  is_Some (obj_get (_retainedManyArrayCache c) key) ->
  destroyRetained key c
  = Ret tt (drop _retainedManyArrayCache set__retainedManyArrayCache
                 array_log key c).
Proof.
  intros [m Hm]. unfold destroyRetained, drop, array_log. run. by rewrite Hm.
Qed.

(** [destroy], when its assertion holds: the retained many arrays are
    destroyed and dropped, the store forgets the block, and the block is
    marked destroyed. *)
Lemma destroy_run (c : InternalModel) :
  match _record c with
  | None => true
  | Some r => r_isDestroyed r || r_isDestroying r
  end = true ->
  exists ms,
    destroy c
    = Ret tt
        (set__isDestroyed true
           (set_trace
              (trace c ++ mjoin (array_log <$> ms) ++ [RemoveFromIdMap])
              (set__retainedManyArrayCache [] (set_isDestroying true c)))).
Proof.
  intros Hok.
  destruct (drop_loop _retainedManyArrayCache set__retainedManyArrayCache
              array_log) with (step := destroyRetained)
                              (c := set_isDestroying true c)
    as [ms Hloop];
    [done | done | done | done | by intros [] | apply destroyRetained_run |].
  exists ms. unfold destroy.
  rewrite bind_gets. cbv beta. rewrite Hok. unfold assert.
  rewrite bind_ret, bind_modify, bind_gets. cbv beta.
  rewrite (bind_Ret_eq _ _ _ _ _ Hloop).
  unfold emit, bind, modify. f_equal. same_block.
  by rewrite <- !(assoc_L (++)).
Qed.

(** C10: the orphan check only clears the dematerializing flag and the
    handle of the scheduled destroy.  It leaves the destroyed flags, the
    retained many arrays and the calls made on the store as they are.  As
    long as the functions of the state graph do not destroy the block
    themselves, no operation other than [destroy], [destroySync] and
    [destroyFromModelData] destroys it; [destroy] does: it drops the retained
    many arrays, takes the block out of the identity map and marks it
    destroyed. *)
Theorem orphan_check_only_clears_flags :
  graph_keeps not_destroyed ->
  (forall c,
      _checkForOrphanedInternalModels c
      = Ret tt (set__scheduledDestroy None (set__isDematerializing false c)))
  /\ (forall c c',
      leaves (_checkForOrphanedInternalModels c) = Some c' ->
      _isDematerializing c' = false
      /\ _scheduledDestroy c' = None
      /\ _isDestroyed c' = _isDestroyed c
      /\ isDestroying c' = isDestroying c
      /\ _manyArrayCache c' = _manyArrayCache c
      /\ _retainedManyArrayCache c' = _retainedManyArrayCache c
      /\ _record c' = _record c
      /\ currentState c' = currentState c
      /\ trace c' = trace c)
  /\ (forall op,
      op ∉ [OpDestroy; OpDestroySync; OpDestroyFromModelData] ->
      preserves not_destroyed (run op))
  /\ (forall c c',
      destroy c = Ret tt c' ->
      _isDestroyed c' = true
      /\ _retainedManyArrayCache c' = []
      /\ RemoveFromIdMap ∈ trace c').
Proof.
  intros Hgraph.
  assert (Hcheck : forall c,
    _checkForOrphanedInternalModels c
    = Ret tt (set__scheduledDestroy None (set__isDematerializing false c))).
  { intros c. unfold _checkForOrphanedInternalModels.
    rewrite !bind_modify, bind_gets. cbv beta.
    by destruct (isDestroyed _). }
  split; [exact Hcheck|]. split; [|split].
  - intros c c'. rewrite Hcheck. intros [= <-]. by fields.
  - intros op Hop. by apply alive_run.
  - intros c c' Hrun.
    destruct (match _record c with
              | None => true
              | Some r => r_isDestroyed r || r_isDestroying r
              end) eqn:Hok.
    + destruct (destroy_run c Hok) as [ms Hms]. rewrite Hms in Hrun.
      injection Hrun as <-. fields. repeat split.
      rewrite !elem_of_app. right. right. by left.
    + exfalso. revert Hrun. unfold destroy.
      rewrite bind_gets. cbv beta. by rewrite Hok.
Qed.

(** ** The two many-array caches *)


Lemma disjoint_retain (key : string) (c : InternalModel) :
  caches_disjoint c -> caches_disjoint (retain key c).
Proof.
  intros Hc k. unfold retain. fields.
  rewrite obj_get_delete. case_decide as Hk; [by left|].
  destruct (obj_get (_manyArrayCache c) key); fields; [|apply Hc].
  rewrite obj_get_set_ne by done. apply Hc.
Qed.

Lemma disjoint_retainManyArray (key : string) :
  preserves caches_disjoint (retainManyArray key).
Proof.
  intros c c' Hc. rewrite retainManyArray_run. intros [= <-].
  by apply disjoint_retain.
Qed.

Lemma disjoint_destroyRetained (key : string) :
  preserves caches_disjoint (destroyRetained key).
Proof.
  intros c c' Hc. unfold destroyRetained. run.
  destruct (obj_get (_retainedManyArrayCache c) key); intros [= <-]; [|done].
  intros k. simpl. rewrite obj_get_delete. case_decide; [by right|apply Hc].
Qed.

Lemma disjoint_getManyArray (key : string) :
  preserves caches_disjoint (getManyArray key).
Proof.
  intros c c' Hc. unfold getManyArray. run.
  destruct (obj_get (_manyArrayCache c) key) as [m|] eqn:Hactive;
    destruct (obj_get (_retainedManyArrayCache c) key) as [old|] eqn:Hretained;
    simpl; rewrite ?Hretained; simpl.
  - by intros [= <-].
  - by intros [= <-].
  - intros [= <-]. intros k. simpl. rewrite obj_get_delete, obj_get_set.
    case_decide; [by right|apply Hc].
  - intros [= <-]. intros k. simpl. rewrite obj_get_set.
    case_decide as Hk; [subst; by right|apply Hc].
Qed.

Lemma disjoint_notifyPropertyChange (key : string) :
  preserves caches_disjoint (notifyPropertyChange key).
Proof.
  assert (Hmove : forall m : nat,
    preserves caches_disjoint
      (modify (fun c =>
         set__retainedManyArrayCache
           (obj_set key m (_retainedManyArrayCache c)) c) ;;
       modify (fun c =>
         set__manyArrayCache (obj_delete key (_manyArrayCache c)) c))).
  { intros m c c' Hc [= <-]. intros k. simpl.
    rewrite obj_get_delete, obj_get_set.
    case_decide; [by left|apply Hc]. }
  unfold notifyPropertyChange, updateRecordArrays.
  apply preserves_bind; [pres|intros r].
  apply preserves_bind; [pres|intros _].
  apply preserves_bind; [pres|intros active].
  apply preserves_bind; [pres|intros retained].
  apply preserves_bind; [|intros _; pres].
  destruct active as [m|]; [|destruct retained; pres].
  apply preserves_bind; [pres|intros _].
  apply preserves_bind; [pres|intros didRemove].
  destruct didRemove; [apply Hmove|pres].
Qed.

Section Disjoint.
Hypothesis Hgraph : graph_keeps caches_disjoint.

#[local] Hint Resolve disjoint_retainManyArray disjoint_destroyRetained
  disjoint_getManyArray disjoint_notifyPropertyChange : pres.

Lemma disjoint_send name context : preserves caches_disjoint (send name context).
Proof. unfold send, _unhandledEvent. pres. Qed.
#[local] Hint Resolve disjoint_send : pres.

Lemma disjoint_setId id' : preserves caches_disjoint (setId id').
Proof. unfold setId, isNew. pres. Qed.
#[local] Hint Resolve disjoint_setId : pres.

Lemma disjoint_setDirtyAttribute key value :
  preserves caches_disjoint (setDirtyAttribute key value).
Proof. unfold setDirtyAttribute, isDeleted, getAttributeValue. pres. Qed.
#[local] Hint Resolve disjoint_setDirtyAttribute : pres.

Lemma disjoint_setDirtyHasMany key records :
  preserves caches_disjoint (setDirtyHasMany key records).
Proof. unfold setDirtyHasMany. pres. Qed.
#[local] Hint Resolve disjoint_setDirtyHasMany : pres.

Lemma disjoint_initProperties properties names createOptions :
  preserves caches_disjoint (initProperties properties names createOptions).
Proof.
  revert createOptions.
  induction names as [|name names IH]; intros createOptions; simpl;
    unfold markRelationship; pres.
Qed.
#[local] Hint Resolve disjoint_initProperties : pres.

Lemma disjoint_getRecord properties :
  preserves caches_disjoint (getRecord properties).
Proof. unfold getRecord, _triggerDeferredTriggers. pres. Qed.
#[local] Hint Resolve disjoint_getRecord : pres.

Lemma disjoint_dematerializeRecord :
  preserves caches_disjoint dematerializeRecord.
Proof.
  unfold dematerializeRecord, dropPromise, resetRecord, updateRecordArrays.
  pres.
Qed.
#[local] Hint Resolve disjoint_dematerializeRecord : pres.

Lemma disjoint_unloadRecord : preserves caches_disjoint unloadRecord.
Proof. unfold unloadRecord. pres. Qed.
#[local] Hint Resolve disjoint_unloadRecord : pres.

Lemma disjoint_cancelDestroy : preserves caches_disjoint cancelDestroy.
Proof. unfold cancelDestroy. pres. Qed.
#[local] Hint Resolve disjoint_cancelDestroy : pres.

Lemma disjoint_checkForOrphaned :
  preserves caches_disjoint _checkForOrphanedInternalModels.
Proof. unfold _checkForOrphanedInternalModels. pres. Qed.
#[local] Hint Resolve disjoint_checkForOrphaned : pres.

Lemma disjoint_destroy : preserves caches_disjoint destroy.
Proof. unfold destroy. pres. Qed.
#[local] Hint Resolve disjoint_destroy : pres.


End Disjoint.

Lemma bind_cong {S A B : Type} (m1 m2 : M S A) (k1 k2 : A -> M S B)
    (s : S) :
  m1 s = m2 s -> (forall a s', k1 a s' = k2 a s') ->
  bind m1 k1 s = bind m2 k2 s.
Proof. intros Hm Hk. unfold bind. rewrite Hm. by destruct (m2 s). Qed.



(** ** The tables of the module *)

Lemma memo_ok_empty : memo_ok no_memo.
Proof. split; intros *; simpl; by rewrite lookup_empty. Qed.

Lemma split_dot_cons (name : string) :
  exists segment rest, split_dot name = segment :: rest.
Proof.
  induction name as [|ch name (segment & rest & IH)]; simpl; [by eauto|].
  case_decide; [by eauto|]. rewrite IH. by eauto.
Qed.

Lemma pivot_of_head (name : string) :
  match split_dot name with
  | [] => VUndef
  | segment :: _ => VStr segment
  end = VStr (pivot_of name).
Proof.
  unfold pivot_of. by destruct (split_dot_cons name) as (? & ? & ->).
Qed.

Lemma splitOnDot_run (name : string) (b : InternalModel) (m : Memo) :
  memo_ok m ->
  exists m',
    splitOnDot name {| block := b; memo := m |}
    = Ret (split_dot name) {| block := b; memo := m' |}
    /\ memo_ok m'
    /\ TransitionChainMap m' = TransitionChainMap m.
Proof.
  intros Hok. unfold splitOnDot. rewrite bind_gets. cbv beta. simpl.
  destruct (_splitOnDotCache m !! name) as [path|] eqn:Hcached.
  - exists m. by rewrite (split_ok m Hok name path Hcached).
  - eexists. split; [reflexivity|]. split; [|done].
    destruct Hok as [Hsplit Hpivot Hchain]. split; simpl; try done.
    intros name' path. rewrite lookup_insert. case_decide.
    + intros [= <-]. by subst.
    + apply Hsplit.
Qed.

Lemma extractPivotName_run (name : string) (b : InternalModel) (m : Memo) :
  memo_ok m ->
  exists m',
    extractPivotName name {| block := b; memo := m |}
    = Ret (VStr (pivot_of name)) {| block := b; memo := m' |}
    /\ memo_ok m'
    /\ TransitionChainMap m' = TransitionChainMap m.
Proof.
  intros Hok. unfold extractPivotName. rewrite bind_gets. cbv beta. simpl.
  assert (Hmiss : exists m',
    (path <- splitOnDot name ;;
     let pivot := match path with [] => VUndef | seg :: _ => VStr seg end in
     onMemo (fun m =>
       {| TransitionChainMap := TransitionChainMap m;
          _extractPivotNameCache := <[name := pivot]> (_extractPivotNameCache m);
          _splitOnDotCache := _splitOnDotCache m |}) ;;
     ret pivot) {| block := b; memo := m |}
    = Ret (VStr (pivot_of name)) {| block := b; memo := m' |}
    /\ memo_ok m'
    /\ TransitionChainMap m' = TransitionChainMap m).
  { destruct (splitOnDot_run name b m Hok) as (m1 & Hrun & Hok1 & Hsame).
    eexists. split.
    - rewrite (bind_Ret_eq _ _ _ _ _ Hrun). cbv zeta. unfold onMemo.
      rewrite bind_modify, pivot_of_head. reflexivity.
    - simpl. split; [|done].
      destruct Hok1 as [Hsplit Hpivot Hchain]. split; simpl; try done.
      intros name' pivot. rewrite lookup_insert. case_decide.
      + intros [= <-]. by subst.
      + apply Hpivot. }
  destruct (_extractPivotNameCache m !! name) as [pivot|] eqn:Hcached;
    simpl; [|exact Hmiss].
  destruct (truthy pivot) eqn:Htruthy; [|exact Hmiss].
  exists m. by rewrite (pivot_ok m Hok name pivot Hcached).
Qed.

(** ** Going up and going down the graph *)

Lemma climb_sound (n : nat) (pivot : string) (s : JsVal)
    (chain : list JsVal) (ancestor : JsVal) :
  climb n pivot s = Some (chain, ancestor) -> climbs pivot s chain ancestor.
Proof.
  revert s chain ancestor.
  induction n as [|n IH]; intros s chain ancestor; simpl; [done|].
  destruct (js_get s "exit") as [exit_|] eqn:Hexit; [|done].
  destruct (js_get s "parentState") as [parent|] eqn:Hparent; [|done].
  destruct (js_get parent pivot) as [found|] eqn:Hfound; [|done].
  destruct (truthy found) eqn:Htruthy.
  - intros [= <- <-]. by eapply climbs_stop.
  - destruct (climb n pivot parent) as [[chain' ancestor']|] eqn:Hclimb;
      [|done].
    intros [= <- <-]. eapply climbs_more; eauto.
Qed.

Lemma climbs_det (pivot : string) (s : JsVal) (chain1 chain2 : list JsVal)
    (a1 a2 : JsVal) :
  climbs pivot s chain1 a1 -> climbs pivot s chain2 a2 ->
  chain1 = chain2 /\ a1 = a2.
Proof.
  intros H1. revert chain2 a2.
  induction H1 as [s ex p found Hex Hp Hfound Ht
                  |s ex p found chain a Hex Hp Hfound Ht Hrest IH];
    intros chain2 a2 H2; inversion H2; simplify_eq.
  - done.
  - congruence.
  - congruence.
  - match goal with Hc : climbs _ _ _ _ |- _ =>
      destruct (IH _ _ Hc) as [-> ->]
    end.
    done.
Qed.

Lemma exitLoop_round (fuel : nat) (pivot : string) (s ex p found : JsVal)
    (b : InternalModel) :
  js_get s "exit" = Some ex ->
  js_get s "parentState" = Some p ->
  js_get p pivot = Some found ->
  exitLoop (S fuel) pivot s b
  = (exitHook s ;;
     if truthy found then ret p else exitLoop fuel pivot p) b.
Proof.
  intros Hex Hp Hfound. simpl. unfold exitHook, has_hook, perform, read.
  rewrite Hex, Hp. unfold bind, ret.
  destruct (truthy ex); [destruct (invoke ex VUndef b); try done|];
    by rewrite Hfound.
Qed.

Lemma performAll_exit_cons (s : JsVal) (chain : list JsVal)
    (b : InternalModel) :
  performAll (hooksOf "exit" (s :: chain)) b
  = (exitHook s ;; performAll (hooksOf "exit" chain)) b.
Proof.
  unfold hooksOf, exitHook, performAll. simpl.
  destruct (has_hook "exit" s); simpl; [done|]. by rewrite bind_ret.
Qed.

Lemma exitLoop_climbs (pivot : string) (s : JsVal) (chain : list JsVal)
    (ancestor : JsVal) :
  climbs pivot s chain ancestor ->
  forall fuel b,
    length chain <= fuel ->
    exitLoop fuel pivot s b
    = (performAll (hooksOf "exit" chain) ;; ret ancestor) b.
Proof.
  induction 1 as [s ex p found Hex Hp Hfound Ht
                 |s ex p found chain a Hex Hp Hfound Ht Hrest IH];
    intros fuel b Hfuel; (destruct fuel as [|fuel]; [simpl in Hfuel; lia|]);
    rewrite (exitLoop_round _ _ _ _ _ _ _ Hex Hp Hfound), Ht;
    unfold bind at 1 2; rewrite performAll_exit_cons; unfold bind at 1.
  - by destruct (exitHook s b).
  - destruct (exitHook s b); [|done..].
    rewrite IH by (simpl in Hfuel; lia). done.
Qed.

Lemma exitLoop_sound (fuel : nat) (pivot : string) (s ancestor : JsVal)
    (b b' : InternalModel) :
  exitLoop fuel pivot s b = Ret ancestor b' ->
  exists chain, climbs pivot s chain ancestor.
Proof.
  revert s b. induction fuel as [|fuel IH]; intros s b; simpl; [done|].
  unfold read.
  destruct (js_get s "exit") as [ex|] eqn:Hex; [|done].
  rewrite bind_ret.
  intros (u & b1 & _ & Hrest)%bind_Ret_inv.
  destruct (js_get s "parentState") as [p|] eqn:Hp; [|done].
  rewrite bind_ret in Hrest.
  destruct (js_get p pivot) as [found|] eqn:Hfound; [|done].
  rewrite bind_ret in Hrest.
  destruct (truthy found) eqn:Ht.
  - injection Hrest as <- <-. eexists. by eapply climbs_stop.
  - destruct (IH _ _ Hrest) as [chain Hchain].
    eexists. by eapply climbs_more.
Qed.

Lemma last_cons_default {A : Type} (x d : A) (l : list A) :
  default d (last (x :: l)) = default x (last l).
Proof.
  revert x d. induction l as [|y l IH]; intros x d; [done|].
  change (last (x :: y :: l)) with (last (y :: l)).
  by rewrite (IH y d), (IH y x).
Qed.

Lemma walk_descend (path : list string) (s : JsVal) (nodes : list JsVal) :
  descend path s = Some nodes ->
  forall enters0 setups0,
    walk path s enters0 setups0
    = Some {| setups := setups0 ++ List.filter (has_hook "setup") nodes;
              enters := enters0 ++ List.filter (has_hook "enter") nodes;
              state := default s (last nodes) |}.
Proof.
  revert s nodes. induction path as [|segment path IH]; intros s nodes; simpl.
  - intros [= <-] enters0 setups0. simpl. by rewrite !app_nil_r.
  - destruct (js_get s segment) as [next|] eqn:Hnext; [|done].
    destruct (js_get next "enter") as [enter_|] eqn:Henter; [|done].
    destruct (descend path next) as [nodes'|] eqn:Hrest; [|done].
    intros [= <-] enters0 setups0.
    destruct (js_get_readable next "enter" "setup") as [setup_ Hsetup];
      [by eauto|].
    rewrite Hsetup, (IH _ _ Hrest), last_cons_default. simpl.
    assert (Hen : has_hook "enter" next = truthy enter_)
      by (unfold has_hook; by rewrite Henter).
    assert (Hse : has_hook "setup" next = truthy setup_)
      by (unfold has_hook; by rewrite Hsetup).
    rewrite Hen, Hse.
    by destruct (truthy enter_), (truthy setup_);
      rewrite <- ?(assoc_L (++)).
Qed.

(** ** Keys of the transition-chain cache *)

Lemma arrow_split (a a' n n' : string) :
  dash_free a = true -> dash_free a' = true ->
  a +:+ "->" +:+ n = a' +:+ "->" +:+ n' ->
  a = a' /\ n = n'.
Proof.
  revert a'. induction a as [|ch a IH]; intros [|ch' a']; simpl.
  - intros _ _ Heq. split; [done|]. by injection Heq.
  - intros _ Hfree Heq. injection Heq as <- _.
    by rewrite bool_decide_true in Hfree.
  - intros Hfree _ Heq. injection Heq as -> _.
    by rewrite bool_decide_true in Hfree.
  - intros [_ Hfree]%andb_prop [_ Hfree']%andb_prop Heq.
    injection Heq as -> Heq. destruct (IH a' Hfree Hfree' Heq) as [-> ->].
    done.
Qed.

Lemma transitionMapId_inj (s s' : StateId) (name name' : string) :
  named_graph ->
  transitionMapId (stateNameOf s) name = transitionMapId (stateNameOf s') name' ->
  s = s' /\ name = name'.
Proof.
  intros [Hnamed Hinj] Heq.
  destruct (Hnamed s) as (n & Hn & Hfree).
  destruct (Hnamed s') as (n' & Hn' & Hfree').
  unfold transitionMapId in Heq. rewrite Hn, Hn' in Heq. simpl in Heq.
  destruct (arrow_split _ _ _ _ Hfree Hfree' Heq) as [-> ->].
  split; [|done]. apply Hinj. by rewrite Hn, Hn'.
Qed.

(** A cached chain is the chain the walk would collect again. *)
Lemma chain_hit (m : Memo) (s : StateId) (name : string)
    (entry : ChainEntry) (chain : list JsVal) (ancestor : JsVal) :
  named_graph ->
  memo_ok m ->
  TransitionChainMap m !! transitionMapId (stateNameOf s) name = Some entry ->
  climbs (pivot_of name) (VState s) chain ancestor ->
  walk (split_dot name) ancestor [] [] = Some entry.
Proof.
  intros Hgraph Hok Hcached Hclimbs.
  destruct (chain_ok m Hok _ _ Hcached)
    as (s0 & name0 & chain0 & ancestor0 & Hkey & Hclimbs0 & Hwalk).
  apply transitionMapId_inj in Hkey as [-> ->]; [|done].
  by destruct (climbs_det _ _ _ _ _ _ Hclimbs Hclimbs0) as [_ ->].
Qed.

(** ** The second half of a transition *)

Lemma runHooks_hooksOf (hook : string) (nodes : list JsVal)
    (b : InternalModel) :
  runHooks hook (List.filter (has_hook hook) nodes) b
  = performAll (hooksOf hook nodes) b.
Proof. unfold runHooks, performAll, hooksOf. by rewrite forEach_map. Qed.

Lemma forEach_cons {S A : Type} (x : A) (l : list A) (f : A -> M S unit)
    (s : S) :
  forEach (x :: l) f s = (f x ;; forEach l f) s.
Proof. done. Qed.

Lemma finishTransition_steps (nodes : list JsVal) (ancestor : JsVal)
    (b : InternalModel) :
  finishTransition
    {| setups := List.filter (has_hook "setup") nodes;
       enters := List.filter (has_hook "enter") nodes;
       state := default ancestor (last nodes) |} b
  = performAll
      (hooksOf "enter" nodes
       ++ [SetCurrentState (default ancestor (last nodes))]
       ++ hooksOf "setup" nodes ++ [NotifyMembership]) b.
Proof.
  unfold finishTransition, performAll. simpl.
  rewrite forEach_app.
  apply bind_cong; [apply runHooks_hooksOf|intros _ b1].
  rewrite forEach_cons. unfold perform at 1. rewrite bind_assoc.
  apply bind_cong; [done|intros _ b2].
  rewrite bind_assoc.
  apply bind_cong; [done|intros r b3].
  apply bind_cong; [done|intros _ b4].
  rewrite forEach_app.
  apply bind_cong; [apply runHooks_hooksOf|intros _ b5].
  simpl. unfold bind. by destruct (updateRecordArrays b5) as [[] ?| |].
Qed.

(** ** Transitions *)

Lemma bind_onBlock {A B : Type} (m : M InternalModel A) (k : A -> M World B)
    (b : InternalModel) (t : Memo) :
  bind (onBlock m) k {| block := b; memo := t |}
  = match m b with
    | Ret a b1 => k a {| block := b1; memo := t |}
    | Throw e b1 => Throw e {| block := b1; memo := t |}
    | Timeout => Timeout
    end.
Proof. unfold bind, onBlock. simpl. by destruct (m b). Qed.

Lemma bind_onBlock_gets {A B : Type} (f : InternalModel -> A)
    (k : A -> M World B) (b : InternalModel) (t : Memo) :
  bind (onBlock (gets f)) k {| block := b; memo := t |}
  = k (f b) {| block := b; memo := t |}.
Proof. done. Qed.

Lemma bind_onBlock_ret {A B : Type} (a : A) (k : A -> M World B)
    (b : InternalModel) (t : Memo) :
  bind (onBlock (ret a)) k {| block := b; memo := t |}
  = k a {| block := b; memo := t |}.
Proof. done. Qed.

Lemma blockOutcome_onBlock {A : Type} (m : M InternalModel A)
    (b : InternalModel) (t : Memo) :
  blockOutcome (onBlock m {| block := b; memo := t |}) = m b.
Proof. unfold onBlock. simpl. by destruct (m b). Qed.

(** What a transition does to the block, with the cache. *)
Lemma transitionTo_block (fuel : nat) (name : string) (b : InternalModel)
    (t : Memo) (s : StateId) :
  named_graph ->
  memo_ok t ->
  currentState b = VState s ->
  blockOutcome (transitionTo fuel name {| block := b; memo := t |})
  = match exitLoop fuel (pivot_of name) (VState s) b with
    | Ret state1 b1 =>
        match walk (split_dot name) state1 [] [] with
        | Some entry => finishTransition entry b1
        | None => Throw TypeError b1
        end
    | Throw e b1 => Throw e b1
    | Timeout => Timeout
    end.
Proof.
  intros Hgraph Hok Hcur. unfold transitionTo.
  destruct (extractPivotName_run name b t Hok) as (t1 & Hpivot & Hok1 & Hsame).
  rewrite (bind_Ret_eq _ _ _ _ _ Hpivot).
  rewrite bind_onBlock_gets, Hcur.
  change (read (VState s) "stateName")
    with (ret (S := InternalModel) (stateNameOf s)).
  rewrite bind_onBlock_ret. cbv zeta. simpl js_to_string.
  rewrite bind_onBlock.
  destruct (exitLoop fuel (pivot_of name) (VState s) b)
    as [state1 b1|e b1|] eqn:Hexit; [|done..].
  rewrite bind_gets. cbv beta. simpl memo. rewrite Hsame.
  destruct (TransitionChainMap t !! transitionMapId (stateNameOf s) name)
    as [entry|] eqn:Hcached.
  - rewrite bind_ret, blockOutcome_onBlock.
    destruct (exitLoop_sound _ _ _ _ _ _ Hexit) as [chain Hclimbs].
    rewrite <- Hsame in Hcached.
    by rewrite (chain_hit t1 s name entry chain state1 Hgraph Hok1 Hcached Hclimbs).
  - rewrite bind_assoc.
    destruct (splitOnDot_run name b1 t1 Hok1) as (t2 & Hsplit & Hok2 & Hsame2).
    rewrite (bind_Ret_eq _ _ _ _ _ Hsplit).
    destruct (walk (split_dot name) state1 [] []) as [entry|]; [|done].
    unfold onMemo. rewrite bind_assoc, bind_modify, bind_ret.
    by rewrite blockOutcome_onBlock.
Qed.

(** What a transition does to the block, without the cache. *)
Lemma transitionTo_uncached_block (fuel : nat) (name : string)
    (b : InternalModel) (t : Memo) (s : StateId) :
  memo_ok t ->
  currentState b = VState s ->
  blockOutcome (transitionTo_uncached fuel name {| block := b; memo := t |})
  = match exitLoop fuel (pivot_of name) (VState s) b with
    | Ret state1 b1 =>
        match walk (split_dot name) state1 [] [] with
        | Some entry => finishTransition entry b1
        | None => Throw TypeError b1
        end
    | Throw e b1 => Throw e b1
    | Timeout => Timeout
    end.
Proof.
  intros Hok Hcur. unfold transitionTo_uncached.
  destruct (extractPivotName_run name b t Hok) as (t1 & Hpivot & Hok1 & Hsame).
  rewrite (bind_Ret_eq _ _ _ _ _ Hpivot).
  rewrite bind_onBlock_gets, Hcur.
  change (read (VState s) "stateName")
    with (ret (S := InternalModel) (stateNameOf s)).
  rewrite bind_onBlock_ret. simpl js_to_string.
  rewrite bind_onBlock.
  destruct (exitLoop fuel (pivot_of name) (VState s) b)
    as [state1 b1|e b1|] eqn:Hexit; [|done..].
  destruct (splitOnDot_run name b1 t1 Hok1) as (t2 & Hsplit & Hok2 & Hsame2).
  rewrite (bind_Ret_eq _ _ _ _ _ Hsplit).
  destruct (walk (split_dot name) state1 [] []) as [entry|]; [|done].
  by rewrite blockOutcome_onBlock.
Qed.

(** C2: the transition-chain cache is not observable.  On a graph whose
    states are known by their names, with tables filled by the code itself,
    a transition run with the cache and the same transition run by
    collecting the chain anew call the same hooks in the same order, end in
    the same state and leave the same control block, hit or miss. *)
Theorem transition_cache_transparent (fuel : nat) (name : string)
    (w : World) (s : StateId) :
  named_graph ->
  memo_ok (memo w) ->
  currentState (block w) = VState s ->
  blockOutcome (transitionTo fuel name w)
  = blockOutcome (transitionTo_uncached fuel name w).
Proof.
  destruct w as [b t]. simpl. intros Hgraph Hok Hcur.
  rewrite (transitionTo_block fuel name b t s Hgraph Hok Hcur).
  by rewrite (transitionTo_uncached_block fuel name b t s Hok Hcur).
Qed.

(** C1: the order of a transition.  From a state of the graph, with the
    states [chain] to leave before the first ancestor that holds the pivot
    of the target and the states [nodes] met going down from that ancestor
    along the target, [transitionTo] does what these steps do, one after
    the other: the exit hooks of [chain] from the current state upward, the
    enter hooks of [nodes] from the top down, the assignment of the last
    node as current state (passed on to the facade when there is one), the
    setup hooks of [nodes] from the top down, the notice to the membership
    tracker.  A hook that throws ends the transition there. *)
Theorem transitionTo_order (fuel : nat) (name : string) (w : World)
    (s : StateId) (chain nodes : list JsVal) (ancestor : JsVal) :
  named_graph ->
  memo_ok (memo w) ->
  currentState (block w) = VState s ->
  climbs (pivot_of name) (VState s) chain ancestor ->
  descend (split_dot name) ancestor = Some nodes ->
  length chain <= fuel ->
  blockOutcome (transitionTo fuel name w)
  = performAll (transitionSteps chain nodes ancestor) (block w).
Proof.
  destruct w as [b t]. simpl.
  intros Hgraph Hok Hcur Hclimbs Hdescend Hfuel.
  rewrite (transitionTo_block fuel name b t s Hgraph Hok Hcur).
  rewrite (exitLoop_climbs _ _ _ _ Hclimbs fuel b Hfuel).
  unfold transitionSteps, performAll. rewrite forEach_app.
  unfold bind at 1 2.
  destruct (forEach (hooksOf "exit" chain) perform b) as [[] b1|e b1|];
    [|done..].
  unfold ret at 1.
  rewrite (walk_descend _ _ _ Hdescend [] []). simpl app.
  apply finishTransition_steps.
Qed.

Lemma onBlock_memo {A : Type} (m : M InternalModel A) (w w' : World) (a : A) :
  onBlock m w = Ret a w' -> memo w' = memo w.
Proof. unfold onBlock. destruct (m (block w)); intros [= <- <-]; done. Qed.

(** The tables stay filled by the code alone across a transition. *)
Lemma transitionTo_memo_ok (fuel : nat) (name : string) (w w' : World)
    (s : StateId) :
  memo_ok (memo w) ->
  currentState (block w) = VState s ->
  transitionTo fuel name w = Ret tt w' ->
  memo_ok (memo w').
Proof.
  destruct w as [b t]. simpl. intros Hok Hcur. unfold transitionTo.
  destruct (extractPivotName_run name b t Hok) as (t1 & Hpivot & Hok1 & Hsame).
  rewrite (bind_Ret_eq _ _ _ _ _ Hpivot).
  rewrite bind_onBlock_gets, Hcur.
  change (read (VState s) "stateName")
    with (ret (S := InternalModel) (stateNameOf s)).
  rewrite bind_onBlock_ret. cbv zeta. simpl js_to_string.
  rewrite bind_onBlock.
  destruct (exitLoop fuel (pivot_of name) (VState s) b)
    as [state1 b1|e b1|] eqn:Hexit; [|done..].
  rewrite bind_gets. cbv beta. simpl memo.
  destruct (TransitionChainMap t1 !! transitionMapId (stateNameOf s) name)
    as [entry|] eqn:Hcached.
  - rewrite bind_ret. intros Hfin. by rewrite (onBlock_memo _ _ _ _ Hfin).
  - rewrite bind_assoc.
    destruct (splitOnDot_run name b1 t1 Hok1) as (t2 & Hsplit & Hok2 & Hsame2).
    rewrite (bind_Ret_eq _ _ _ _ _ Hsplit).
    destruct (walk (split_dot name) state1 [] []) as [entry|] eqn:Hwalk;
      [|done].
    unfold onMemo. rewrite bind_assoc, bind_modify, bind_ret.
    intros Hfin. rewrite (onBlock_memo _ _ _ _ Hfin). simpl.
    destruct Hok2 as [Hsplit2 Hpivot2 Hchain2]. split; simpl; try done.
    intros k entry'. rewrite lookup_insert. case_decide as Hk.
    + intros [= <-]. subst k.
      destruct (exitLoop_sound _ _ _ _ _ _ Hexit) as [chain Hclimbs].
      by exists s, name, chain, state1.
    + apply Hchain2.
Qed.

(** * Further properties of the code *)

(** ** Names and the tables that remember them *)

Lemma join_split_dot (name : string) : join_dot (split_dot name) = name.
Proof.
  induction name as [|ch name IH]; [done|]. simpl split_dot.
  destruct (split_dot_cons name) as (segment & rest & Hsplit).
  rewrite Hsplit in IH |- *. case_decide as Hch.
  - subst ch. change (join_dot ("" :: segment :: rest))
      with ("" +:+ "." +:+ join_dot (segment :: rest)).
    by rewrite IH.
  - destruct rest as [|next rest].
    + simpl in IH |- *. by rewrite IH.
    + change (join_dot (String ch segment :: next :: rest))
        with (String ch (segment +:+ "." +:+ join_dot (next :: rest))).
      change (join_dot (segment :: next :: rest))
        with (segment +:+ "." +:+ join_dot (next :: rest)) in IH.
      by rewrite IH.
Qed.

Lemma split_dot_free (name : string) :
  Forall (fun segment => dot_free segment = true) (split_dot name).
Proof.
  induction name as [|ch name IH]; simpl.
  - by repeat constructor.
  - case_decide as Hch; [by constructor|].
    destruct (split_dot name) as [|segment rest].
    { constructor; [|constructor]. simpl. by rewrite bool_decide_false. }
    apply Forall_cons in IH as [Hsegment Hrest].
    constructor; [|done]. simpl. by rewrite bool_decide_false, Hsegment.
Qed.

Lemma pivot_of_before_dot (name : string) : pivot_of name = before_dot name.
Proof.
  unfold pivot_of. induction name as [|ch name IH]; simpl; [done|].
  case_decide; [done|].
  destruct (split_dot_cons name) as (segment & rest & Hsplit).
  rewrite Hsplit in IH |- *. by rewrite IH.
Qed.

Lemma before_dot_free (name : string) :
  dot_free name = true -> before_dot name = name.
Proof.
  induction name as [|ch name IH]; simpl; [done|].
  intros [Hch Hrest]%andb_prop. case_decide as Hdot.
  - by rewrite bool_decide_true in Hch.
  - by rewrite IH.
Qed.

(** X1: [splitOnDot] returns the segments of the name, whether it finds
    them in its table or computes them: joined with dots they give the name
    back, none of them has a dot in it, and there is at least one.  The
    block is not touched. *)
Theorem splitOnDot_segments (name : string) (w : World) :
  memo_ok (memo w) ->
  exists path w1,
    splitOnDot name w = Ret path w1
    /\ join_dot path = name
    /\ Forall (fun segment => dot_free segment = true) path
    /\ path <> []
    /\ block w1 = block w.
Proof.
  destruct w as [b m]. simpl. intros Hok.
  destruct (splitOnDot_run name b m Hok) as (m1 & Hrun & _ & _).
  exists (split_dot name), {| block := b; memo := m1 |}.
  split; [exact Hrun|]. split; [apply join_split_dot|].
  split; [apply split_dot_free|]. split; [|done].
  by destruct (split_dot_cons name) as (? & ? & ->).
Qed.

(** X2: [splitOnDot] remembers.  After a call the table holds the path
    under the name, a second call returns the same path and changes
    nothing, and the first call changed nothing else: not the entries of
    other names, not the other two tables, not the block. *)
Theorem splitOnDot_memoized (name : string) (w w1 : World)
    (path : list string) :
  splitOnDot name w = Ret path w1 ->
  _splitOnDotCache (memo w1) !! name = Some path
  /\ splitOnDot name w1 = Ret path w1
  /\ (forall other, other <> name ->
        _splitOnDotCache (memo w1) !! other
        = _splitOnDotCache (memo w) !! other)
  /\ TransitionChainMap (memo w1) = TransitionChainMap (memo w)
  /\ _extractPivotNameCache (memo w1) = _extractPivotNameCache (memo w)
  /\ block w1 = block w.
Proof.
  unfold splitOnDot. rewrite !bind_gets. cbv beta.
  destruct (_splitOnDotCache (memo w) !! name) as [cached|] eqn:Hcached.
  - intros [= <- <-]. by rewrite Hcached.
  - unfold onMemo. rewrite bind_modify. intros [= <- <-]. simpl.
    rewrite lookup_insert, decide_True by done.
    repeat split; try done.
    intros other Hother. by rewrite lookup_insert_ne.
Qed.

(** X3: [extractPivotName] returns what comes before the first dot of the
    name (the whole name when it has no dot), whether it finds it in its
    table or not; the tables stay filled by the code alone and the block is
    not touched. *)
Theorem extractPivotName_before_dot (name : string) (w : World) :
  memo_ok (memo w) ->
  exists w1,
    extractPivotName name w = Ret (VStr (before_dot name)) w1
    /\ (dot_free name = true -> before_dot name = name)
    /\ memo_ok (memo w1)
    /\ block w1 = block w.
Proof.
  destruct w as [b m]. simpl. intros Hok.
  destruct (extractPivotName_run name b m Hok) as (m1 & Hrun & Hok1 & _).
  exists {| block := b; memo := m1 |}.
  rewrite <- pivot_of_before_dot.
  split; [exact Hrun|]. split; [|done].
  rewrite pivot_of_before_dot. apply before_dot_free.
Qed.

(** ** What a transition leaves in the tables *)

Lemma memo_le_refl (m : Memo) : memo_le m m.
Proof. by repeat split. Qed.

Lemma memo_le_trans (m1 m2 m3 : Memo) :
  memo_le m1 m2 -> memo_le m2 m3 -> memo_le m1 m3.
Proof.
  intros (? & ? & ?) (? & ? & ?). repeat split; by etrans.
Qed.

Lemma splitOnDot_le (name : string) (w w1 : World) (path : list string) :
  splitOnDot name w = Ret path w1 ->
  memo_le (memo w) (memo w1)
  /\ _extractPivotNameCache (memo w1) = _extractPivotNameCache (memo w).
Proof.
  unfold splitOnDot. rewrite !bind_gets. cbv beta.
  destruct (_splitOnDotCache (memo w) !! name) as [cached|] eqn:Hcached.
  - intros [= <- <-]. split; [apply memo_le_refl|done].
  - unfold onMemo. rewrite bind_modify. intros [= <- <-]. simpl.
    split; [|done]. repeat split; simpl; try done.
    by apply insert_subseteq.
Qed.

Lemma extractPivotName_le (name : string) (w w1 : World) (v : JsVal) :
  memo_ok (memo w) ->
  extractPivotName name w = Ret v w1 ->
  memo_le (memo w) (memo w1).
Proof.
  destruct w as [b m]. simpl. intros Hok.
  unfold extractPivotName. rewrite bind_gets. cbv beta. simpl.
  assert (Hmiss :
    (forall pivot, _extractPivotNameCache m !! name = Some pivot ->
                   pivot = VStr (pivot_of name)) ->
    (path <- splitOnDot name ;;
     let pivot := match path with [] => VUndef | seg :: _ => VStr seg end in
     onMemo (fun m =>
       {| TransitionChainMap := TransitionChainMap m;
          _extractPivotNameCache := <[name := pivot]> (_extractPivotNameCache m);
          _splitOnDotCache := _splitOnDotCache m |}) ;;
     ret pivot) {| block := b; memo := m |} = Ret v w1 ->
    memo_le m (memo w1)).
  { intros Hcached.
    destruct (splitOnDot_run name b m Hok) as (m1 & Hrun & _ & _).
    destruct (splitOnDot_le _ _ _ _ Hrun) as [Hle Hsame]. simpl in Hle, Hsame.
    rewrite (bind_Ret_eq _ _ _ _ _ Hrun). cbv zeta. unfold onMemo.
    rewrite bind_modify, pivot_of_head. intros [= <- <-]. simpl.
    eapply memo_le_trans; [exact Hle|].
    repeat split; simpl; try done. rewrite Hsame.
    destruct (_extractPivotNameCache m !! name) as [pivot|] eqn:Hpivot.
    - rewrite insert_id; [done|]. rewrite Hpivot. f_equal. by apply Hcached.
    - by apply insert_subseteq. }
  pose proof (pivot_ok m Hok name) as Hpivot.
  destruct (_extractPivotNameCache m !! name) as [pivot|] eqn:Hcached;
    simpl; [|by apply Hmiss].
  destruct (truthy pivot); [|by apply Hmiss].
  intros [= <- <-]. apply memo_le_refl.
Qed.

(** X4: a transition that returns only adds to the tables of the module.
    Every entry the three tables held before is still there, unchanged;
    the tables are still filled by the code alone; and the chain of this
    transition is now in the transition-chain table, under the name of the
    state left and the target. *)
Theorem transitionTo_tables_grow (fuel : nat) (name : string) (w w' : World)
    (s : StateId) :
  memo_ok (memo w) ->
  currentState (block w) = VState s ->
  transitionTo fuel name w = Ret tt w' ->
  memo_le (memo w) (memo w')
  /\ memo_ok (memo w')
  /\ is_Some (TransitionChainMap (memo w')
              !! transitionMapId (stateNameOf s) name).
Proof.
  intros Hok Hcur Hrun.
  split; [|split; [by eapply transitionTo_memo_ok|]]; revert Hrun;
    destruct w as [b t]; simpl in Hok, Hcur |- *; unfold transitionTo;
    destruct (extractPivotName_run name b t Hok) as (t1 & Hpivot & Hok1 & Hsame);
    pose proof (extractPivotName_le name {| block := b; memo := t |} _ _
                  Hok Hpivot) as Hle1;
    simpl in Hle1;
    rewrite (bind_Ret_eq _ _ _ _ _ Hpivot);
    rewrite bind_onBlock_gets, Hcur;
    change (read (VState s) "stateName")
      with (ret (S := InternalModel) (stateNameOf s));
    rewrite bind_onBlock_ret; cbv zeta; simpl js_to_string;
    rewrite bind_onBlock;
    (destruct (exitLoop fuel (pivot_of name) (VState s) b)
      as [state1 b1|e b1|] eqn:Hexit; [|done..]);
    rewrite bind_gets; cbv beta; simpl memo;
    (destruct (TransitionChainMap t1 !! transitionMapId (stateNameOf s) name)
      as [entry|] eqn:Hcached).
  - rewrite bind_ret. intros Hfin. by rewrite (onBlock_memo _ _ _ _ Hfin).
  - rewrite bind_assoc.
    destruct (splitOnDot_run name b1 t1 Hok1) as (t2 & Hsplit & Hok2 & Hsame2).
    destruct (splitOnDot_le _ _ _ _ Hsplit) as [Hle2 _]. simpl in Hle2.
    rewrite (bind_Ret_eq _ _ _ _ _ Hsplit).
    destruct (walk (split_dot name) state1 [] []) as [entry|]; [|done].
    unfold onMemo. rewrite bind_assoc, bind_modify, bind_ret.
    intros Hfin. rewrite (onBlock_memo _ _ _ _ Hfin). simpl.
    eapply memo_le_trans; [exact Hle1|].
    eapply memo_le_trans; [exact Hle2|].
    repeat split; simpl; try done.
    apply insert_subseteq. by rewrite Hsame2.
  - rewrite bind_ret. intros Hfin. rewrite (onBlock_memo _ _ _ _ Hfin).
    simpl. by eauto.
  - rewrite bind_assoc.
    destruct (splitOnDot_run name b1 t1 Hok1) as (t2 & Hsplit & Hok2 & Hsame2).
    rewrite (bind_Ret_eq _ _ _ _ _ Hsplit).
    destruct (walk (split_dot name) state1 [] []) as [entry|]; [|done].
    unfold onMemo. rewrite bind_assoc, bind_modify, bind_ret.
    intros Hfin. rewrite (onBlock_memo _ _ _ _ Hfin). simpl.
    rewrite lookup_insert, decide_True by done. by eauto.
Qed.

(** ** Transitions to a target that is not there *)




Lemma split_dot_free_name (name : string) :
  dot_free name = true -> split_dot name = [name].
Proof.
  induction name as [|ch name IH]; simpl; [done|].
  intros [Hch Hrest]%andb_prop. case_decide as Hdot.
  - by rewrite bool_decide_true in Hch.
  - by rewrite IH.
Qed.

Lemma truthy_readable (v : JsVal) (k : string) :
  truthy v = true -> is_Some (js_get v k).
Proof. destruct v; simpl; intros; by eauto. Qed.

(** X6: a transition to a state next to the current one.  When the target
    has no dot and the parent of the current state holds a state under it
    (a sibling of the current state, or the current state itself), the
    transition leaves the current state only, through its exit hook, and
    enters the target: enter hook, assignment, setup hook, notice.  A
    transition to the state the block is in is therefore not a no-op. *)
Theorem transitionTo_sibling (fuel : nat) (name : string) (w : World)
    (s : StateId) (parent target : JsVal) :
  named_graph ->
  memo_ok (memo w) ->
  currentState (block w) = VState s ->
  dot_free name = true ->
  js_get (VState s) "parentState" = Some parent ->
  js_get parent name = Some target ->
  truthy target = true ->
  1 <= fuel ->
  blockOutcome (transitionTo fuel name w)
  = performAll
      (hooksOf "exit" [VState s]
       ++ hooksOf "enter" [target]
       ++ [SetCurrentState target]
       ++ hooksOf "setup" [target]
       ++ [NotifyMembership])
      (block w).
Proof.
  destruct w as [b t]. simpl.
  intros Hgraph Hok Hcur Hfree Hparent Htarget Htruthy Hfuel.
  rewrite (transitionTo_block fuel name b t s Hgraph Hok Hcur).
  assert (Hpivot : pivot_of name = name)
    by (by rewrite pivot_of_before_dot, before_dot_free).
  assert (Hclimbs : climbs (pivot_of name) (VState s) [VState s] parent).
  { rewrite Hpivot. by eapply (climbs_stop _ _ _ parent target). }
  rewrite (exitLoop_climbs _ _ _ _ Hclimbs fuel b) by done.
  unfold performAll. rewrite forEach_app.
  unfold bind at 1 2.
  destruct (forEach (hooksOf "exit" [VState s]) perform b) as [[] b1|e b1|];
    [|done..].
  unfold ret at 1. rewrite (split_dot_free_name _ Hfree).
  destruct (truthy_readable target "enter" Htruthy) as [enter_ Henter].
  assert (Hdescend : descend [name] parent = Some [target]).
  { simpl. by rewrite Htarget, Henter. }
  rewrite (walk_descend _ _ _ Hdescend [] []). simpl app.
  apply (finishTransition_steps [target] parent).
Qed.

(** ** Materialisation and the deferred triggers *)

Lemma trigger_loop (a : nat) (triggers : list (list JsVal))
    (c : InternalModel) :
  forEach triggers (fun args => emit (RecordTrigger a args)) c
  = Ret tt (set_trace (trace c ++ map (RecordTrigger a) triggers) c).
Proof.
  revert c. induction triggers as [|args triggers IH]; intros c; simpl.
  - unfold ret. f_equal. same_block. by rewrite app_nil_r.
  - unfold bind, emit, modify. rewrite IH. f_equal. same_block.
    by rewrite <- (assoc_L (++)).
Qed.

Lemma triggerDeferredTriggers_run (r : Record_) (c : InternalModel) :
  _record c = Some r ->
  _triggerDeferredTriggers c
  = Ret tt
      (set__deferredTriggers []
         (set_trace
            (trace c ++ map (RecordTrigger (r_id r)) (_deferredTriggers c))
            c)).
Proof.
  intros Hr. unfold _triggerDeferredTriggers.
  rewrite bind_gets. cbv beta. rewrite Hr. rewrite bind_gets. cbv beta.
  unfold bind. by rewrite trigger_loop.
Qed.

(** X7: the deferred triggers are kept until there is a facade, and handed
    over once.  Without a facade [_triggerDeferredTriggers] changes nothing:
    the queue stays.  With one, every queued trigger is passed to the
    facade, oldest first, and the queue is emptied, so that running it
    again does nothing. *)
Theorem triggerDeferredTriggers_once (c : InternalModel) :
  match _record c with
  | None => _triggerDeferredTriggers c = Ret tt c
  | Some r =>
      let c' :=
        set__deferredTriggers []
          (set_trace
             (trace c ++ map (RecordTrigger (r_id r)) (_deferredTriggers c))
             c) in
      _triggerDeferredTriggers c = Ret tt c'
      /\ _triggerDeferredTriggers c' = Ret tt c'
  end.
Proof.
  destruct (_record c) as [r|] eqn:Hr.
  - cbv zeta. split; [by apply triggerDeferredTriggers_run|].
    rewrite (triggerDeferredTriggers_run r) by (fields; exact Hr).
    f_equal. same_block. by rewrite app_nil_r.
  - unfold _triggerDeferredTriggers. rewrite bind_gets. cbv beta.
    by rewrite Hr.
Qed.

(** The facade [getRecord] makes out of the options it has collected. *)
Lemma materialize_run (options : list (string * JsVal)) (c : InternalModel) :
  (a <- alloc ;;
   emit (FactoryCreate a options) ;;
   modify (set__record
             (Some {| r_id := a; r_isDestroyed := false;
                      r_isDestroying := false |})) ;;
   _triggerDeferredTriggers) c
  = Ret tt
      (set__deferredTriggers []
         (set_trace
            (trace c ++ FactoryCreate (fresh c) options
               :: map (RecordTrigger (fresh c)) (_deferredTriggers c))
            (set__record
               (Some {| r_id := fresh c; r_isDestroyed := false;
                        r_isDestroying := false |})
               (set_fresh (S (fresh c)) c)))).
Proof.
  unfold alloc at 1. unfold bind at 1. unfold emit. rewrite !bind_modify.
  rewrite (triggerDeferredTriggers_run
             {| r_id := fresh c; r_isDestroyed := false;
                r_isDestroying := false |}) by done.
  f_equal. same_block. by rewrite <- (assoc_L (++)).
Qed.

Lemma getRecord_create (properties : JsVal) (c : InternalModel) :
  _record c = None ->
  _isDematerializing c = false ->
  getRecord properties c
  = (createOptions <-
       (if strict_eq properties VUndef then ret (baseOptions c)
        else
          assert ("You passed '" +:+ js_to_string properties
                  +:+ "' as properties for record creation instead "
                  +:+ "of an object.")
                 (is_object properties) ;;
          initProperties properties (own_keys properties) (baseOptions c)) ;;
     (a <- alloc ;;
      emit (FactoryCreate a createOptions) ;;
      modify (set__record
                (Some {| r_id := a; r_isDestroyed := false;
                         r_isDestroying := false |})) ;;
      _triggerDeferredTriggers) ;;
     gets _record) c.
Proof.
  intros Hr Hd. unfold getRecord.
  rewrite !bind_gets. cbv beta. rewrite Hr, Hd.
  repeat (rewrite bind_assoc, bind_gets; cbv beta).
  rewrite bind_assoc.
  apply bind_cong; [done|]. intros options c1.
  rewrite !bind_assoc. apply bind_cong; [done|]. intros a c2.
  rewrite !bind_assoc. apply bind_cong; [done|]. intros _ c3.
  by rewrite !bind_assoc.
Qed.

(** X8: materialising hands the queued triggers over.  [getRecord] with no
    properties, on a block without a facade that is not being
    dematerialised, asks the factory for a facade with the store, the
    block, the current state and the error flags, records it, and then
    passes every trigger queued so far to the new facade, oldest first, and
    empties the queue. *)
Theorem getRecord_delivers_triggers (c : InternalModel) :
  _record c = None ->
  _isDematerializing c = false ->
  let r := {| r_id := fresh c; r_isDestroyed := false;
              r_isDestroying := false |} in
  getRecord VUndef c
  = Ret (Some r)
      (set__deferredTriggers []
         (set_trace
            (trace c ++ FactoryCreate (fresh c) (baseOptions c)
               :: map (RecordTrigger (fresh c)) (_deferredTriggers c))
            (set__record (Some r) (set_fresh (S (fresh c)) c)))).
Proof.
  intros Hr Hd. cbv zeta. rewrite (getRecord_create _ _ Hr Hd).
  simpl strict_eq. cbv iota. rewrite bind_ret.
  unfold bind at 1. by rewrite materialize_run.
Qed.

(** X9: properties that are neither undefined nor an object are refused
    before anything is made: with null, a string, a boolean or a function
    for properties, [getRecord] on a block that would make a facade fails
    its assertion, the factory is not asked, and the block is left as it
    was. *)
Theorem getRecord_rejects_non_object (properties : JsVal)
    (c : InternalModel) :
  _record c = None ->
  _isDematerializing c = false ->
  properties <> VUndef ->
  is_object properties = false ->
  exists msg, getRecord properties c = Throw (AssertionFailed msg) c.
Proof.
  intros Hr Hd Hdef Hobj.
  eexists. rewrite (getRecord_create _ _ Hr Hd).
  destruct (strict_eq properties VUndef) eqn:Hu;
    [by apply strict_eq_undef in Hu|].
  by rewrite Hobj.
Qed.

Lemma initProperties_plain (fs : list (string * JsVal)) (names : list string)
    (options : list (string * JsVal)) (c : InternalModel) :
  (forall k, k ∈ names -> k <> "id" /\ getFields k = None) ->
  initProperties (VObj fs) names options c
  = Ret (foldl (fun o k => obj_set k (default VUndef (obj_get fs k)) o)
               options names) c.
Proof.
  revert options. induction names as [|name names IH]; intros options Hplain;
    [done|].
  destruct (Hplain name) as [Hid Hfield]; [by left|].
  simpl. rewrite Hfield. unfold read. simpl js_get. cbv iota.
  rewrite bind_ret.
  rewrite decide_False by done. apply IH.
  intros k Hk. apply Hplain. by right.
Qed.

Lemma obj_get_set_all (fs : list (string * JsVal)) (names : list string)
    (options : list (string * JsVal)) (k : string) :
  obj_get (foldl (fun o k => obj_set k (default VUndef (obj_get fs k)) o)
                 options names) k
  = if decide (k ∈ names) then Some (default VUndef (obj_get fs k))
    else obj_get options k.
Proof.
  revert options. induction names as [|name names IH]; intros options; simpl.
  - done.
  - rewrite IH, obj_get_set.
    repeat case_decide; subst; try done; set_solver.
Qed.

(** X10: initial properties that are no field of the class go to the
    factory as they are.  When none of the properties is the id, an
    attribute or a relationship, [getRecord] stages nothing and changes
    neither the id nor the model data; the options it hands to the factory
    hold every property under its name, before the options the block sets
    itself: a property named [store], [_internalModel], [currentState],
    [isError] or [adapterError] takes the place of the block's own. *)
Theorem getRecord_plain_properties (fs : list (string * JsVal))
    (c : InternalModel) :
  _record c = None ->
  _isDematerializing c = false ->
  (forall k, k ∈ obj_keys fs -> k <> "id" /\ getFields k = None) ->
  exists options c',
    getRecord (VObj fs) c
    = Ret (Some {| r_id := fresh c; r_isDestroyed := false;
                   r_isDestroying := false |}) c'
    /\ trace c'
       = (trace c ++ FactoryCreate (fresh c) options
            :: map (RecordTrigger (fresh c)) (_deferredTriggers c))%list
    /\ (forall k,
          obj_get options k
          = match obj_get fs k with
            | Some v => Some v
            | None => obj_get (baseOptions c) k
            end)
    /\ _modelData c' = _modelData c
    /\ id c' = id c.
Proof.
  intros Hr Hd Hplain. eexists. eexists.
  rewrite (getRecord_create _ _ Hr Hd). simpl strict_eq. cbv iota.
  simpl is_object. unfold assert. rewrite bind_assoc, bind_ret.
  simpl own_keys.
  rewrite (bind_Ret_eq _ _ _ _ _ (initProperties_plain _ _ _ _ Hplain)).
  unfold bind at 1. rewrite materialize_run.
  split; [reflexivity|]. fields. split; [reflexivity|].
  split; [|done].
  intros k. rewrite obj_get_set_all. case_decide as Hk.
  - apply obj_keys_get in Hk as [v Hv]. by rewrite Hv.
  - destruct (obj_get fs k) eqn:Hv; [|done].
    exfalso. apply Hk, obj_keys_get. by eauto.
Qed.

Lemma setId_first (v : JsVal) (c : InternalModel) :
  _record c = None ->
  id c = VNull ->
  setId v c = Ret tt (set_id v c).
Proof.
  intros Hr Hnull. unfold setId. run. rewrite Hnull. simpl. by rewrite Hr.
Qed.

(** X11: an id given among the initial properties is stored in the block
    before the facade exists.  [getRecord] with an id for only property, on
    a block without id and without facade, sets the id of the block; the
    factory is asked with the block's own options, the id not among them,
    and the new facade is not told that its id changed. *)
Theorem getRecord_id_property (v : JsVal) (c : InternalModel) :
  _record c = None ->
  _isDematerializing c = false ->
  id c = VNull ->
  let r := {| r_id := fresh c; r_isDestroyed := false;
              r_isDestroying := false |} in
  getRecord (VObj [("id", v)]) c
  = Ret (Some r)
      (set__deferredTriggers []
         (set_trace
            (trace c ++ FactoryCreate (fresh c) (baseOptions c)
               :: map (RecordTrigger (fresh c)) (_deferredTriggers c))
            (set__record (Some r) (set_fresh (S (fresh c)) (set_id v c))))).
Proof.
  intros Hr Hd Hnull. cbv zeta. rewrite (getRecord_create _ _ Hr Hd).
  simpl strict_eq. cbv iota. simpl is_object. unfold assert.
  rewrite bind_assoc, bind_ret.
  change (own_keys (VObj [("id", v)])) with ["id"].
  simpl initProperties. unfold read. simpl js_get. cbv iota.
  rewrite !bind_assoc, bind_ret.
  rewrite bind_assoc.
  rewrite (bind_Ret_eq _ _ _ _ _ (setId_first v c Hr Hnull)).
  rewrite bind_ret. unfold bind at 1. rewrite materialize_run.
  unfold gets. f_equal.
Qed.

(** ** A refused property and the facade *)

Section NoFacade.
Hypothesis Hgraph : graph_keeps (fun c => _record c = None).

Lemma bare_send name context :
  preserves (fun c => _record c = None) (send name context).
Proof. unfold send, _unhandledEvent. pres. Qed.
#[local] Hint Resolve bare_send : pres.

Lemma bare_setId id' : preserves (fun c => _record c = None) (setId id').
Proof. unfold setId, isNew. pres. Qed.
#[local] Hint Resolve bare_setId : pres.

Lemma bare_setDirtyAttribute key value :
  preserves (fun c => _record c = None) (setDirtyAttribute key value).
Proof. unfold setDirtyAttribute, isDeleted, getAttributeValue. pres. Qed.
#[local] Hint Resolve bare_setDirtyAttribute : pres.

Lemma bare_setDirtyHasMany key records :
  preserves (fun c => _record c = None) (setDirtyHasMany key records).
Proof. unfold setDirtyHasMany. pres. Qed.
#[local] Hint Resolve bare_setDirtyHasMany : pres.

Lemma bare_initProperties properties names createOptions :
  preserves (fun c => _record c = None)
            (initProperties properties names createOptions).
Proof.
  revert createOptions.
  induction names as [|name names IH]; intros createOptions; simpl;
    unfold markRelationship; pres.
Qed.

End NoFacade.

Lemma bind_Throw_inv {S A B : Type} (m : M S A) (k : A -> M S B) (s s' : S)
    (e : Err) :
  bind m k s = Throw e s' ->
  m s = Throw e s' \/ exists a s1, m s = Ret a s1 /\ k a s1 = Throw e s'.
Proof.
  unfold bind. destruct (m s) as [a s1|e1 s1|].
  - intros Hk. right. exists a, s1. split; [reflexivity|exact Hk].
  - intros [= -> ->]. by left.
  - intros Hk. discriminate Hk.
Qed.

(** The loop of [getRecord], one name at a time. *)
Lemma initProperties_cons (properties : JsVal) (name : string)
    (rest : list string) (createOptions : list (string * JsVal))
    (c : InternalModel) :
  initProperties properties (name :: rest) createOptions c
  = (createOptions <- initProperties properties [name] createOptions ;;
     initProperties properties rest createOptions) c.
Proof.
  simpl. rewrite bind_assoc. apply bind_cong; [done|intros value c1].
  destruct (decide (name = "id")).
  { rewrite bind_assoc. apply bind_cong; [done|intros ? c2].
    by rewrite bind_ret. }
  destruct (getFields name) as [[]|];
    rewrite ?bind_ret; try reflexivity;
    rewrite bind_assoc; (apply bind_cong; [done|intros ? c2]);
    rewrite ?bind_ret; try reflexivity;
    rewrite bind_assoc; (apply bind_cong; [done|intros ? c3]);
    by rewrite bind_ret.
Qed.

(** A loop that throws has applied the names before the one that threw. *)
Lemma initProperties_throws (properties : JsVal) (names : list string)
    (createOptions : list (string * JsVal)) (c c' : InternalModel)
    (e : Err) :
  initProperties properties names createOptions c = Throw e c' ->
  exists applied name rest options c1,
    names = (applied ++ name :: rest)%list
    /\ initProperties properties applied createOptions c = Ret options c1
    /\ initProperties properties [name] options c1 = Throw e c'.
Proof.
  revert createOptions c.
  induction names as [|name names IH]; intros createOptions c; [done|].
  rewrite initProperties_cons.
  intros [Hfirst|(options & c1 & Hfirst & Hrest)]%bind_Throw_inv.
  - by exists [], name, names, createOptions, c.
  - destruct (IH _ _ Hrest)
      as (applied & name' & rest & options' & c2 & -> & Happlied & Hthrow).
    exists (name :: applied), name', rest, options', c2.
    split; [done|]. split; [|done].
    by rewrite initProperties_cons, (bind_Ret_eq _ _ _ _ _ Hfirst).
Qed.

(** X12: a [getRecord] that throws has made no facade and takes nothing
    back.  As long as the handlers of the state graph make no facade
    themselves, a call that starts without a facade and ends in an error
    leaves the block without a facade: the error comes before the factory
    is asked.  Either the properties are not an object, which fails the
    assertion with the block unchanged; or the names of the properties are
    those applied, then the refused one, then the rest: the applied ones
    were applied in order from the block as it was, and the error and the
    block are the ones that applying the refused one after them gives. *)
Theorem getRecord_throw_makes_nothing (properties : JsVal)
    (c c' : InternalModel) (e : Err) :
  graph_keeps (fun c => _record c = None) ->
  _record c = None ->
  getRecord properties c = Throw e c' ->
  _record c' = None
  /\ (is_object properties = false
      /\ e = AssertionFailed
               ("You passed '" +:+ js_to_string properties
                +:+ "' as properties for record creation instead "
                +:+ "of an object.")
      /\ c' = c
      \/ is_object properties = true
         /\ exists applied name rest createOptions c1,
             own_keys properties = (applied ++ name :: rest)%list
             /\ initProperties properties applied (baseOptions c) c
                = Ret createOptions c1
             /\ initProperties properties [name] createOptions c1
                = Throw e c').
Proof.
  intros Hgraph Hr. destruct (_isDematerializing c) eqn:Hd.
  { unfold getRecord. run. by rewrite !Hr, Hd. }
  rewrite (getRecord_create _ _ Hr Hd).
  intros [Hinit|(options & c1 & _ & Hrest)]%bind_Throw_inv.
  - destruct (strict_eq properties VUndef); [done|].
    apply bind_Throw_inv in Hinit as [Hassert|([] & c0 & Hassert & Hinit)].
    + revert Hassert. unfold assert.
      destruct (is_object properties); [done|]. intros [= <- <-].
      split; [done|]. by left.
    + assert (is_object properties = true /\ c0 = c) as [Hobject ->].
      { revert Hassert. unfold assert.
        destruct (is_object properties); [|done]. by intros [= <-]. }
      split.
      * apply (bare_initProperties Hgraph properties (own_keys properties)
                 (baseOptions c) c); [done|by rewrite Hinit].
      * right. split; [done|]. by apply initProperties_throws.
  - exfalso. revert Hrest. unfold bind at 1. by rewrite materialize_run.
Qed.

(** ** Unloading, cancelling and destroying, one after the other *)

(** [dematerializeRecord] always returns; what it leaves of the fields that
    the loops over the caches do not touch. *)
Lemma dematerializeRecord_total (c : InternalModel) :
  exists c',
    dematerializeRecord c = Ret tt c'
    /\ _record c' = None
    /\ currentState c' = VState RootState_empty
    /\ isReloading c' = false
    /\ error c' = VNull
    /\ _isDematerializing c' = true
    /\ _doNotDestroy c' = false
    /\ _modelData c' = md_unloadRecord (_modelData c)
    /\ isError c' = isError c
    /\ id c' = id c
    /\ _scheduledDestroy c' = _scheduledDestroy c
    /\ _isDestroyed c' = _isDestroyed c
    /\ isDestroying c' = isDestroying c
    /\ currentRunLoop c' = currentRunLoop c
    /\ testing c' = testing c
    /\ last (trace c') = Some RecordDidChange
    /\ (is_Some (_record c) ->
        _relationshipPromisesCache c' = [] /\ _manyArrayCache c' = []).
Proof.
  destruct (_record c) as [r|] eqn:Hr.
  - destruct (dematerializeRecord_facade r c Hr) as (R & ps & _ & Hrun).
    eexists. split; [exact Hrun|]. fields.
    repeat (split; [reflexivity|]). split; [|done].
    change [RecordDestroy (r_id r); RecordDidChange]
      with ([RecordDestroy (r_id r)] ++ [RecordDidChange])%list.
    by rewrite !(assoc_L (++)), last_snoc.
  - eexists. split; [by apply dematerializeRecord_no_facade|]. fields.
    repeat (split; [reflexivity|]). split; [by rewrite last_snoc|].
    by intros [? ?].
Qed.

(** X13: [dematerializeRecord] always returns, and takes the block back to
    where a new block starts: no facade, the empty state, not reloading, no
    error object, the model data unloaded and the membership tracker told
    last.  It marks the block as being dematerialised and withdraws the
    protection [cancelDestroy] gave.  The [isError] flag is not part of the
    reset: it stays as it was, whereas the error object is cleared. *)
Theorem dematerializeRecord_resets (c : InternalModel) :
  exists c',
    dematerializeRecord c = Ret tt c'
    /\ _record c' = None
    /\ currentState c' = VState RootState_empty
    /\ isReloading c' = false
    /\ error c' = VNull
    /\ isError c' = isError c
    /\ _isDematerializing c' = true
    /\ _doNotDestroy c' = false
    /\ _modelData c' = md_unloadRecord (_modelData c)
    /\ id c' = id c
    /\ _scheduledDestroy c' = _scheduledDestroy c
    /\ last (trace c') = Some RecordDidChange
    /\ (is_Some (_record c) ->
        _relationshipPromisesCache c' = [] /\ _manyArrayCache c' = []).
Proof.
  destruct (dematerializeRecord_total c)
    as (c' & Hrun & ? & ? & ? & ? & ? & ? & ? & ? & ? & ? & ? & ? & ? & ?
        & ? & ?).
  exists c'. repeat (split; [done|]). done.
Qed.

(** What a block looks like when [unloadRecord] has returned. *)
Lemma unloadRecord_returned (c c1 : InternalModel) :
  isDestroyed c = false ->
  unloadRecord c = Ret tt c1 ->
  _record c1 = None
  /\ _isDematerializing c1 = true
  /\ is_Some (_scheduledDestroy c1)
  /\ currentState c1 = VState RootState_empty
  /\ _doNotDestroy c1 = false.
Proof.
  intros Hd. unfold unloadRecord. rewrite bind_gets. cbv beta. rewrite Hd.
  intros (v & c0 & _ & Hrest)%bind_Ret_inv.
  destruct (dematerializeRecord_total c0)
    as (c2 & Hrun & Hrec & Hstate & _ & _ & Hdemat & Hdo & _ & _ & _ & Hsched
        & _).
  cbv beta in Hrest. rewrite (bind_Ret_eq _ _ _ _ _ Hrun) in Hrest.
  rewrite bind_gets in Hrest. cbv beta in Hrest.
  destruct (_scheduledDestroy c2) as [timer|] eqn:Htimer.
  - injection Hrest as <-. rewrite Htimer. by eauto.
  - rewrite bind_gets in Hrest. cbv beta in Hrest.
    apply bind_Ret_inv in Hrest as ([] & c3 & Hassert & Hrest).
    assert (c3 = c2) as ->.
    { revert Hassert.
      destruct (currentRunLoop c2); [by intros [= <-]|].
      rewrite bind_gets. cbv beta. unfold assert.
      by destruct (testing c2); intros [= <-]. }
    revert Hrest. unfold alloc, emit, bind, modify. intros [= <-]. fields.
    by eauto.
Qed.

(** X14: an unloaded record is not made again by asking for it.  After
    [unloadRecord] has returned on a block that was not destroyed,
    [getRecord] hands out no facade, whatever properties it is given, and
    leaves the block as it is: the factory is not asked and no property is
    applied. *)
Theorem getRecord_after_unloadRecord (properties : JsVal)
    (c c1 : InternalModel) :
  isDestroyed c = false ->
  unloadRecord c = Ret tt c1 ->
  getRecord properties c1 = Ret None c1.
Proof.
  intros Hd Hrun.
  destruct (unloadRecord_returned c c1 Hd Hrun) as (Hr & Hdemat & _).
  unfold getRecord. run. by rewrite !Hr, Hdemat, Hr.
Qed.

(** X15: once [unloadRecord] has returned, the block is hidden from the
    record arrays, whatever state it is in: a block that was destroyed
    already is hidden for that, and any other block is now being
    dematerialised. *)
Theorem unloaded_is_hidden (c c1 : InternalModel) :
  unloadRecord c = Ret tt c1 ->
  isHiddenFromRecordArrays c1 = Ret (VBool true) c1.
Proof.
  intros Hrun. destruct (isDestroyed c) eqn:Hd.
  - revert Hrun. unfold unloadRecord. rewrite bind_gets. cbv beta. rewrite Hd.
    intros [= <-]. unfold isHiddenFromRecordArrays. run.
    destruct (_isDematerializing c); [done|].
    destruct (hasScheduledDestroy c); [done|]. by rewrite Hd.
  - destruct (unloadRecord_returned c c1 Hd Hrun) as (_ & Hdemat & _).
    unfold isHiddenFromRecordArrays. run. by rewrite Hdemat.
Qed.

Lemma cancelDestroy_run (c : InternalModel) :
  isDestroyed c = false ->
  cancelDestroy c
  = Ret tt
      (set__scheduledDestroy None
         (set_trace (trace c ++ [Cancel (_scheduledDestroy c)])
            (set__isDematerializing false (set__doNotDestroy true c)))).
Proof. intros Hd. unfold cancelDestroy. run. by rewrite Hd. Qed.

(** X16: cancelling undoes the scheduling, not the unloading.  After
    [unloadRecord] has returned on a block that is still not destroyed,
    [cancelDestroy] cancels the very timer that was scheduled and clears the
    dematerialising flag, so that [getRecord] makes a facade again; the
    block stays without facade and in the empty state, and is now protected
    from the next request of the model data to destroy it. *)
Theorem unloadRecord_then_cancelDestroy (c c1 : InternalModel) :
  isDestroyed c = false ->
  unloadRecord c = Ret tt c1 ->
  isDestroyed c1 = false ->
  exists timer c2,
    _scheduledDestroy c1 = Some timer
    /\ cancelDestroy c1 = Ret tt c2
    /\ trace c2 = (trace c1 ++ [Cancel (Some timer)])%list
    /\ _scheduledDestroy c2 = None
    /\ _isDematerializing c2 = false
    /\ _doNotDestroy c2 = true
    /\ _record c2 = None
    /\ currentState c2 = VState RootState_empty
    /\ exists r c3, getRecord VUndef c2 = Ret (Some r) c3.
Proof.
  intros Hd Hrun Hd1.
  destruct (unloadRecord_returned c c1 Hd Hrun)
    as (Hr & Hdemat & [timer Htimer] & Hstate & _).
  exists timer. eexists. split; [done|].
  split; [by apply cancelDestroy_run|]. fields. rewrite Htimer.
  repeat (split; [done|]).
  eexists. eexists. rewrite getRecord_create by (fields; done).
  simpl strict_eq. cbv iota. rewrite bind_ret.
  unfold bind at 1. rewrite materialize_run. reflexivity.
Qed.

(** X17: [cancelDestroy] protects the block from one request of the model
    data to destroy it, and from one only.  On a block that is not
    destroyed it returns; the [destroyFromModelData] that follows only takes
    the protection away and leaves the block alive; the one after that is
    [destroy]. *)
Theorem cancelDestroy_shields_once (c : InternalModel) :
  isDestroyed c = false ->
  exists c1,
    cancelDestroy c = Ret tt c1
    /\ destroyFromModelData c1 = Ret tt (set__doNotDestroy false c1)
    /\ isDestroyed (set__doNotDestroy false c1) = false
    /\ destroyFromModelData (set__doNotDestroy false c1)
       = destroy (set__doNotDestroy false c1).
Proof.
  intros Hd. eexists. split; [by apply cancelDestroy_run|].
  split; [reflexivity|]. split; [exact Hd|]. reflexivity.
Qed.

(** X18: [destroy] goes through exactly when [isRecordInUse] is falsy.
    [isRecordInUse] answers without changing the block.  When it answers
    true, [destroy] fails its assertion and changes nothing; when it answers
    false or null, [destroy] returns and leaves the block destroyed, with no
    retained many array, its facade field as it was. *)
Theorem destroy_refuses_record_in_use (c : InternalModel) :
  exists inUse,
    isRecordInUse c = Ret inUse c
    /\ (truthy inUse = true ->
        destroy c
        = Throw (AssertionFailed
                   "Cannot destroy an internalModel while its record is materialized")
                c)
    /\ (truthy inUse = false ->
        exists c',
          destroy c = Ret tt c'
          /\ isDestroyed c' = true
          /\ isDestroying c' = true
          /\ _retainedManyArrayCache c' = []
          /\ _record c' = _record c).
Proof.
  unfold isRecordInUse. rewrite bind_gets. cbv beta.
  destruct (_record c) as [r|] eqn:Hr; eexists; (split; [reflexivity|]);
    simpl truthy; (split; [intros Hin|intros Hout]).
  - unfold destroy. rewrite bind_gets. cbv beta. rewrite Hr.
    apply negb_true_iff in Hin. by rewrite Hin.
  - destruct (destroy_run c) as [ms Hrun].
    { rewrite Hr. by apply negb_false_iff in Hout. }
    eexists. split; [exact Hrun|]. by fields.
  - done.
  - destruct (destroy_run c) as [ms Hrun]; [by rewrite Hr|].
    eexists. split; [exact Hrun|]. by fields.
Qed.

Lemma checkForOrphaned_run (c : InternalModel) :
  _checkForOrphanedInternalModels c
  = Ret tt (set__scheduledDestroy None (set__isDematerializing false c)).
Proof.
  unfold _checkForOrphanedInternalModels.
  rewrite !bind_modify, bind_gets. cbv beta. by destruct (isDestroyed _).
Qed.

(** X19: [destroySync] does not destroy a second time, and cannot be used
    on a destroyed block that is still marked as being dematerialised.  On
    a block that is destroyed or on its way, and not being dematerialised,
    it only clears the handle of the scheduled destroy: the store is not
    asked again and nothing else changes.  On a destroyed block that is
    being dematerialised it fails the assertion of [cancelDestroy] and
    changes nothing. *)
Theorem destroySync_guarded (c : InternalModel) :
  (_isDematerializing c = false ->
   isDestroyed c || isDestroying c = true ->
   destroySync c
   = Ret tt (set__scheduledDestroy None (set__isDematerializing false c)))
  /\ (_isDematerializing c = true ->
      isDestroyed c = true ->
      exists msg, destroySync c = Throw (AssertionFailed msg) c).
Proof.
  split.
  - intros Hdemat Hgone. unfold destroySync.
    rewrite bind_gets. cbv beta. rewrite Hdemat, bind_ret.
    rewrite (bind_Ret_eq _ _ _ _ _ (checkForOrphaned_run c)).
    rewrite !bind_gets. cbv beta. fields.
    unfold isDestroyed in *. fields. by rewrite Hgone.
  - intros Hdemat Hd. eexists. unfold destroySync.
    rewrite bind_gets. cbv beta. rewrite Hdemat.
    unfold cancelDestroy. run. rewrite Hd. reflexivity.
Qed.

(** X20: [destroySync] destroys a block that is neither destroyed nor on
    its way, unless its facade is in use.  When the block was being
    dematerialised, the scheduled destroy is cancelled first, with its
    timer; then the flags of the schedule are cleared, the retained many
    arrays are destroyed and dropped, and the store is asked, last, to
    forget the block. *)
Theorem destroySync_destroys (c : InternalModel) :
  isDestroyed c = false ->
  isDestroying c = false ->
  match _record c with
  | None => true
  | Some r => r_isDestroyed r || r_isDestroying r
  end = true ->
  exists c',
    destroySync c = Ret tt c'
    /\ isDestroyed c' = true
    /\ _isDematerializing c' = false
    /\ _scheduledDestroy c' = None
    /\ _retainedManyArrayCache c' = []
    /\ last (trace c') = Some RemoveFromIdMap
    /\ if _isDematerializing c then
         Cancel (_scheduledDestroy c) ∈ trace c' /\ _doNotDestroy c' = true
       else _doNotDestroy c' = _doNotDestroy c.
Proof.
  intros Hd Hing Hfree. unfold destroySync. rewrite bind_gets. cbv beta.
  destruct (_isDematerializing c) eqn:Hdemat.
  - rewrite (bind_Ret_eq _ _ _ _ _ (cancelDestroy_run c Hd)).
    rewrite (bind_Ret_eq _ _ _ _ _ (checkForOrphaned_run _)).
    rewrite !bind_gets. cbv beta. unfold isDestroyed in *. fields.
    rewrite Hd, Hing. change (false || false) with false. cbv iota.
    match goal with |- context [destroy ?b] =>
      destruct (destroy_run b) as [ms Hrun]; [fields; exact Hfree|]
    end.
    eexists. split; [exact Hrun|]. fields.
    repeat (split; [reflexivity|]).
    split; [by rewrite !(assoc_L (++)), last_snoc|].
    split; [|done]. rewrite !elem_of_app. left. right. by left.
  - rewrite bind_ret.
    rewrite (bind_Ret_eq _ _ _ _ _ (checkForOrphaned_run _)).
    rewrite !bind_gets. cbv beta. unfold isDestroyed in *. fields.
    rewrite Hd, Hing. change (false || false) with false. cbv iota.
    match goal with |- context [destroy ?b] =>
      destruct (destroy_run b) as [ms Hrun]; [fields; exact Hfree|]
    end.
    eexists. split; [exact Hrun|]. fields.
    repeat (split; [reflexivity|]).
    split; [by rewrite !(assoc_L (++)), last_snoc|done].
Qed.

(** ** The many-array caches, key by key *)

Lemma getManyArray_hit (key : string) (c : InternalModel) (m : nat) :
  obj_get (_manyArrayCache c) key = Some m ->
  obj_get (_retainedManyArrayCache c) key = None ->
  getManyArray key c = Ret m c.
Proof.
  intros Hactive Hretained. unfold getManyArray. run.
  by rewrite Hactive, !Hretained.
Qed.

(** X21: [getManyArray] answers from three situations of the key.  With a
    many array in the active cache and none retained, it returns that many
    array and changes nothing.  With none in the active cache it makes a
    new one and stores it; a retained one, if any, is then destroyed and
    dropped, never handed out.  With one in each cache it fails its
    assertion and changes nothing. *)
Theorem getManyArray_cases (key : string) (c : InternalModel) :
  match obj_get (_manyArrayCache c) key,
        obj_get (_retainedManyArrayCache c) key with
  | Some m, None => getManyArray key c = Ret m c
  | None, None =>
      getManyArray key c
      = Ret (fresh c)
          (set__manyArrayCache (obj_set key (fresh c) (_manyArrayCache c))
             (set_trace (trace c ++ [ManyArrayCreate (fresh c) key])
                (set_fresh (S (fresh c)) c)))
  | None, Some old =>
      getManyArray key c
      = Ret (fresh c)
          (set__retainedManyArrayCache
             (obj_delete key (_retainedManyArrayCache c))
             (set_trace
                (trace c ++ [ManyArrayCreate (fresh c) key;
                             ManyArrayDestroy old])
                (set__manyArrayCache
                   (obj_set key (fresh c) (_manyArrayCache c))
                   (set_fresh (S (fresh c)) c))))
  | Some _, Some _ =>
      exists msg, getManyArray key c = Throw (AssertionFailed msg) c
  end.
Proof.
  destruct (obj_get (_manyArrayCache c) key) as [m|] eqn:Hactive;
    destruct (obj_get (_retainedManyArrayCache c) key) as [old|] eqn:Hretained.
  - eexists. unfold getManyArray. run. rewrite Hactive, Hretained.
    reflexivity.
  - by apply getManyArray_hit.
  - unfold getManyArray. run. rewrite Hactive. simpl.
    rewrite !Hretained. simpl.
    f_equal. same_block. by rewrite <- (assoc_L (++)).
  - unfold getManyArray. run. rewrite Hactive. simpl.
    by rewrite !Hretained.
Qed.

(** X22: asking for the same many array twice gives the same one.  A call
    of [getManyArray] that follows a call that returned, for the same key,
    returns the same many array and changes nothing: nothing is made and
    nothing is destroyed. *)
Theorem getManyArray_idempotent (key : string) (c c1 : InternalModel)
    (m : nat) :
  getManyArray key c = Ret m c1 ->
  getManyArray key c1 = Ret m c1.
Proof.
  intros Hrun. apply getManyArray_hit; revert Hrun;
    unfold getManyArray; run;
    destruct (obj_get (_manyArrayCache c) key) as [m0|] eqn:Hactive;
    destruct (obj_get (_retainedManyArrayCache c) key) as [old|] eqn:Hretained;
    simpl; rewrite ?Hretained; simpl; intros [= <- <-]; fields;
    rewrite ?obj_get_set_eq, ?obj_get_delete_eq; done.
Qed.

Lemma destroys_from_emit (c0 : InternalModel) (e : Event) :
  (forall n, e <> PromiseDestroy n) -> preserves (destroys_from c0) (emit e).
Proof.
  intros He c c' [Hcache Hlog] [= <-]. split; [exact Hcache|].
  intros n. fields. rewrite elem_of_app, elem_of_cons, elem_of_nil.
  intros [Hin|[Heq|[]]]; [by apply Hlog|]. by destruct (He n).
Qed.

Lemma destroys_from_dropPromise (c0 : InternalModel) (key : string) :
  preserves (destroys_from c0) (dropPromise key).
Proof.
  intros c c' [Hcache Hlog]. unfold dropPromise. run.
  destruct (obj_get (_relationshipPromisesCache c) key) as [p|] eqn:Hp;
    [|by intros [= <-]].
  destruct (p_destroy p) eqn:Hdestroy; simpl; intros [= <-]; split; fields;
    try (intros k q; rewrite obj_get_delete; case_decide; [done|];
         by apply Hcache);
    [|exact Hlog].
  intros n. rewrite elem_of_app, elem_of_cons, elem_of_nil.
  intros [Hin|[[= ->]|[]]]; [by apply Hlog|].
  right. exists key, p. split; [by apply Hcache|done].
Qed.

(** [dematerializeRecord] calls [destroy] on no proxy that lacks it. *)
Lemma destroys_from_dematerializeRecord (c0 : InternalModel) :
  preserves (destroys_from c0) dematerializeRecord.
Proof.
  unfold dematerializeRecord, resetRecord, updateRecordArrays,
    retainManyArray.
  repeat first
    [ apply destroys_from_dropPromise
    | apply destroys_from_emit; done
    | apply preserves_forEach; intros ?
    | apply preserves_bind; [|intros ?]
    | apply preserves_gets | apply preserves_ret
    | apply preserves_modify; solve [field_goal]
    | match goal with
      | |- preserves _ (match ?x with _ => _ end) => destruct x
      end ].
Qed.

(** X23: what [notifyPropertyChange] does to the caches, and what it does
    not share with [dematerializeRecord].  When it returns, no promise
    proxy is cached under the key any more; whatever is cached under other
    keys, in any of the three caches, is as before; and a many array
    changes cache only when it was the active one under the key and
    reported an unloaded member, in which case it is retained.  A cached
    promise proxy without [destroy] makes this method throw a TypeError.
    [dematerializeRecord] on the same block returns: with a facade it
    leaves no proxy cached, and the [destroy] calls it has made on proxies
    are those of cached proxies that have the method; without a facade it
    leaves the promise cache and the calls as they are. *)
Theorem notifyPropertyChange_effects (key : string) (c : InternalModel) :
  (forall c',
      notifyPropertyChange key c = Ret tt c' ->
      obj_get (_relationshipPromisesCache c') key = None
      /\ (forall k, k <> key ->
            obj_get (_manyArrayCache c') k = obj_get (_manyArrayCache c) k
            /\ obj_get (_retainedManyArrayCache c') k
               = obj_get (_retainedManyArrayCache c) k
            /\ obj_get (_relationshipPromisesCache c') k
               = obj_get (_relationshipPromisesCache c) k)
      /\ match obj_get (_manyArrayCache c) key with
         | Some m =>
             if removeUnloadedInternalModel m (_modelData c) then
               obj_get (_manyArrayCache c') key = None
               /\ obj_get (_retainedManyArrayCache c') key = Some m
             else
               _manyArrayCache c' = _manyArrayCache c
               /\ _retainedManyArrayCache c' = _retainedManyArrayCache c
         | None =>
             _manyArrayCache c' = _manyArrayCache c
             /\ _retainedManyArrayCache c' = _retainedManyArrayCache c
         end
      /\ _record c' = _record c
      /\ currentState c' = currentState c
      /\ _modelData c' = _modelData c)
  /\ (forall p,
      obj_get (_relationshipPromisesCache c) key = Some p ->
      p_destroy p = false ->
      (exists c', notifyPropertyChange key c = Throw TypeError c')
      /\ exists c',
          dematerializeRecord c = Ret tt c'
          /\ match _record c with
             | Some _ =>
                 _relationshipPromisesCache c' = []
                 /\ forall n,
                     PromiseDestroy n ∈ trace c' ->
                     PromiseDestroy n ∈ trace c
                     \/ exists k q,
                         obj_get (_relationshipPromisesCache c) k = Some q
                         /\ p_destroy q = true /\ p_id q = n
             | None =>
                 _relationshipPromisesCache c' = _relationshipPromisesCache c
                 /\ forall n,
                     PromiseDestroy n ∈ trace c' -> PromiseDestroy n ∈ trace c
             end).
Proof.
  split.
  - intros c'. unfold notifyPropertyChange, updateRecordArrays. run.
    destruct (_record c) as [r|] eqn:Hr; simpl;
      destruct (obj_get (_manyArrayCache c) key) as [m|] eqn:Hactive; simpl;
      try destruct (removeUnloadedInternalModel m (_modelData c)); simpl;
      try (destruct (obj_get (_retainedManyArrayCache c) key) as [old|];
           simpl);
      destruct (obj_get (_relationshipPromisesCache c) key) as [p|] eqn:Hp;
      simpl; try destruct (p_destroy p); simpl;
      intros Hrun; simplify_eq; simpl;
      rewrite ?obj_get_delete_eq, ?obj_get_set_eq;
      (split; [done|]);
      (split; [intros k Hk;
               by rewrite ?obj_get_delete_ne, ?obj_get_set_ne by done|]);
      by rewrite ?Hr.
  - intros p Hp Hdestroy. split.
    + unfold notifyPropertyChange, updateRecordArrays. run.
      destruct (_record c) as [r|]; simpl;
        destruct (obj_get (_manyArrayCache c) key) as [m|]; simpl;
        try destruct (removeUnloadedInternalModel m (_modelData c)); simpl;
        try (destruct (obj_get (_retainedManyArrayCache c) key) as [old|];
             simpl);
        rewrite Hp; simpl; rewrite Hdestroy; simpl; by eexists.
    + destruct (_record c) as [r|] eqn:Hr.
      * destruct (dematerializeRecord_total c)
          as (c' & Hrun & _ & _ & _ & _ & _ & _ & _ & _ & _ & _ & _ & _ & _
              & _ & _ & Hcaches).
        exists c'. split; [exact Hrun|].
        split; [apply Hcaches; by rewrite Hr|].
        apply (destroys_from_dematerializeRecord c c c');
          [by split; [|left]|by rewrite Hrun].
      * eexists. split; [by apply dematerializeRecord_no_facade|].
        fields. split; [done|]. intros n.
        rewrite elem_of_app, elem_of_cons, elem_of_nil.
        by intros [?|[?|[]]].
Qed.

(** ** Arguments that are refused *)

Lemma contains_refl (part : string) : contains part part.
Proof.
  exists "", "". change ("" +:+ part +:+ "") with (part +:+ "").
  induction part as [|ch part IH]; [done|].
  change (String ch part +:+ "") with (String ch (part +:+ "")).
  by rewrite <- IH.
Qed.

Lemma everyHasInternalModel_run (elements : list JsVal) (c : InternalModel) :
  everyHasInternalModel elements c
  = match List.find (fun record => negb (owns_internalModel record)) elements
    with
    | None => Ret true c
    | Some VUndef | Some VNull => Throw TypeError c
    | Some _ => Ret false c
    end.
Proof.
  induction elements as [|record elements IH]; simpl; [done|].
  destruct record; simpl; try done;
    (destruct (hasInternalModel _); simpl; [exact IH|done]).
Qed.

(** X24: [setDirtyHasMany] checks its argument before it stages anything.
    What is not array-like fails the first assertion.  In an array, the
    first element that does not own [_internalModel] decides: null or
    undefined there is a TypeError, anything else fails the second
    assertion, whose message shows the argument.  When every element owns
    it, the elements are asked for their resource identifiers: if one of
    them cannot answer, that is a TypeError, otherwise the method returns
    and the only change is in the model data, which is given the list of
    identifiers under the key.  Whenever the method throws, the block is
    left as it was; the empty array returns and stages the empty list. *)
Theorem setDirtyHasMany_validates (key : string) (records : JsVal)
    (c : InternalModel) :
  (isArrayLike records = None ->
   setDirtyHasMany key records c
   = Throw (AssertionFailed
              "You must pass an array of records to set a hasMany relationship")
           c)
  /\ (forall elements record,
      isArrayLike records = Some elements ->
      List.find (fun record => negb (owns_internalModel record)) elements
      = Some record ->
      match record with
      | VUndef | VNull => setDirtyHasMany key records c = Throw TypeError c
      | _ =>
          exists msg,
            setDirtyHasMany key records c = Throw (AssertionFailed msg) c
            /\ contains (inspect records) msg
      end)
  /\ (forall elements,
      isArrayLike records = Some elements ->
      forallb owns_internalModel elements = true ->
      setDirtyHasMany key records c
      = match mapM getResourceIdentifier elements with
        | Some identifiers =>
            Ret tt
              (set__modelData
                 (md_setDirtyHasMany key identifiers (_modelData c)) c)
        | None => Throw TypeError c
        end)
  /\ (forall e c', setDirtyHasMany key records c = Throw e c' -> c' = c)
  /\ (forall c',
      setDirtyHasMany key records c = Ret tt c' ->
      exists elements identifiers,
        isArrayLike records = Some elements
        /\ forallb owns_internalModel elements = true
        /\ mapM getResourceIdentifier elements = Some identifiers
        /\ c' = set__modelData
                  (md_setDirtyHasMany key identifiers (_modelData c)) c)
  /\ (isArrayLike records = Some [] ->
      setDirtyHasMany key records c
      = Ret tt (set__modelData (md_setDirtyHasMany key [] (_modelData c)) c)).
Proof.
  assert (Hrun : forall elements,
    isArrayLike records = Some elements ->
    setDirtyHasMany key records c
    = match List.find (fun record => negb (owns_internalModel record)) elements
      with
      | None =>
          match mapM getResourceIdentifier elements with
          | Some identifiers =>
              Ret tt
                (set__modelData
                   (md_setDirtyHasMany key identifiers (_modelData c)) c)
          | None => Throw TypeError c
          end
      | Some VUndef | Some VNull => Throw TypeError c
      | Some _ =>
          Throw (AssertionFailed
                   ("All elements of a hasMany relationship must be instances of "
                    +:+ "DS.Model, you passed " +:+ inspect records))
                c
      end).
  { intros elements Hlike. unfold setDirtyHasMany. rewrite Hlike.
    rewrite bool_decide_true by (by eexists). unfold assert at 1.
    rewrite bind_ret. simpl default. unfold bind at 1.
    rewrite everyHasInternalModel_run.
    destruct (List.find _ elements) as [[]|]; try done.
    unfold assert. rewrite bind_ret. unfold resourceIdentifiers, bind.
    by destruct (mapM _ elements). }
  assert (Hnone : isArrayLike records = None ->
    setDirtyHasMany key records c
    = Throw (AssertionFailed
               "You must pass an array of records to set a hasMany relationship")
            c).
  { intros Hlike. unfold setDirtyHasMany. rewrite Hlike.
    rewrite bool_decide_false by (by intros [? ?]). reflexivity. }
  assert (Hall : forall elements,
    List.find (fun record => negb (owns_internalModel record)) elements = None
    <-> forallb owns_internalModel elements = true).
  { intros elements. induction elements as [|record elements IH]; [done|].
    simpl. destruct (owns_internalModel record); simpl; [exact IH|done]. }
  split; [exact Hnone|]. split; [|split; [|split; [|split]]].
  - intros elements record Hlike Hfind. rewrite (Hrun elements Hlike), Hfind.
    destruct record; try done;
      (eexists; split; [reflexivity|];
       do 2 apply contains_skip; apply contains_refl).
  - intros elements Hlike Hown. rewrite (Hrun elements Hlike).
    by rewrite (proj2 (Hall elements) Hown).
  - intros e c'. destruct (isArrayLike records) as [elements|] eqn:Hlike.
    + rewrite (Hrun elements eq_refl).
      destruct (List.find _ elements) as [[]|];
        try (by intros [= _ <-]).
      destruct (mapM _ elements); [done|by intros [= _ <-]].
    + rewrite Hnone by done. by intros [= _ <-].
  - intros c'. destruct (isArrayLike records) as [elements|] eqn:Hlike.
    + rewrite (Hrun elements eq_refl).
      destruct (List.find _ elements) as [record|] eqn:Hfind;
        [by destruct record|].
      destruct (mapM _ elements) as [identifiers|] eqn:Hids; [|done].
      intros [= <-]. exists elements, identifiers.
      split; [done|]. split; [by apply Hall|done].
    + by rewrite Hnone.
  - intros Hlike. by rewrite (Hrun [] Hlike).
Qed.

(** ** Reloading *)

(** X25: [startedReloading] followed by [finishedReloading] leaves the
    block not reloading, whatever it was before; the facade, when there is
    one, is told first that the record is reloading and then that it is not,
    and nothing else is said or changed. *)
Theorem reloading_round_trip (c : InternalModel) :
  exists c1,
    startedReloading c = Ret tt c1
    /\ isReloading c1 = true
    /\ finishedReloading c1
       = Ret tt
           (set_isReloading false
              match _record c with
              | Some r =>
                  set_trace
                    (trace c ++ [RecordSet (r_id r) "isReloading" (VBool true);
                                 RecordSet (r_id r) "isReloading" (VBool false)])
                    c
              | None => c
              end).
Proof.
  unfold startedReloading, finishedReloading. run.
  destruct (_record c) as [r|] eqn:Hr; eexists;
    (split; [reflexivity|]); (split; [reflexivity|]); simpl; rewrite Hr.
  - f_equal. same_block. by rewrite <- (assoc_L (++)).
  - done.
Qed.

(** ** Notices sent as events *)

Lemma send_handled (name : string) (context handler : JsVal)
    (c : InternalModel) :
  js_get (currentState c) name = Some handler ->
  truthy handler = true ->
  send name context c = invoke handler context c.
Proof.
  intros Hget Ht. unfold send, read. run. rewrite Hget. run. by rewrite Ht.
Qed.

Lemma send_unhandled (name : string) (context handler : JsVal)
    (c : InternalModel) :
  js_get (currentState c) name = Some handler ->
  truthy handler = false ->
  exists report,
    send name context c = Throw (EmberError report) c
    /\ contains name report.
Proof.
  intros Hget Hfalsy.
  destruct (js_get_readable (currentState c) name "stateName")
    as [stateName Hname]; [by eauto|].
  eexists. split.
  - unfold send, _unhandledEvent, read. run. rewrite Hget. run.
    rewrite Hfalsy. run. rewrite Hname. run. reflexivity.
  - destruct (strict_eq context VUndef); [|apply contains_left];
      apply contains_skip; apply contains_here.
Qed.

(** X26: the notices [deleteRecord], [loadingData], [loadedData],
    [notFound] and [pushedData] reach the current state under their own
    name, and [adapterDidDirty] reaches it as [becomeDirty].  When the
    state holds a handler, the notice ends as the handler does, its result
    dropped; [adapterDidDirty] then tells the membership tracker.  When the
    state holds none, the notice throws the report of an unhandled event
    with the name in it, the block is left as it was, and the membership
    tracker is not told. *)
Theorem notices_dispatch (c : InternalModel) :
  (forall n handler,
      js_get (currentState c) (notice_name n) = Some handler ->
      if truthy handler then
        notice n c = (invoke handler (notice_context n) ;; ret tt) c
      else
        exists report,
          notice n c = Throw (EmberError report) c
          /\ contains (notice_name n) report)
  /\ (forall handler,
      js_get (currentState c) "becomeDirty" = Some handler ->
      if truthy handler then
        adapterDidDirty c = (invoke handler VUndef ;; updateRecordArrays) c
      else
        exists report,
          adapterDidDirty c = Throw (EmberError report) c
          /\ contains "becomeDirty" report).
Proof.
  split.
  - intros n handler Hget. destruct (truthy handler) eqn:Ht.
    + destruct n; simpl in Hget |- *;
        unfold deleteRecord, loadingData, loadedData, notFound, pushedData;
        (apply bind_cong; [by apply send_handled|done]).
    + destruct (send_unhandled _ (notice_context n) _ _ Hget Ht)
        as (report & Hsend & Hreport).
      exists report. split; [|done].
      destruct n; simpl in Hsend |- *;
        unfold deleteRecord, loadingData, loadedData, notFound, pushedData,
          bind; by rewrite Hsend.
  - intros handler Hget. destruct (truthy handler) eqn:Ht.
    + unfold adapterDidDirty. apply bind_cong; [by apply send_handled|done].
    + destruct (send_unhandled _ VUndef _ _ Hget Ht)
        as (report & Hsend & Hreport).
      exists report. split; [|done].
      unfold adapterDidDirty, bind. by rewrite Hsend.
Qed.

(** ** Flags that go together *)

Lemma flags_new modelName0 id0 md runLoop testing0 :
  flags_consistent (new_InternalModel modelName0 id0 md runLoop testing0).
Proof. split; simpl; [done|by intros [? ?]]. Qed.

Lemma flags_dematerializing :
  preserves flags_consistent (modify (set__isDematerializing true)).
Proof. intros c c' [Hgone Hsched] [= <-]. by split. Qed.

Lemma flags_cancelDestroy : preserves flags_consistent cancelDestroy.
Proof.
  intros c c' [Hgone Hsched]. destruct (isDestroyed c) eqn:Hd.
  - unfold cancelDestroy. run. rewrite Hd. simpl. by intros [= <-].
  - rewrite (cancelDestroy_run c Hd). intros [= <-].
    split; fields; [done|by intros [? ?]].
Qed.

Lemma flags_checkForOrphaned :
  preserves flags_consistent _checkForOrphanedInternalModels.
Proof.
  intros c c' [Hgone Hsched]. rewrite checkForOrphaned_run. intros [= <-].
  split; fields; [done|by intros [? ?]].
Qed.

Lemma flags_destroy : preserves flags_consistent destroy.
Proof.
  intros c c' [Hgone Hsched].
  destruct (match _record c with
            | None => true
            | Some r => r_isDestroyed r || r_isDestroying r
            end) eqn:Hok.
  - destruct (destroy_run c Hok) as [ms ->]. intros [= <-].
    by split; fields.
  - unfold destroy. rewrite bind_gets. cbv beta. rewrite Hok.
    by intros [= <-].
Qed.

Section Flags.
Hypothesis Hgraph : graph_keeps flags_consistent.

#[local] Hint Resolve flags_dematerializing flags_cancelDestroy
  flags_checkForOrphaned flags_destroy : pres.

Lemma flags_send name context : preserves flags_consistent (send name context).
Proof. unfold send, _unhandledEvent. pres. Qed.
#[local] Hint Resolve flags_send : pres.

Lemma flags_setId id' : preserves flags_consistent (setId id').
Proof. unfold setId, isNew. pres. Qed.
#[local] Hint Resolve flags_setId : pres.

Lemma flags_setDirtyAttribute key value :
  preserves flags_consistent (setDirtyAttribute key value).
Proof. unfold setDirtyAttribute, isDeleted, getAttributeValue. pres. Qed.
#[local] Hint Resolve flags_setDirtyAttribute : pres.

Lemma flags_setDirtyHasMany key records :
  preserves flags_consistent (setDirtyHasMany key records).
Proof. unfold setDirtyHasMany. pres. Qed.
#[local] Hint Resolve flags_setDirtyHasMany : pres.

Lemma flags_initProperties properties names createOptions :
  preserves flags_consistent (initProperties properties names createOptions).
Proof.
  revert createOptions.
  induction names as [|name names IH]; intros createOptions; simpl;
    unfold markRelationship; pres.
Qed.
#[local] Hint Resolve flags_initProperties : pres.

Lemma flags_getRecord properties :
  preserves flags_consistent (getRecord properties).
Proof. unfold getRecord, _triggerDeferredTriggers. pres. Qed.
#[local] Hint Resolve flags_getRecord : pres.

Lemma flags_getManyArray key : preserves flags_consistent (getManyArray key).
Proof. unfold getManyArray. pres. Qed.
#[local] Hint Resolve flags_getManyArray : pres.

Lemma flags_notifyPropertyChange key :
  preserves flags_consistent (notifyPropertyChange key).
Proof. unfold notifyPropertyChange, updateRecordArrays. pres. Qed.
#[local] Hint Resolve flags_notifyPropertyChange : pres.

Lemma flags_dematerializeRecord :
  preserves flags_consistent dematerializeRecord.
Proof.
  unfold dematerializeRecord, dropPromise, retainManyArray, resetRecord,
    updateRecordArrays.
  pres.
Qed.
#[local] Hint Resolve flags_dematerializeRecord : pres.

Lemma flags_unloadRecord : preserves flags_consistent unloadRecord.
Proof.
  intros c c' Hc. unfold unloadRecord. rewrite bind_gets. cbv beta.
  destruct (isDestroyed c); [by intros [= <-]|].
  unfold bind at 1.
  destruct (send "unloadRecord" VUndef c) as [v c0|e c0|] eqn:Hsend;
    [|intros [= <-]; apply (flags_send "unloadRecord" VUndef c);
      [done|by rewrite Hsend]|done].
  assert (Hc0 : flags_consistent c0)
    by (apply (flags_send "unloadRecord" VUndef c); [done|by rewrite Hsend]).
  destruct (dematerializeRecord_total c0)
    as (c2 & Hrun & _ & _ & _ & _ & Hdemat & _ & _ & _ & _ & Hsched & Hgone
        & Hgoing & _).
  rewrite (bind_Ret_eq _ _ _ _ _ Hrun), bind_gets. cbv beta.
  assert (Hc2 : flags_consistent c2).
  { destruct Hc0 as [H1 H2]. split; [by rewrite Hgone, Hgoing|done]. }
  destruct (_scheduledDestroy c2); [by intros [= <-]|].
  rewrite bind_gets. cbv beta. unfold bind at 1.
  assert (Hguard :
    (if currentRunLoop c2 then ret tt
     else testing_ <- gets testing ;; assert autorunMessage testing_) c2
    = Ret tt c2
    \/ exists e,
        (if currentRunLoop c2 then ret tt
         else testing_ <- gets testing ;; assert autorunMessage testing_) c2
        = Throw e c2).
  { destruct (currentRunLoop c2); [by left|].
    rewrite bind_gets. cbv beta. unfold assert.
    destruct (testing c2); [by left|right; by eexists]. }
  destruct Hguard as [->|[e ->]]; [|by intros [= <-]].
  unfold alloc, emit, bind, modify. intros [= <-].
  destruct Hc2 as [H1 H2]. by split; fields.
Qed.
#[local] Hint Resolve flags_unloadRecord : pres.

Lemma flags_run op : preserves flags_consistent (run op).
Proof.
  destruct op; simpl; try (unfold destroySync, destroyFromModelData); pres.
Qed.

End Flags.

(** X27: two pairs of flags go together on every block that sequences of
    operations lead to from a new block, as long as the functions of the
    state graph keep it so: a destroyed block is also marked as being
    destroyed, and a block with a scheduled destroy is also marked as being
    dematerialised.  This holds after an operation that returns and after
    one that throws. *)
Theorem flags_stay_consistent (c : InternalModel) :
  graph_keeps flags_consistent ->
  reachable c ->
  (isDestroyed c = true -> isDestroying c = true)
  /\ (hasScheduledDestroy c = true -> _isDematerializing c = true).
Proof.
  intros Hgraph Hreach.
  assert (Hflags : flags_consistent c).
  { induction Hreach as [|c op c' _ IH Hstep]; [apply flags_new|].
    by eapply flags_run. }
  destruct Hflags as [Hgone Hsched]. split; [exact Hgone|].
  unfold hasScheduledDestroy. intros Hhas. apply Hsched.
  by destruct (_scheduledDestroy c).
Qed.

(** ** Calls the trace has no name for *)

Section WithSurroundings.
Context `{!Surroundings}.

Lemma length_snoc_one {A : Type} (l : list A) (x : A) :
  length (l ++ [x]) = 1 <-> l = [].
Proof.
  rewrite length_app. simpl. destruct l; simpl; split; intros; try done; lia.
Qed.

(** X28: what [triggerLater] queues, [getRecord] delivers.  A trigger that
    is the first of its queue is queued and the store is then asked to
    update the block; a trigger that joins a queue is only queued, at the
    end, and the store is not asked again.  After every [triggerLater] that
    returns with the block without facade, not being dematerialised, and
    with the queue as the trigger left it (a joining trigger returns so when
    the block was so before; a first trigger when the update of the store
    leaves it so), the next [getRecord] makes a facade, passes the whole
    queue to it, this trigger last, and empties it. *)
Theorem triggerLater_then_getRecord (args : list JsVal) (c : InternalModel) :
  (_deferredTriggers c = [] ->
   triggerLater args c
   = _updateInternalModel (set__deferredTriggers [args] c))
  /\ (_deferredTriggers c <> [] ->
      let queued :=
        set__deferredTriggers (_deferredTriggers c ++ [args]) c in
      triggerLater args c = Ret tt queued
      /\ (_record c = None ->
          _isDematerializing c = false ->
          exists r c2,
            getRecord VUndef queued = Ret (Some r) c2
            /\ trace c2
               = (trace c ++ FactoryCreate (fresh c) (baseOptions c)
                    :: map (RecordTrigger (fresh c))
                           (_deferredTriggers c ++ [args]))%list
            /\ _deferredTriggers c2 = []))
  /\ (forall c1,
      triggerLater args c = Ret tt c1 ->
      _record c1 = None ->
      _isDematerializing c1 = false ->
      _deferredTriggers c1 = (_deferredTriggers c ++ [args])%list ->
      exists r c2,
        getRecord VUndef c1 = Ret (Some r) c2
        /\ _record c2 = Some r
        /\ trace c2
           = (trace c1 ++ FactoryCreate (fresh c1) (baseOptions c1)
                :: map (RecordTrigger (fresh c1))
                       (_deferredTriggers c ++ [args]))%list
        /\ _deferredTriggers c2 = []).
Proof.
  assert (Hdeliver : forall c1,
    _record c1 = None ->
    _isDematerializing c1 = false ->
    exists r c2,
      getRecord VUndef c1 = Ret (Some r) c2
      /\ _record c2 = Some r
      /\ trace c2
         = (trace c1 ++ FactoryCreate (fresh c1) (baseOptions c1)
              :: map (RecordTrigger (fresh c1)) (_deferredTriggers c1))%list
      /\ _deferredTriggers c2 = []).
  { intros c1 Hr Hd. eexists. eexists.
    rewrite getRecord_create by done.
    simpl strict_eq. cbv iota. rewrite bind_ret.
    unfold bind at 1. rewrite materialize_run.
    split; [reflexivity|]. by fields. }
  split; [|split].
  - intros Hempty. unfold triggerLater.
    rewrite bind_modify, bind_gets. cbv beta. fields. by rewrite Hempty.
  - intros Hqueue. cbv zeta. split.
    + unfold triggerLater. rewrite bind_modify, bind_gets. cbv beta. fields.
      rewrite decide_False; [done|]. by rewrite length_snoc_one.
    + intros Hr Hd.
      destruct (Hdeliver
                  (set__deferredTriggers (_deferredTriggers c ++ [args]) c))
        as (r & c2 & Hrun & _ & Htrace & Hqueue2); [done..|].
      by exists r, c2.
  - intros c1 _ Hr Hd Hqueue.
    destruct (Hdeliver c1 Hr Hd) as (r & c2 & Hrun & Hr2 & Htrace & Hqueue2).
    exists r, c2. by rewrite <- Hqueue.
Qed.

Lemma didError_bare (e : JsVal) (c : InternalModel) :
  _record c = None ->
  didError e c = Ret tt (set_isError true (set_error e c)).
Proof.
  intros Hr. unfold didError. rewrite !bind_modify, bind_gets. cbv beta.
  unfold set_isError at 1. fields. by rewrite Hr.
Qed.

Lemma didCleanError_bare (c : InternalModel) :
  _record c = None ->
  didCleanError c = Ret tt (set_isError false (set_error VNull c)).
Proof.
  intros Hr. unfold didCleanError. rewrite !bind_modify, bind_gets. cbv beta.
  unfold set_isError at 1. fields. by rewrite Hr.
Qed.

(** X29: an error recorded before there is a facade reaches the facade
    when it is made, and is taken back in full by [didCleanError].  On a
    block without facade [didError] stores the error and sets [isError];
    the [getRecord] that follows hands both to the factory; [didCleanError]
    instead clears both. *)
Theorem didError_then_getRecord (e : JsVal) (c : InternalModel) :
  _record c = None ->
  _isDematerializing c = false ->
  let errored := set_isError true (set_error e c) in
  didError e c = Ret tt errored
  /\ (exists r c2,
        getRecord VUndef errored = Ret (Some r) c2
        /\ trace c2
           = (trace c
              ++ FactoryCreate (fresh c)
                   [("store", store); ("_internalModel", this);
                    ("currentState", currentState c);
                    ("isError", VBool true); ("adapterError", e)]
                 :: map (RecordTrigger (fresh c)) (_deferredTriggers c))%list)
  /\ didCleanError errored = Ret tt (set_isError false (set_error VNull c)).
Proof.
  intros Hr Hd. cbv zeta. split; [by apply didError_bare|]. split.
  - eexists. eexists. rewrite getRecord_create by done.
    simpl strict_eq. cbv iota. rewrite bind_ret.
    unfold bind at 1. rewrite materialize_run.
    split; reflexivity.
  - by rewrite didCleanError_bare.
Qed.

(** X30: [adapterDidCommit] tells the facade last, and takes the facade
    for granted.  Once the error is cleared, the model data has taken the
    commit, the state has handled [didCommit] and the membership tracker is
    told: without data the method returns; with data it passes the changed
    keys to the facade, and throws a TypeError when there is no facade. *)
Theorem adapterDidCommit_needs_facade (data : JsVal) (c c1 : InternalModel)
    (keys : JsVal) :
  commitSteps data c = Ret keys c1 ->
  (truthy data = false -> adapterDidCommit data c = Ret tt c1)
  /\ (truthy data = true ->
      adapterDidCommit data c
      = match _record c1 with
        | Some r => _notifyProperties r keys c1
        | None => Throw TypeError c1
        end).
Proof.
  intros Hsteps. unfold commitSteps in Hsteps.
  apply bind_Ret_inv in Hsteps as ([] & c2 & Hclean & Hsteps).
  apply bind_Ret_inv in Hsteps as (changed & c3 & Hcommit & Hsteps).
  apply bind_Ret_inv in Hsteps as (v & c4 & Hsend & Hsteps).
  unfold updateRecordArrays, emit in Hsteps. rewrite bind_modify in Hsteps.
  injection Hsteps as <- <-.
  unfold adapterDidCommit.
  rewrite (bind_Ret_eq _ _ _ _ _ Hclean), (bind_Ret_eq _ _ _ _ _ Hcommit).
  rewrite (bind_Ret_eq _ _ _ _ _ Hsend).
  unfold updateRecordArrays, emit. rewrite bind_modify.
  split; intros ->; [done|].
  rewrite bind_gets. cbv beta. fields. by destruct (_record c4).
Qed.

End WithSurroundings.

End Proofs.

(** * The properties on the demo graph *)

Import Demo.

Lemma demo_named_graph : named_graph.
Proof.
  split.
  - intros []; eexists; split; reflexivity.
  - intros [] []; simpl; intros Heq; try reflexivity; discriminate Heq.
Defined.

Lemma demo_call_keeps (P : InternalModel -> Prop) :
  (forall v c, P c -> P (set__deferredTriggers v c)) ->
  (forall v c, P c -> P (set_currentState v c)) ->
  graph_keeps P.
Proof.
  intros Htriggers Hstate f context c c' Hc. cbn [call collaborators].
  unfold demo_call, bind, modify, ret.
  repeat case_decide; intros [= <-]; auto.
Defined.

(** Witness of C1: the post goes from empty to loaded and saved. *)
Lemma transitionTo_order_witness :
  blockOutcome
    (transitionTo 3 "loaded.saved" {| block := post; memo := no_memo |})
  = performAll
      (transitionSteps [st empty] [st loaded; st saved] (st root))
      post.
Proof.
  apply (transitionTo_order 3 "loaded.saved"
           {| block := post; memo := no_memo |} empty
           [st empty] [st loaded; st saved] (st root)).
  - exact demo_named_graph.
  - exact memo_ok_empty.
  - reflexivity.
  - apply (climb_sound 1). reflexivity.
  - reflexivity.
  - simpl. lia.
Defined.

Lemma warm_world_memo_ok : memo_ok (memo warm_world).
Proof.
  apply (transitionTo_memo_ok 5 "deleted" fresh_world
           {| block := left_by saved_post
                         (blockOutcome (transitionTo 5 "deleted" fresh_world));
              memo := memo warm_world |} saved).
  - exact memo_ok_empty.
  - reflexivity.
  - vm_compute. reflexivity.
Defined.

(** Witness of C2: a second block in the saved state goes to deleted in a
    module whose cache already holds that transition. *)
Lemma transition_cache_transparent_witness :
  is_Some (TransitionChainMap (memo warm_world) !! "root.loaded.saved->deleted")
  /\ blockOutcome (transitionTo 5 "deleted" warm_world)
     = blockOutcome (transitionTo_uncached 5 "deleted" warm_world).
Proof.
  split.
  - vm_compute. eexists. reflexivity.
  - apply (transition_cache_transparent 5 "deleted" warm_world saved).
    + exact demo_named_graph.
    + exact warm_world_memo_ok.
    + reflexivity.
Defined.




(** Witness of C4: an event the saved state has no handler for. *)
Lemma send_dispatch_witness :
  (truthy VUndef = false ->
   exists stateName report,
     js_get (currentState saved_post) "stateName" = Some stateName
     /\ send "becomeDirty" (VStr "now") saved_post
        = Throw (EmberError report) saved_post
     /\ contains (js_to_string stateName) report
     /\ contains "becomeDirty" report
     /\ (VStr "now" <> VUndef -> contains (inspect (VStr "now")) report))
  /\ (truthy VUndef = true ->
      send "becomeDirty" (VStr "now") saved_post
      = invoke VUndef (VStr "now") saved_post)
  /\ (forall f, VUndef = VFun f ->
      send "becomeDirty" (VStr "now") saved_post
      = call f (VStr "now") saved_post).
Proof.
  apply (send_dispatch "becomeDirty" (VStr "now") saved_post VUndef).
  reflexivity.
Defined.

(** Counterexample to C6 as stated: on the deleted post, setting the title
    to the value it already has is not a no-op; it throws. *)
Lemma setDirtyAttribute_same_value_deleted :
  strict_eq (md_getAttr (_modelData deleted_post) "title") (VStr "Hello") = true
  /\ setDirtyAttribute "title" (VStr "Hello") deleted_post
     = Throw
         (EmberError
            "Attempted to set 'title' to 'Hello' on the deleted record <post:null>")
         deleted_post.
Proof. split; reflexivity. Qed.

(** Witness of C6 as the code has it, on the saved post. *)
Lemma setDirtyAttribute_cases_witness :
  setDirtyAttribute "title" (VStr "Hello") saved_post
  = Ret (VStr "Hello") saved_post.
Proof.
  apply (setDirtyAttribute_cases "title" (VStr "Hello") saved_post
           (VBool false));
    reflexivity.
Defined.

(** Counterexample to C7 as stated: the post has no facade and one many
    array in its active cache; after [unloadRecord] the many array is still
    in the active cache and not in the retained one. *)
Lemma unloadRecord_keeps_active_without_facade :
  isDestroyed post_with_comments = false
  /\ _record post_with_comments = None
  /\ obj_get (_manyArrayCache post_with_comments) "comments" = Some 0
  /\ exists c',
      unloadRecord post_with_comments = Ret tt c'
      /\ obj_get (_manyArrayCache c') "comments" = Some 0
      /\ obj_get (_retainedManyArrayCache c') "comments" = None.
Proof.
  split; [vm_compute; reflexivity|].
  split; [vm_compute; reflexivity|].
  split; [vm_compute; reflexivity|].
  exists (left_by post_with_comments (unloadRecord post_with_comments)).
  split; [vm_compute; reflexivity|].
  split; vm_compute; reflexivity.
Qed.

(** Witness of C7 as the code has it: the post with its facade and with its
    comments in the active cache, once the event was sent. *)
Lemma unloadRecord_steps_witness :
  (exists r, _record unloading_commented_post = Some r)
  /\ obj_get (_manyArrayCache unloading_commented_post) "comments" = Some 1
  /\ exists c2,
      dematerializeRecord unloading_commented_post = Ret tt c2
      /\ _record c2 = None
      /\ _isDematerializing c2 = true
      /\ _scheduledDestroy c2 = _scheduledDestroy unloading_commented_post
      /\ match _record unloading_commented_post with
         | Some r =>
             RecordDestroy (r_id r) ∈ trace c2
             /\ _manyArrayCache c2 = []
             /\ forall k,
                 obj_get (_retainedManyArrayCache c2) k
                 = match obj_get (_manyArrayCache unloading_commented_post) k
                   with
                   | Some m => Some m
                   | None =>
                       obj_get
                         (_retainedManyArrayCache unloading_commented_post) k
                   end
         | None =>
             _manyArrayCache c2 = _manyArrayCache unloading_commented_post
             /\ _retainedManyArrayCache c2
                = _retainedManyArrayCache unloading_commented_post
         end
      /\ unloadRecord commented_post
         = match _scheduledDestroy unloading_commented_post with
           | Some _ => Ret tt c2
           | None =>
               if currentRunLoop unloading_commented_post
                  || testing unloading_commented_post
               then
                 Ret tt
                   (set__scheduledDestroy (Some (fresh c2))
                      (set_trace (trace c2 ++ [Schedule (fresh c2)])
                         (set_fresh (S (fresh c2)) c2)))
               else
                 Throw (AssertionFailed autorunMessage) c2
           end.
Proof.
  split; [eexists; vm_compute; reflexivity|].
  split; [vm_compute; reflexivity|].
  exact (unloadRecord_steps commented_post eq_refl).
Defined.

(** Witness of C9: the destroyed post. *)
Lemma unloadRecord_destroyed_noop_witness :
  unloadRecord destroyed_post = Ret tt destroyed_post
  /\ exists msg,
      cancelDestroy destroyed_post = Throw (AssertionFailed msg) destroyed_post.
Proof. apply (unloadRecord_destroyed_noop destroyed_post). reflexivity. Defined.

(** Witness of C10: the functions of the demo graph destroy nothing. *)
Lemma orphan_check_only_clears_flags_witness :
  _checkForOrphanedInternalModels unloading_post
  = Ret tt (set__scheduledDestroy None
              (set__isDematerializing false unloading_post)).
Proof.
  apply orphan_check_only_clears_flags.
  apply demo_call_keeps; intros v c Hc; exact Hc.
Defined.

(** ** The scenarios of the specification, run *)

(** The post goes from empty to loaded and saved: the enter hook of
    [loaded], then the setup hook of [saved], then the notice. *)
Example transition_empty_to_saved :
  blockOutcome
    (transitionTo 3 "loaded.saved" {| block := post; memo := no_memo |})
  = Ret tt
      (set_trace [RecordDidChange]
         (set__deferredTriggers [[VFun 2; VUndef]; [VFun 3; VUndef]]
            (set_currentState (st saved) post))).
Proof. vm_compute. reflexivity. Qed.

(** A target that no ancestor holds runs every exit hook up to the root
    and then fails on the parent of the root. *)
Example transition_to_nowhere :
  blockOutcome
    (transitionTo 3 "nowhere" {| block := saved_post; memo := no_memo |})
  = Throw TypeError saved_post.
Proof. vm_compute. reflexivity. Qed.

(** Too small a loop budget cuts the climb off. *)
Example transition_out_of_budget :
  blockOutcome
    (transitionTo 1 "deleted" {| block := saved_post; memo := no_memo |})
  = Timeout.
Proof. vm_compute. reflexivity. Qed.

(** [setId(5)] on the materialised post, whose id is null, stores the id
    and tells the facade; [setId(6)] on the post that now has an id and is
    not new is refused. *)
Lemma setId_identity_conflict_witness :
  setId (VStr "5") materialized_post
  = Ret tt
      (set_trace
         (trace materialized_post ++ [RecordNotifyPropertyChange 0 "id"])
         (set_id (VStr "5") materialized_post))
  /\ setId (VStr "6") persisted_post
     = Throw
         (AssertionFailed
            "A record's id cannot be changed once it is in the loaded state")
         persisted_post.
Proof.
  split.
  - apply (proj2 (setId_identity_conflict (VStr "5") materialized_post)).
    left. reflexivity.
  - apply (proj1 (setId_identity_conflict (VStr "6") persisted_post)
             (VBool false));
      reflexivity.
Defined.

(** Two calls of [getRecord] in a row hand out the same facade. *)
Lemma getRecord_idempotent_witness :
  getRecord VUndef materialized_post
  = Ret (Some {| r_id := 0; r_isDestroyed := false; r_isDestroying := false |})
        materialized_post.
Proof.
  apply (proj2 getRecord_idempotent VUndef VUndef saved_post materialized_post
           {| r_id := 0; r_isDestroyed := false; r_isDestroying := false |}).
  vm_compute. reflexivity.
Defined.

(** Unloading the materialised post with its comments: the comments move
    to the retained cache; asking for them again makes a new many array
    and destroys the retained one. *)
Example unload_then_get_comments :
  let loaded_comments :=
    left_by materialized_post (getManyArray "comments" materialized_post) in
  let unloaded := left_by loaded_comments (unloadRecord loaded_comments) in
  let again := left_by unloaded (getManyArray "comments" unloaded) in
  _manyArrayCache loaded_comments = [("comments", 1)]
  /\ _manyArrayCache unloaded = []
  /\ _retainedManyArrayCache unloaded = [("comments", 1)]
  /\ _manyArrayCache again = [("comments", 3)]
  /\ _retainedManyArrayCache again = []
  /\ ManyArrayDestroy 1 ∈ trace again.
Proof.
  repeat split; try (vm_compute; reflexivity).
  vm_compute. repeat first [apply list_elem_of_here | apply list_elem_of_further].
Qed.

(** ** The further properties on the demo graph *)

(** [splitOnDot] on a two-segment target, with empty tables. *)
Lemma splitOnDot_segments_witness :
  exists path w1,
    splitOnDot "loaded.saved" fresh_world = Ret path w1
    /\ join_dot path = "loaded.saved"
    /\ Forall (fun segment => dot_free segment = true) path
    /\ path <> []
    /\ block w1 = block fresh_world.
Proof.
  apply (splitOnDot_segments "loaded.saved" fresh_world).
  exact memo_ok_empty.
Defined.

(** The second [splitOnDot] of the same target finds it in the table. *)
Lemma splitOnDot_memoized_witness :
  _splitOnDotCache (memo split_world) !! "loaded.saved"
  = Some ["loaded"; "saved"]
  /\ splitOnDot "loaded.saved" split_world
     = Ret ["loaded"; "saved"] split_world
  /\ (forall other, other <> "loaded.saved" ->
        _splitOnDotCache (memo split_world) !! other
        = _splitOnDotCache (memo fresh_world) !! other)
  /\ TransitionChainMap (memo split_world)
     = TransitionChainMap (memo fresh_world)
  /\ _extractPivotNameCache (memo split_world)
     = _extractPivotNameCache (memo fresh_world)
  /\ block split_world = block fresh_world.
Proof.
  apply (splitOnDot_memoized "loaded.saved" fresh_world split_world
           ["loaded"; "saved"]).
  vm_compute. reflexivity.
Defined.

(** The pivot of a two-segment target is its first segment. *)
Lemma extractPivotName_before_dot_witness :
  exists w1,
    extractPivotName "loaded.saved" fresh_world
    = Ret (VStr (before_dot "loaded.saved")) w1
    /\ (dot_free "loaded.saved" = true
        -> before_dot "loaded.saved" = "loaded.saved")
    /\ memo_ok (memo w1)
    /\ block w1 = block fresh_world.
Proof.
  apply (extractPivotName_before_dot "loaded.saved" fresh_world).
  exact memo_ok_empty.
Defined.

(** The first transition from saved to deleted fills the tables. *)
Lemma transitionTo_tables_grow_witness :
  memo_le (memo fresh_world) (memo deleted_world)
  /\ memo_ok (memo deleted_world)
  /\ is_Some (TransitionChainMap (memo deleted_world)
              !! transitionMapId (stateNameOf saved) "deleted").
Proof.
  apply (transitionTo_tables_grow 5 "deleted" fresh_world deleted_world saved).
  - exact memo_ok_empty.
  - reflexivity.
  - vm_compute. reflexivity.
Defined.


(** The updated post sent to [updated] again: its exit hook, its enter
    hook and its setup hook run, in this order. *)
Lemma transitionTo_sibling_witness :
  blockOutcome
    (transitionTo 1 "updated" {| block := updated_post; memo := no_memo |})
  = performAll
      (hooksOf "exit" [st updated]
       ++ hooksOf "enter" [st updated]
       ++ [SetCurrentState (st updated)]
       ++ hooksOf "setup" [st updated]
       ++ [NotifyMembership])
      updated_post
  /\ _deferredTriggers
       (left_by updated_post
          (blockOutcome
             (transitionTo 1 "updated"
                {| block := updated_post; memo := no_memo |})))
     = (_deferredTriggers updated_post
        ++ [[VFun 5; VUndef]; [VFun 4; VUndef]; [VFun 6; VUndef]])%list.
Proof.
  split; [|vm_compute; reflexivity].
  apply (transitionTo_sibling 1 "updated"
           {| block := updated_post; memo := no_memo |} updated
           (st loaded) (st updated));
    [exact demo_named_graph | exact memo_ok_empty | reflexivity..| lia].
Defined.

(** Materialising the saved post delivers the trigger queued when its data
    was pushed. *)
Lemma getRecord_delivers_triggers_witness :
  getRecord VUndef saved_post
  = Ret (Some {| r_id := fresh saved_post; r_isDestroyed := false;
                 r_isDestroying := false |})
      (set__deferredTriggers []
         (set_trace
            (trace saved_post
             ++ FactoryCreate (fresh saved_post) (baseOptions saved_post)
                :: map (RecordTrigger (fresh saved_post))
                       (_deferredTriggers saved_post))
            (set__record
               (Some {| r_id := fresh saved_post; r_isDestroyed := false;
                        r_isDestroying := false |})
               (set_fresh (S (fresh saved_post)) saved_post))))
  /\ _deferredTriggers saved_post = [[VFun 11; VUndef]].
Proof.
  split; [|reflexivity].
  apply (getRecord_delivers_triggers saved_post); reflexivity.
Defined.

(** Null for properties is refused. *)
Lemma getRecord_rejects_non_object_witness :
  exists msg, getRecord VNull saved_post = Throw (AssertionFailed msg) saved_post.
Proof.
  apply (getRecord_rejects_non_object VNull saved_post);
    [reflexivity | reflexivity | discriminate | reflexivity].
Defined.

(** A nickname and an error flag for properties: neither is a field of the
    class. *)
Lemma getRecord_plain_properties_witness :
  exists options c',
    getRecord (VObj [("isError", VBool true); ("nickname", VStr "P")])
              saved_post
    = Ret (Some {| r_id := fresh saved_post; r_isDestroyed := false;
                   r_isDestroying := false |}) c'
    /\ trace c'
       = (trace saved_post ++ FactoryCreate (fresh saved_post) options
            :: map (RecordTrigger (fresh saved_post))
                   (_deferredTriggers saved_post))%list
    /\ (forall k,
          obj_get options k
          = match obj_get [("isError", VBool true); ("nickname", VStr "P")] k
            with
            | Some v => Some v
            | None => obj_get (baseOptions saved_post) k
            end)
    /\ _modelData c' = _modelData saved_post
    /\ id c' = id saved_post.
Proof.
  apply (getRecord_plain_properties
           [("isError", VBool true); ("nickname", VStr "P")] saved_post);
    [reflexivity | reflexivity |].
  change (obj_keys [("isError", VBool true); ("nickname", VStr "P")])
    with ["isError"; "nickname"].
  intros k Hk. apply elem_of_cons in Hk as [->|Hk]; [by split|].
  apply elem_of_cons in Hk as [->|Hk]; [by split|].
  by apply elem_of_nil in Hk.
Defined.

(** An id for only property, on the saved post, which has none. *)
Lemma getRecord_id_property_witness :
  getRecord (VObj [("id", VStr "7")]) saved_post
  = Ret (Some {| r_id := fresh saved_post; r_isDestroyed := false;
                 r_isDestroying := false |})
      (set__deferredTriggers []
         (set_trace
            (trace saved_post
             ++ FactoryCreate (fresh saved_post) (baseOptions saved_post)
                :: map (RecordTrigger (fresh saved_post))
                       (_deferredTriggers saved_post))
            (set__record
               (Some {| r_id := fresh saved_post; r_isDestroyed := false;
                        r_isDestroying := false |})
               (set_fresh (S (fresh saved_post))
                  (set_id (VStr "7") saved_post))))).
Proof.
  apply (getRecord_id_property (VStr "7") saved_post); reflexivity.
Defined.

(** A new title and then null for comments: the title is staged, the
    comments are refused, and no facade is made. *)
Lemma getRecord_throw_makes_nothing_witness :
  let properties := VObj [("title", VStr "New"); ("comments", VNull)] in
  let c' := left_by saved_post (getRecord properties saved_post) in
  let e :=
    AssertionFailed
      "You must pass an array of records to set a hasMany relationship" in
  getRecord properties saved_post = Throw e c'
  /\ _modelData c' = [("title", "New")]
  /\ _record c' = None
  /\ (is_object properties = false
      /\ e = AssertionFailed
               ("You passed '" +:+ js_to_string properties
                +:+ "' as properties for record creation instead "
                +:+ "of an object.")
      /\ c' = saved_post
      \/ is_object properties = true
         /\ exists applied name rest createOptions c1,
             own_keys properties = (applied ++ name :: rest)%list
             /\ initProperties properties applied (baseOptions saved_post)
                               saved_post
                = Ret createOptions c1
             /\ initProperties properties [name] createOptions c1
                = Throw e c').
Proof.
  cbv zeta. split; [vm_compute; reflexivity|].
  split; [vm_compute; reflexivity|].
  apply (getRecord_throw_makes_nothing
           (VObj [("title", VStr "New"); ("comments", VNull)]) saved_post
           (left_by saved_post
              (getRecord (VObj [("title", VStr "New"); ("comments", VNull)])
                         saved_post))
           (AssertionFailed
              "You must pass an array of records to set a hasMany relationship")).
  - apply demo_call_keeps; intros v c Hc; exact Hc.
  - reflexivity.
  - vm_compute. reflexivity.
Defined.

(** The unloaded post is not made again, and is hidden. *)
Lemma getRecord_after_unloadRecord_witness :
  getRecord VUndef unloaded_post = Ret None unloaded_post.
Proof.
  apply (getRecord_after_unloadRecord VUndef saved_post unloaded_post);
    [reflexivity | vm_compute; reflexivity].
Defined.

Lemma unloaded_is_hidden_witness :
  isHiddenFromRecordArrays unloaded_post = Ret (VBool true) unloaded_post.
Proof.
  apply (unloaded_is_hidden saved_post unloaded_post).
  vm_compute. reflexivity.
Defined.

(** Cancelling the destroy of the unloaded post. *)
Lemma unloadRecord_then_cancelDestroy_witness :
  exists timer c2,
    _scheduledDestroy unloaded_post = Some timer
    /\ cancelDestroy unloaded_post = Ret tt c2
    /\ trace c2 = (trace unloaded_post ++ [Cancel (Some timer)])%list
    /\ _scheduledDestroy c2 = None
    /\ _isDematerializing c2 = false
    /\ _doNotDestroy c2 = true
    /\ _record c2 = None
    /\ currentState c2 = VState RootState_empty
    /\ exists r c3, getRecord VUndef c2 = Ret (Some r) c3.
Proof.
  apply (unloadRecord_then_cancelDestroy saved_post unloaded_post);
    [reflexivity | vm_compute; reflexivity | reflexivity].
Defined.

Lemma cancelDestroy_shields_once_witness :
  exists c1,
    cancelDestroy unloaded_post = Ret tt c1
    /\ destroyFromModelData c1 = Ret tt (set__doNotDestroy false c1)
    /\ isDestroyed (set__doNotDestroy false c1) = false
    /\ destroyFromModelData (set__doNotDestroy false c1)
       = destroy (set__doNotDestroy false c1).
Proof. apply (cancelDestroy_shields_once unloaded_post). reflexivity. Defined.

(** The unloaded post that retains its comments, destroyed at once. *)
Lemma destroySync_destroys_witness :
  exists c',
    destroySync unloaded_commented_post = Ret tt c'
    /\ isDestroyed c' = true
    /\ _isDematerializing c' = false
    /\ _scheduledDestroy c' = None
    /\ _retainedManyArrayCache c' = []
    /\ last (trace c') = Some RemoveFromIdMap
    /\ if _isDematerializing unloaded_commented_post then
         Cancel (_scheduledDestroy unloaded_commented_post) ∈ trace c'
         /\ _doNotDestroy c' = true
       else _doNotDestroy c' = _doNotDestroy unloaded_commented_post.
Proof.
  apply (destroySync_destroys unloaded_commented_post); reflexivity.
Defined.

(** The comments of the saved post, asked for twice. *)
Lemma getManyArray_idempotent_witness :
  getManyArray "comments" post_with_comments = Ret 0 post_with_comments.
Proof.
  apply (getManyArray_idempotent "comments" saved_post post_with_comments 0).
  vm_compute. reflexivity.
Defined.

(** The flags of the unloaded post. *)
Lemma flags_stay_consistent_witness :
  (isDestroyed unloaded_post = true -> isDestroying unloaded_post = true)
  /\ (hasScheduledDestroy unloaded_post = true
      -> _isDematerializing unloaded_post = true).
Proof.
  apply (flags_stay_consistent unloaded_post).
  - apply demo_call_keeps; intros v c Hc; exact Hc.
  - apply (reachable_step saved_post OpUnloadRecord);
      [|vm_compute; reflexivity].
    apply (reachable_step post (OpSend "pushedData" VUndef));
      [|vm_compute; reflexivity].
    apply reachable_new.
Defined.

(** The trigger queued on the saved post stays queued as long as there is
    no facade. *)
Lemma triggerDeferredTriggers_once_witness :
  _triggerDeferredTriggers saved_post = Ret tt saved_post.
Proof. exact (triggerDeferredTriggers_once saved_post). Defined.

(** [destroySync] on the destroyed post only clears the schedule. *)
Lemma destroySync_guarded_witness :
  destroySync destroyed_post
  = Ret tt (set__scheduledDestroy None
              (set__isDematerializing false destroyed_post)).
Proof.
  apply (proj1 (destroySync_guarded destroyed_post)); reflexivity.
Defined.

(** The comments of the unloaded post are made anew; the retained many
    array is destroyed. *)
Lemma getManyArray_cases_witness :
  getManyArray "comments" unloaded_commented_post
  = Ret (fresh unloaded_commented_post)
      (set__retainedManyArrayCache
         (obj_delete "comments"
            (_retainedManyArrayCache unloaded_commented_post))
         (set_trace
            (trace unloaded_commented_post
             ++ [ManyArrayCreate (fresh unloaded_commented_post) "comments";
                 ManyArrayDestroy 1])
            (set__manyArrayCache
               (obj_set "comments" (fresh unloaded_commented_post)
                  (_manyArrayCache unloaded_commented_post))
               (set_fresh (S (fresh unloaded_commented_post))
                  unloaded_commented_post)))).
Proof. exact (getManyArray_cases "comments" unloaded_commented_post). Defined.

(** Arrays given to [setDirtyHasMany] on the saved post: with null as the
    second element the first is asked and the second throws; two records
    are staged. *)
Lemma setDirtyHasMany_validates_witness :
  @setDirtyHasMany _ array_collaborators "comments"
    (VObj [("0", VRef 5); ("1", VNull)]) saved_post
  = Throw TypeError saved_post
  /\ @setDirtyHasMany _ array_collaborators "comments"
       (VObj [("0", VRef 5); ("1", VRef 6)]) saved_post
     = Ret tt
         (set__modelData [("title", "Hello"); ("comments", "comment,comment")]
            saved_post).
Proof.
  split.
  - exact (proj1 (proj2 (@setDirtyHasMany_validates _ array_collaborators
                           "comments" (VObj [("0", VRef 5); ("1", VNull)])
                           saved_post))
             [VRef 5; VNull] VNull eq_refl eq_refl).
  - exact (proj1 (proj2 (proj2
             (@setDirtyHasMany_validates _ array_collaborators
                "comments" (VObj [("0", VRef 5); ("1", VRef 6)])
                saved_post)))
             [VRef 5; VRef 6] eq_refl eq_refl).
Defined.


(** The post with a proxy that cannot be destroyed: telling it that its
    comments changed is a TypeError, dematerialising it drops the proxy
    without a call. *)
Lemma notifyPropertyChange_effects_witness :
  (exists c',
      notifyPropertyChange "comments" promised_post = Throw TypeError c')
  /\ exists c',
      dematerializeRecord promised_post = Ret tt c'
      /\ _relationshipPromisesCache c' = []
      /\ forall n,
          PromiseDestroy n ∈ trace c' ->
          PromiseDestroy n ∈ trace promised_post
          \/ exists k q,
              obj_get (_relationshipPromisesCache promised_post) k = Some q
              /\ p_destroy q = true /\ p_id q = n.
Proof.
  exact (proj2 (notifyPropertyChange_effects "comments" promised_post)
           {| p_id := 9; p_destroy := false |} eq_refl eq_refl).
Defined.

(** ** Further scenarios, run *)

(** Leaving the updated state for a target that is nowhere: the exit hook
    of [updated] has run, the current state is still [updated]. *)
Example transition_from_updated_to_nowhere :
  blockOutcome
    (transitionTo 3 "nowhere" {| block := updated_post; memo := no_memo |})
  = Throw TypeError
      (set__deferredTriggers
         (_deferredTriggers updated_post ++ [[VFun 5; VUndef]]) updated_post)
  /\ currentState updated_post = st updated.
Proof. split; vm_compute; reflexivity. Qed.

(** The materialised post cannot be destroyed; the unloaded one can, and
    [destroySync] on the result throws, as the post is still marked as being
    dematerialised. *)
Example destroy_then_destroySync :
  let gone := left_by unloaded_post (destroy unloaded_post) in
  isRecordInUse materialized_post = Ret (VBool true) materialized_post
  /\ destroy materialized_post
     = Throw (AssertionFailed
                "Cannot destroy an internalModel while its record is materialized")
             materialized_post
  /\ isDestroyed gone = true
  /\ _isDematerializing gone = true
  /\ destroySync gone
     = Throw (AssertionFailed
                "You cannot cancel the destruction of an InternalModel once it has already been destroyed")
             gone.
Proof. repeat split; vm_compute; reflexivity. Qed.

(** The notices on the saved post: [deleteRecord] is handled, [notFound]
    is not. *)
Example notices_on_saved_post :
  currentState (left_by saved_post (deleteRecord saved_post)) = st deleted
  /\ notFound saved_post
     = Throw
         (EmberError
            "Attempted to handle event `notFound` on <post:null> while in state root.loaded.saved. ")
         saved_post.
Proof. split; vm_compute; reflexivity. Qed.

(** A first trigger, on the new post, and a trigger that joins the queue
    of the saved post: each is handed to the facade that the next
    [getRecord] makes, as the last of its queue. *)
Lemma triggerLater_then_getRecord_witness :
  (triggerLater [VStr "didLoad"] post
   = Ret tt (set__deferredTriggers [[VStr "didLoad"]] post)
   /\ exists r c2,
       getRecord VUndef (set__deferredTriggers [[VStr "didLoad"]] post)
       = Ret (Some r) c2
       /\ _record c2 = Some r
       /\ trace c2
          = [FactoryCreate 0 (baseOptions post);
             RecordTrigger 0 [VStr "didLoad"]]
       /\ _deferredTriggers c2 = [])
  /\ (triggerLater [VStr "didLoad"] saved_post
      = Ret tt
          (set__deferredTriggers
             (_deferredTriggers saved_post ++ [[VStr "didLoad"]]) saved_post)
      /\ exists r c2,
          getRecord VUndef
            (set__deferredTriggers
               (_deferredTriggers saved_post ++ [[VStr "didLoad"]])
               saved_post)
          = Ret (Some r) c2
          /\ _record c2 = Some r
          /\ trace c2
             = (trace saved_post
                ++ FactoryCreate (fresh saved_post) (baseOptions saved_post)
                   :: map (RecordTrigger (fresh saved_post))
                          (_deferredTriggers saved_post
                           ++ [[VStr "didLoad"]]))%list
          /\ _deferredTriggers c2 = []).
Proof.
  split; split.
  - exact (proj1 (triggerLater_then_getRecord [VStr "didLoad"] post) eq_refl).
  - exact (proj2 (proj2 (triggerLater_then_getRecord [VStr "didLoad"] post))
             (set__deferredTriggers [[VStr "didLoad"]] post)
             eq_refl eq_refl eq_refl eq_refl).
  - apply (proj1 (proj2 (triggerLater_then_getRecord [VStr "didLoad"]
                           saved_post))).
    discriminate.
  - exact (proj2 (proj2 (triggerLater_then_getRecord [VStr "didLoad"]
                           saved_post))
             (set__deferredTriggers
                (_deferredTriggers saved_post ++ [[VStr "didLoad"]])
                saved_post)
             eq_refl eq_refl eq_refl eq_refl).
Defined.

(** An error on the saved post, before it has a facade. *)
Lemma didError_then_getRecord_witness :
  didError (VStr "timeout") saved_post
  = Ret tt (set_isError true (set_error (VStr "timeout") saved_post))
  /\ (exists r c2,
        getRecord VUndef
                  (set_isError true (set_error (VStr "timeout") saved_post))
        = Ret (Some r) c2
        /\ trace c2
           = (trace saved_post
              ++ FactoryCreate (fresh saved_post)
                   [("store", store); ("_internalModel", this);
                    ("currentState", currentState saved_post);
                    ("isError", VBool true);
                    ("adapterError", VStr "timeout")]
                 :: map (RecordTrigger (fresh saved_post))
                        (_deferredTriggers saved_post))%list)
  /\ didCleanError (set_isError true (set_error (VStr "timeout") saved_post))
     = Ret tt (set_isError false (set_error VNull saved_post)).
Proof.
  apply (didError_then_getRecord (VStr "timeout") saved_post); reflexivity.
Defined.

(** A commit with data on the post without facade. *)
Lemma adapterDidCommit_needs_facade_witness :
  let committed := left_by saving_post (commitSteps (VObj []) saving_post) in
  (truthy (VObj []) = false ->
   adapterDidCommit (VObj []) saving_post = Ret tt committed)
  /\ (truthy (VObj []) = true ->
      adapterDidCommit (VObj []) saving_post
      = match _record committed with
        | Some r => _notifyProperties r VNull committed
        | None => Throw TypeError committed
        end).
Proof.
  cbv zeta.
  apply (adapterDidCommit_needs_facade (VObj []) saving_post
           (left_by saving_post (commitSteps (VObj []) saving_post)) VNull).
  vm_compute. reflexivity.
Defined.

(** The commit on the post without facade fails once the state has handled
    [didCommit] and the membership tracker is told; without data it
    returns. *)
Example commit_without_facade :
  adapterDidCommit (VObj []) saving_post
  = Throw TypeError
      (set_trace (trace saving_post ++ [RecordDidChange])
         (set__deferredTriggers
            (_deferredTriggers saving_post ++ [[VFun 20; VUndef]])
            saving_post))
  /\ adapterDidCommit VUndef saving_post
     = Ret tt
         (set_trace (trace saving_post ++ [RecordDidChange])
            (set__deferredTriggers
               (_deferredTriggers saving_post ++ [[VFun 20; VUndef]])
               saving_post)).
Proof. split; vm_compute; reflexivity. Qed.

(** Arrays given to [setDirtyHasMany]: two records are staged, the empty
    array is staged, a string among the elements is refused by the second
    assertion, null among them is a TypeError, and so is an object that
    owns [_internalModel] without being a record. *)
Example setDirtyHasMany_on_arrays :
  let set := @setDirtyHasMany _ array_collaborators "comments" in
  set (VObj [("0", VRef 5); ("1", VRef 6)]) saved_post
  = Ret tt (set__modelData [("title", "Hello"); ("comments", "comment,comment")]
              saved_post)
  /\ set (VObj []) saved_post
     = Ret tt (set__modelData [("title", "Hello"); ("comments", "")]
                 saved_post)
  /\ set (VObj [("0", VRef 5); ("1", VStr "six")]) saved_post
     = Throw (AssertionFailed
                "All elements of a hasMany relationship must be instances of DS.Model, you passed [object Object]")
             saved_post
  /\ set (VObj [("0", VNull); ("1", VStr "six")]) saved_post
     = Throw TypeError saved_post
  /\ set (VObj [("0", VRef 5); ("1", VObj [("_internalModel", VNull)])])
         saved_post
     = Throw TypeError saved_post.
Proof. repeat split; vm_compute; reflexivity. Qed.
